(** * Material service of MoneyPrinterTurbo: a shallow embedding

    This development embeds [app/services/material.py] (key rotation, the four
    provider search adapters, the on-disk asset cache and the two download
    orchestrators) and proves properties of it.

    Conventions of the embedding:
    - Python numbers read from JSON or passed as [float] are rationals ([Q]);
      [int] parameters are [Z]; the rotation counter is a [nat].
    - Module-global and external mutable state (the counter [requested_count],
      the file system, the log written through [logger], the list of HTTP
      requests issued so far, the number of random draws consumed) lives in
      one record [world]; every function of the module is a computation
      [M A := world -> result A * world] that either returns or raises, and
      in both cases leaves a world behind.
    - Collaborators that are not part of the module (the HTTP peer, the video
      probe, the image codec, [utils.md5], the storage directories, the
      configuration, the random source) are variables of the section.
    - A log record keeps the level and the fixed part of the message; a
      request keeps its URL and headers (proxy, TLS and timeout settings do
      not change what the module does with the answer).
    - [MaterialInfo.url] is a string, as declared: a JSON value of another
      type in its place is refused with a [TypeError]. *)

From Stdlib Require Import QArith Qround Lqa Strings.Byte Ascii String.
From stdpp Require Import base option list gmap strings pretty.

Local Open Scope string_scope.
Local Open Scope list_scope.

(** ** Exceptions and the state-and-exception monad *)

Inductive exn : Type :=
  | ValueError | KeyError | TypeError | IndexError | AttributeError
  | OSError | RequestException | JSONDecodeError.

Inductive result (A : Type) : Type :=
  | Ok (a : A)
  | Raise (e : exn).
Arguments Ok {A} a.
Arguments Raise {A} e.

Inductive log_level : Type := INFO | WARNING | ERROR | SUCCESS.

Record log_record : Type := LogRecord {
  level : log_level;
  message : string
}.

(** A node of the file system: a regular file with its bytes, or a directory
    with the size [os.path.getsize] reports for it. *)
Inductive node : Type :=
  | File (content : list byte)
  | Dir (st_size : N).

Record request : Type := Request {
  req_url : string;
  req_headers : list (string * string)
}.

Record world : Type := World {
  requested_count : nat;
  fs : gmap string node;
  http_log : list request;
  rand_calls : nat;
  log : list log_record
}.

Definition M (A : Type) : Type := world -> result A * world.

#[global] Instance result_ret : MRet result := fun A a => Ok a.

#[global] Instance result_bind : MBind result := fun A B k r =>
  match r with
  | Ok a => k a
  | Raise e => Raise e
  end.

#[global] Instance result_fmap : FMap result := fun A B f r =>
  match r with
  | Ok a => Ok (f a)
  | Raise e => Raise e
  end.

#[global] Instance M_ret : MRet M := fun A a w => (Ok a, w).

#[global] Instance M_bind : MBind M := fun A B k c w =>
  match c w with
  | (Ok a, w') => k a w'
  | (Raise e, w') => (Raise e, w')
  end.

Definition raise {A} (e : exn) : M A := fun w => (Raise e, w).

(** A computation that does not touch the world. *)
Definition pure {A} (r : result A) : M A := fun w => (r, w).

(** [try: c except Exception as e: h e] *)
Definition try_except {A} (c : M A) (h : exn -> M A) : M A := fun w =>
  match c w with
  | (Ok a, w') => (Ok a, w')
  | (Raise e, w') => h e w'
  end.

(** ** Primitive effects *)

Definition logger (lv : log_level) (msg : string) : M unit := fun w =>
  (Ok tt, World (requested_count w) (fs w) (http_log w) (rand_calls w)
                (log w ++ [LogRecord lv msg])).

Definition incr_requested_count : M unit := fun w =>
  (Ok tt, World (S (requested_count w)) (fs w) (http_log w) (rand_calls w) (log w)).

Definition get_requested_count : M nat := fun w => (Ok (requested_count w), w).

Definition get_fs : M (gmap string node) := fun w => (Ok (fs w), w).

Definition put_fs (m : gmap string node) : M unit := fun w =>
  (Ok tt, World (requested_count w) m (http_log w) (rand_calls w) (log w)).

(** [os.path.exists] *)
Definition os_path_exists (path : string) : M bool :=
  m ← get_fs; mret (bool_decide (is_Some (m !! path))).

(** [os.path.isdir] *)
Definition os_path_isdir (path : string) : M bool :=
  m ← get_fs;
  mret (match m !! path with Some (Dir _) => true | _ => false end).

(** [os.path.getsize] *)
Definition os_path_getsize (path : string) : M N :=
  m ← get_fs;
  match m !! path with
  | Some (File b) => mret (N.of_nat (length b))
  | Some (Dir n) => mret n
  | None => raise OSError
  end.

(** [os.path.exists(path) and os.path.getsize(path) > 0] *)
Definition exists_nonempty (path : string) : M bool :=
  e ← os_path_exists path;
  if e : bool then (sz ← os_path_getsize path; mret (0 <? sz)%N) else mret false.

(** [open(path, "wb")]: the file is created or truncated; the directory
    [parent] that holds it has to be there. *)
Definition open_wb (parent path : string) : M unit :=
  m ← get_fs;
  match m !! parent with
  | Some (Dir _) =>
      match m !! path with
      | Some (Dir _) => raise OSError
      | _ => put_fs (<[path := File []]> m)
      end
  | _ => raise OSError
  end.

(** [f.write(data)] on the file opened by [open_wb], and its closing. *)
Definition write_file (path : string) (data : list byte) : M unit :=
  m ← get_fs; put_fs (<[path := File data]> m).

(** [try: os.remove(path) except Exception: pass] *)
Definition os_remove_quiet (path : string) : M unit :=
  m ← get_fs;
  match m !! path with
  | Some (File _) => put_fs (delete path m)
  | _ => mret tt
  end.

(** ** Strings *)

(** [s.split("?")[0]] *)
Fixpoint before_query (s : string) : string :=
  match s with
  | EmptyString => EmptyString
  | String c r => if Ascii.eqb c "?"%char then EmptyString else String c (before_query r)
  end.

Definition is_space (c : Ascii.ascii) : bool :=
  let n := Ascii.nat_of_ascii c in
  ((9 <=? n) && (n <=? 13) || (28 <=? n) && (n <=? 32))%nat.

Fixpoint lstrip (s : string) : string :=
  match s with
  | EmptyString => EmptyString
  | String c r => if is_space c then lstrip r else s
  end.

Fixpoint rstrip (s : string) : string :=
  match s with
  | EmptyString => EmptyString
  | String c r =>
      let r' := rstrip r in
      if is_space c && String.eqb r' "" then EmptyString else String c r'
  end.

(** [s.strip()] *)
Definition strip (s : string) : string := rstrip (lstrip s).

(** [sub in s] on two strings *)
Definition is_substring (sub s : string) : bool :=
  match String.index 0 sub s with Some _ => true | None => false end.

Fixpoint chars (s : string) : list string :=
  match s with
  | EmptyString => []
  | String c r => String c EmptyString :: chars r
  end.

(** ** JSON values, as [r.json()] hands them to Python *)

(** The items of an object are kept in their order; a Python [dict] has no
    two items with one key, and lookup takes the first binding. *)
Unset Elimination Schemes.
Inductive json : Type :=
  | JNull
  | JBool (b : bool)
  | JInt (z : Z)
  | JFloat (q : Q)
  | JStr (s : string)
  | JArr (l : list json)
  | JObj (items : list (string * json)).
Set Elimination Schemes.

Fixpoint assoc {A} (k : string) (l : list (string * A)) : option A :=
  match l with
  | [] => None
  | (k', v) :: r => if String.eqb k' k then Some v else assoc k r
  end.

Definition is_str (s : string) (v : json) : bool :=
  match v with JStr t => String.eqb t s | _ => false end.

(** [key in c] for a string [key] *)
Definition py_contains (key : string) (c : json) : result bool :=
  match c with
  | JObj items => Ok (bool_decide (is_Some (assoc key items)))
  | JArr l => Ok (existsb (is_str key) l)
  | JStr s => Ok (is_substring key s)
  | _ => Raise TypeError
  end.

(** An index as Python takes it: an [int] (or a [bool]). *)
Definition py_index (k : json) : option Z :=
  match k with
  | JInt z => Some z
  | JBool b => Some (if b then 1 else 0)%Z
  | _ => None
  end.

(** [seq[i]] with Python's negative indices *)
Definition py_nth {A} (l : list A) (i : Z) : result A :=
  let len := Z.of_nat (length l) in
  let i' := (if i <? 0 then i + len else i)%Z in
  if (i' <? 0)%Z then Raise IndexError
  else match l !! Z.to_nat i' with
       | Some x => Ok x
       | None => Raise IndexError
       end.

(** [c[k]] *)
Definition py_getitem (c k : json) : result json :=
  match c with
  | JObj items =>
      match k with
      | JStr s => match assoc s items with Some v => Ok v | None => Raise KeyError end
      | JArr _ | JObj _ => Raise TypeError
      | _ => Raise KeyError
      end
  | JArr l =>
      match py_index k with
      | Some i => py_nth l i
      | None => Raise TypeError
      end
  | JStr s =>
      match py_index k with
      | Some i => JStr <$> py_nth (chars s) i
      | None => Raise TypeError
      end
  | _ => Raise TypeError
  end.

(** The values [for x in c] runs through *)
Definition py_iter (c : json) : result (list json) :=
  match c with
  | JArr l => Ok l
  | JObj items => Ok (JStr <$> items.*1)
  | JStr s => Ok (JStr <$> chars s)
  | _ => Raise TypeError
  end.

(** A value as an operand of [<] against a number *)
Definition py_number (v : json) : result Q :=
  match v with
  | JInt z => Ok (inject_Z z)
  | JFloat q => Ok q
  | JBool b => Ok (if b then 1 else 0)%Q
  | _ => Raise TypeError
  end.

Definition Qtrunc (q : Q) : Z := Z.quot (Qnum q) (Zpos (Qden q)).

Definition Qltb (a b : Q) : bool := negb (Qle_bool b a).

(** [min(a, b)]: [b] when [b < a], else [a] *)
Definition py_min (a b : Q) : Q := if Qltb b a then b else a.

(** A value stored in a field declared [str] *)
Definition py_str (v : json) : result string :=
  match v with
  | JStr s => Ok s
  | _ => Raise TypeError
  end.

(** ** The data model *)

(** The enumerations of [app/models/schema.py], under their Python names:
    [MaterialType.video], [VideoAspect.portrait], [VideoConcatMode.random]. *)
Module MaterialType.
Inductive t : Type := video | image.
End MaterialType.

Module VideoAspect.
Inductive t : Type := landscape | portrait | square.

(** [aspect.name] *)
Definition name (a : t) : string :=
  match a with
  | landscape => "landscape"
  | portrait => "portrait"
  | square => "square"
  end.
End VideoAspect.

Module VideoConcatMode.
Inductive t : Type := random | sequential.
End VideoConcatMode.

(** Modelled from the spec: the class [MaterialInfo] of [app/models/schema.py],
    which is not among the sources. The fields are those the module assigns,
    typed as the spec's data model types them: [url] is a string and
    [duration] a number of seconds; [width] and [height] keep the provider's
    value, which the module never inspects, and are unset for videos. *)
Record MaterialInfo : Type := mkMaterialInfo {
  provider : string;
  url : string;
  duration : Q;
  type : MaterialType.t;
  width : option json;
  height : option json
}.

Record response : Type := Response {
  status_code : Z;
  content : list byte;
  json_body : option json
}.

(** What the probe [VideoFileClip] reports: [None] is Python's [None]. *)
Record clip_info : Type := ClipInfo {
  clip_duration : option Q;
  clip_fps : option Q
}.

(** [x > 0] for a number that may be [None] *)
Definition py_positive (x : option Q) : result bool :=
  match x with
  | Some q => Ok (Qltb 0 q)
  | None => Raise TypeError
  end.

Definition user_agent : string :=
  "Mozilla/5.0 (Windows NT 10.0; Win64; x64) AppleWebKit/537.36 (KHTML, like Gecko) Chrome/115.0.0.0 Safari/537.36".

(** [x[i], x[j] = x[j], x[i]] *)
Definition swap {A} (x : list A) (i j : nat) : list A :=
  match x !! i, x !! j with
  | Some a, Some b => <[j := a]> (<[i := b]> x)
  | _, _ => x
  end.

(** The accumulator of the search phase:
    [(valid_items, valid_urls, found_duration)] *)
Definition found : Type := (list MaterialInfo * list string * Q)%type.

(** [for item in video_items: if item.url not in valid_video_urls: ...];
    [download_images] runs the same loop without [found_duration], which is
    only ever written to the log. *)
Fixpoint add_items (items : list MaterialInfo) (acc : found) : found :=
  match items with
  | [] => acc
  | item :: rest =>
      let '(valid_items, valid_urls, found_duration) := acc in
      if bool_decide (url item ∈ valid_urls) then add_items rest acc
      else add_items rest (valid_items ++ [item], valid_urls ++ [url item],
                           (found_duration + duration item)%Q)
  end.

(** The locals of the download loop of [download_videos] *)
Record loop_state : Type := LoopState {
  video_paths : list string;
  total_duration : Q;
  stopped : bool
}.

(** ** Configuration *)

(** A value of [config.app] under an API-key entry: one string or a list of
    strings. *)
Inductive cfg_value : Type :=
  | CfgStr (s : string)
  | CfgList (l : list string).

(** Python truthiness of a configuration value. *)
Definition cfg_truthy (v : cfg_value) : bool :=
  match v with
  | CfgStr "" => false
  | CfgStr _ => true
  | CfgList [] => false
  | CfgList _ => true
  end.

(** ** The module [app/services/material.py] *)

Module material.

Section Material.

(** *** Collaborators *)

(** [config.app] *)
Variable config_app : gmap string cfg_value.

(** [utils.md5], [utils.storage_dir], [utils.task_dir] *)
Variable md5 : string -> string.
Variable storage_dir : string -> string.
Variable task_dir : string -> string.

(** [VideoAspect.to_resolution], of [app/models/schema.py] *)
Variable to_resolution : VideoAspect.t -> Z * Z.

(** [urllib.parse.urlencode] and the built-in [int] on strings *)
Variable urlencode : list (string * string) -> string.
Variable int_of_str : string -> option Z.

(** The HTTP peer: what the [n]-th request of the run is answered with;
    [None] when [requests.get] raises. *)
Variable http_reply : nat -> request -> option response.

(** The probe [VideoFileClip] on the bytes of a file; [None] when opening,
    reading or closing the clip raises. *)
Variable video_probe : list byte -> option clip_info.

(** [PIL.Image]: [Image.open] on bytes and the bytes [img.save] writes for
    the [.jpg] path; [None] when they raise. *)
Variable PIL_Image : Type.
Variable image_open : list byte -> option PIL_Image.
Variable image_save : PIL_Image -> option (list byte).

(** The size a directory just made reports, and the random source: the
    [k]-th draw of the run. *)
Variable mkdir_size : N.
Variable getrandbits : nat -> nat.

(** [int(v)] *)
Definition py_int (v : json) : result Z :=
  match v with
  | JInt z => Ok z
  | JFloat q => Ok (Qtrunc q)
  | JBool b => Ok (if b then 1 else 0)%Z
  | JStr s => match int_of_str s with Some z => Ok z | None => Raise ValueError end
  | _ => Raise TypeError
  end.

(** [os.makedirs] *)
Definition os_makedirs (path : string) : M unit :=
  m ← get_fs;
  match m !! path with
  | Some _ => raise OSError
  | None => put_fs (<[path := Dir mkdir_size]> m)
  end.

(** [if not os.path.exists(save_dir): os.makedirs(save_dir)] *)
Definition ensure_exists (save_dir : string) : M unit :=
  ex ← os_path_exists save_dir;
  if negb ex then os_makedirs save_dir else mret tt.

(** [requests.get(url, headers=headers, ...)] *)
Definition requests_get (u : string) (headers : list (string * string)) : M response :=
  fun w =>
    let req := Request u headers in
    let w' := World (requested_count w) (fs w) (http_log w ++ [req])
                    (rand_calls w) (log w) in
    match http_reply (length (http_log w)) req with
    | Some r => (Ok r, w')
    | None => (Raise RequestException, w')
    end.

(** [r.json()] *)
Definition response_json (r : response) : M json :=
  match json_body r with
  | Some j => mret j
  | None => raise JSONDecodeError
  end.

(** [VideoFileClip(path)], its [duration] and [fps], and [clip.close()] *)
Definition VideoFileClip (path : string) : M clip_info :=
  m ← get_fs;
  match m !! path with
  | Some (File b) =>
      match video_probe b with
      | Some info => mret info
      | None => raise OSError
      end
  | _ => raise OSError
  end.

(** [img.save(path)]: a file this call created is removed again when the
    encoder raises. *)
Definition img_save (img : PIL_Image) (path : string) : M unit :=
  m ← get_fs;
  match m !! path with
  | Some (Dir _) => raise OSError
  | old =>
      match image_save img with
      | Some b => put_fs (<[path := File b]> m)
      | None =>
          (if old is Some _ then put_fs (<[path := File []]> m) else mret tt) ;;
          raise OSError
      end
  end.

(** [random._randbelow(n)] *)
Definition randbelow (n : nat) : M nat := fun w =>
  (Ok (getrandbits (rand_calls w) mod n)%nat,
   World (requested_count w) (fs w) (http_log w) (S (rand_calls w)) (log w)).

(** [random.shuffle(x)]:
    [for i in reversed(range(1, len(x))): j = randbelow(i + 1); swap] *)
Fixpoint shuffle_from {A} (i : nat) (x : list A) : M (list A) :=
  match i with
  | O => mret x
  | S i' =>
      j ← randbelow (i + 1);
      shuffle_from i' (swap x i j)
  end.

Definition shuffle {A} (x : list A) : M (list A) :=
  shuffle_from (length x - 1) x.

(** ** Key rotation *)

Definition get_api_key (cfg_key : string) : M string :=
  match config_app !! cfg_key with
  | None => raise ValueError
  | Some api_keys =>
      if negb (cfg_truthy api_keys) then raise ValueError
      else
        match api_keys with
        | CfgStr s => mret s
        | CfgList l =>
            incr_requested_count ;;
            n ← get_requested_count;
            match l !! (n mod length l)%nat with
            | Some k => mret k
            | None => raise IndexError
            end
        end
  end.

(** ** Provider search adapters *)

(** [for video in video_files: ...] of [search_videos_pexels]: the item of
    the first file whose size is the requested one, if any. *)
Fixpoint pexels_pick (video_files : list json) (d : Q) (video_width video_height : Z)
    : result (option MaterialInfo) :=
  match video_files with
  | [] => Ok None
  | video :: rest =>
      wv ← py_getitem video (JStr "width");
      w ← py_int wv;
      hv ← py_getitem video (JStr "height");
      h ← py_int hv;
      if ((w =? video_width) && (h =? video_height))%Z then
        link ← py_getitem video (JStr "link");
        u ← py_str link;
        Ok (Some (mkMaterialInfo "pexels" u d MaterialType.video None None))
      else pexels_pick rest d video_width video_height
  end.

(** [for v in videos: ...] of [search_videos_pexels] *)
Fixpoint pexels_videos (videos : list json) (minimum_duration : Z)
    (video_width video_height : Z) (video_items : list MaterialInfo)
    : result (list MaterialInfo) :=
  match videos with
  | [] => Ok video_items
  | v :: rest =>
      dv ← py_getitem v (JStr "duration");
      d ← py_number dv;
      if Qltb d (inject_Z minimum_duration) then
        pexels_videos rest minimum_duration video_width video_height video_items
      else
        fv ← py_getitem v (JStr "video_files");
        video_files ← py_iter fv;
        picked ← pexels_pick video_files d video_width video_height;
        pexels_videos rest minimum_duration video_width video_height
          (video_items ++ option_list picked)
  end.

(** [videos = response["videos"]] and the loop over it *)
Definition pexels_video_items (response : json) (minimum_duration : Z)
    (video_width video_height : Z) : result (list MaterialInfo) :=
  fv ← py_getitem response (JStr "videos");
  videos ← py_iter fv;
  pexels_videos videos minimum_duration video_width video_height [].

Definition search_videos_pexels (search_term : string) (minimum_duration : Z)
    (video_aspect : VideoAspect.t) : M (list MaterialInfo) :=
  let video_orientation := VideoAspect.name video_aspect in
  let '(video_width, video_height) := to_resolution video_aspect in
  api_key ← get_api_key "pexels_api_keys";
  let headers := [("Authorization", api_key); ("User-Agent", user_agent)] in
  let params := [("query", search_term); ("per_page", "20");
                 ("orientation", video_orientation)] in
  let query_url := "https://api.pexels.com/videos/search?" +:+ urlencode params in
  logger INFO "searching videos: " ;;
  try_except
    (r ← requests_get query_url headers;
     response ← response_json r;
     has ← pure (py_contains "videos" response);
     if negb has then
       logger ERROR "search videos failed: " ;; mret []
     else
       pure (pexels_video_items response minimum_duration video_width video_height))
    (fun e => logger ERROR "search videos failed: " ;; mret []).

(** [for video_type in video_files: video = video_files[video_type]; ...]
    of [search_videos_pixabay] *)
Fixpoint pixabay_pick (video_files : json) (video_types : list json) (d : Q)
    (video_width : Z) : result (option MaterialInfo) :=
  match video_types with
  | [] => Ok None
  | video_type :: rest =>
      video ← py_getitem video_files video_type;
      wv ← py_getitem video (JStr "width");
      w ← py_int wv;
      if (video_width <=? w)%Z then
        link ← py_getitem video (JStr "url");
        u ← py_str link;
        Ok (Some (mkMaterialInfo "pixabay" u d MaterialType.video None None))
      else pixabay_pick video_files rest d video_width
  end.

(** [for v in videos: ...] of [search_videos_pixabay] *)
Fixpoint pixabay_videos (videos : list json) (minimum_duration : Z)
    (video_width : Z) (video_items : list MaterialInfo)
    : result (list MaterialInfo) :=
  match videos with
  | [] => Ok video_items
  | v :: rest =>
      dv ← py_getitem v (JStr "duration");
      d ← py_number dv;
      if Qltb d (inject_Z minimum_duration) then
        pixabay_videos rest minimum_duration video_width video_items
      else
        video_files ← py_getitem v (JStr "videos");
        video_types ← py_iter video_files;
        picked ← pixabay_pick video_files video_types d video_width;
        pixabay_videos rest minimum_duration video_width
          (video_items ++ option_list picked)
  end.

(** [videos = response["hits"]] and the loop over it *)
Definition pixabay_video_items (response : json) (minimum_duration : Z)
    (video_width : Z) : result (list MaterialInfo) :=
  fv ← py_getitem response (JStr "hits");
  videos ← py_iter fv;
  pixabay_videos videos minimum_duration video_width [].

Definition search_videos_pixabay (search_term : string) (minimum_duration : Z)
    (video_aspect : VideoAspect.t) : M (list MaterialInfo) :=
  let '(video_width, video_height) := to_resolution video_aspect in
  api_key ← get_api_key "pixabay_api_keys";
  let params := [("q", search_term); ("video_type", "all"); ("per_page", "50");
                 ("key", api_key)] in
  let query_url := "https://pixabay.com/api/videos/?" +:+ urlencode params in
  logger INFO "searching videos: " ;;
  try_except
    (r ← requests_get query_url [];
     response ← response_json r;
     has ← pure (py_contains "hits" response);
     if negb has then
       logger ERROR "search videos failed: " ;; mret []
     else
       pure (pixabay_video_items response minimum_duration video_width))
    (fun e => logger ERROR "search videos failed: " ;; mret []).

(** [for p in photos: ...] of [search_images_pexels] *)
Fixpoint pexels_photos (photos : list json) (image_items : list MaterialInfo)
    : result (list MaterialInfo) :=
  match photos with
  | [] => Ok image_items
  | p :: rest =>
      src ← py_getitem p (JStr "src");
      original ← py_getitem src (JStr "original");
      u ← py_str original;
      wd ← py_getitem p (JStr "width");
      ht ← py_getitem p (JStr "height");
      pexels_photos rest
        (image_items ++ [mkMaterialInfo "pexels" u 0 MaterialType.image (Some wd) (Some ht)])
  end.

(** [photos = response["photos"]] and the loop over it *)
Definition pexels_image_items (response : json) : result (list MaterialInfo) :=
  fv ← py_getitem response (JStr "photos");
  photos ← py_iter fv;
  pexels_photos photos [].

Definition search_images_pexels (search_term : string) (image_aspect : VideoAspect.t)
    (image_type : string) (per_page : Z) : M (list MaterialInfo) :=
  let image_orientation := VideoAspect.name image_aspect in
  api_key ← get_api_key "pexels_api_keys";
  let headers := [("Authorization", api_key); ("User-Agent", user_agent)] in
  let params := [("query", search_term); ("per_page", pretty per_page);
                 ("orientation", image_orientation)] in
  let query_url := "https://api.pexels.com/v1/search?" +:+ urlencode params in
  logger INFO "searching images: " ;;
  try_except
    (r ← requests_get query_url headers;
     response ← response_json r;
     has ← pure (py_contains "photos" response);
     if negb has then
       logger ERROR "search images failed: " ;; mret []
     else
       pure (pexels_image_items response))
    (fun e => logger ERROR "search images failed: " ;; mret []).

(** [for img in images: ...] of [search_images_pixabay] *)
Fixpoint pixabay_images (images : list json) (image_items : list MaterialInfo)
    : result (list MaterialInfo) :=
  match images with
  | [] => Ok image_items
  | img :: rest =>
      large ← py_getitem img (JStr "largeImageURL");
      u ← py_str large;
      wd ← py_getitem img (JStr "imageWidth");
      ht ← py_getitem img (JStr "imageHeight");
      pixabay_images rest
        (image_items ++ [mkMaterialInfo "pixabay" u 0 MaterialType.image (Some wd) (Some ht)])
  end.

(** [images = response["hits"]] and the loop over it *)
Definition pixabay_image_items (response : json) : result (list MaterialInfo) :=
  fv ← py_getitem response (JStr "hits");
  images ← py_iter fv;
  pixabay_images images [].

Definition search_images_pixabay (search_term : string) (image_aspect : VideoAspect.t)
    (image_type : string) (per_page : Z) : M (list MaterialInfo) :=
  api_key ← get_api_key "pixabay_api_keys";
  let params := [("q", search_term); ("per_page", pretty per_page);
                 ("key", api_key)] in
  let params :=
    if String.eqb image_type "animation" then params ++ [("image_type", "animation")]
    else if String.eqb image_type "photo" then params ++ [("image_type", "photo")]
    else params in
  let query_url := "https://pixabay.com/api/?" +:+ urlencode params in
  logger INFO "searching images: " ;;
  try_except
    (r ← requests_get query_url [];
     response ← response_json r;
     has ← pure (py_contains "hits" response);
     if negb has then
       logger ERROR "search images failed: " ;; mret []
     else
       pure (pixabay_image_items response))
    (fun e => logger ERROR "search images failed: " ;; mret []).

(** ** Asset cache *)

(** The path [save_video] keeps the video of [video_url] at *)
Definition video_path_of (video_url save_dir : string) : string :=
  let url_without_query := before_query video_url in
  let url_hash := md5 url_without_query in
  let video_id := "vid-" +:+ url_hash in
  save_dir +:+ "/" +:+ video_id +:+ ".mp4".

(** [if not save_dir: save_dir = utils.storage_dir(category)] *)
Definition default_dir (save_dir category : string) : string :=
  if String.eqb save_dir "" then storage_dir category else save_dir.

(** The end of [save_video], from the second
    [if os.path.exists(video_path) and os.path.getsize(video_path) > 0]
    to [return ""] *)
Definition validate_video (video_path : string) : M string :=
  ok ← exists_nonempty video_path;
  if ok : bool then
    try_except
      (clip ← VideoFileClip video_path;
       d ← pure (py_positive (clip_duration clip));
       valid ← (if d : bool then pure (py_positive (clip_fps clip)) else mret false);
       if valid : bool then mret video_path else mret "")
      (fun e =>
         os_remove_quiet video_path ;;
         logger WARNING "invalid video file: " ;;
         mret "")
  else mret "".

Definition save_video (video_url save_dir : string) : M string :=
  let save_dir := default_dir save_dir "cache_videos" in
  ensure_exists save_dir ;;
  let video_path := video_path_of video_url save_dir in
  (* if video already exists, return the path *)
  hit ← exists_nonempty video_path;
  if hit : bool then
    logger INFO "video already exists: " ;;
    mret video_path
  else
    let headers := [("User-Agent", user_agent)] in
    (* if video does not exist, download it *)
    open_wb save_dir video_path ;;
    r ← requests_get video_url headers;
    write_file video_path (content r) ;;
    validate_video video_path.

(** The path [save_image] keeps the image of [image_url] at *)
Definition image_path_of (image_url save_dir : string) : string :=
  let url_without_query := before_query image_url in
  let url_hash := md5 url_without_query in
  let image_id := "img-" +:+ url_hash in
  save_dir +:+ "/" +:+ image_id +:+ ".jpg".

Definition save_image (image_url save_dir : string) : M string :=
  let save_dir := default_dir save_dir "images" in
  ensure_exists save_dir ;;
  let image_path := image_path_of image_url save_dir in
  (* if image already exists, return the path *)
  hit ← exists_nonempty image_path;
  if hit : bool then
    logger INFO "image already exists: " ;;
    mret image_path
  else
    let headers := [("User-Agent", user_agent)] in
    (* if image does not exist, download it *)
    try_except
      (r ← requests_get image_url headers;
       if (status_code r =? 200)%Z then
         (* Verify it's a valid image *)
         try_except
           (match image_open (content r) with
            | Some img => img_save img image_path ;; mret image_path
            | None => raise OSError
            end)
           (fun e => logger WARNING "invalid image file: " ;; mret "")
       else mret "")
      (fun e => logger ERROR "failed to download image: " ;; mret "").

Definition save_material (material_url save_dir : string)
    (material_type : MaterialType.t) : M string :=
  match material_type with
  | MaterialType.video => save_video material_url save_dir
  | MaterialType.image => save_image material_url save_dir
  end.

(** ** Material orchestrator *)

(** [for search_term in search_terms: items = search(search_term); ...] *)
Fixpoint search_all (search : string -> M (list MaterialInfo)) (kind : string)
    (search_terms : list string) (acc : found) : M found :=
  match search_terms with
  | [] => mret acc
  | search_term :: rest =>
      items ← search search_term;
      logger INFO ("found " +:+ kind +:+ " for ") ;;
      search_all search kind rest (add_items items acc)
  end.

(** The resolution of [config.app.get("material_directory", "")] *)
Definition resolve_material_directory (task_id : string) : M string :=
  configured ← match config_app !! "material_directory" with
               | None => mret ""
               | Some (CfgStr s) => mret s
               | Some (CfgList _) => raise AttributeError
               end;
  let material_directory := strip configured in
  if String.eqb material_directory "task" then mret (task_dir task_id)
  else if negb (String.eqb material_directory "") then
    isdir ← os_path_isdir material_directory;
    if isdir : bool then mret material_directory else mret ""
  else mret material_directory.

(** The search phase of [download_images]: the deduplicated candidates *)
Definition collect_images (search_terms : list string) (source : string)
    (image_aspect : VideoAspect.t) (image_type : string) : M found :=
  let search_images :=
    if String.eqb source "pixabay" then search_images_pixabay
    else search_images_pexels in
  search_all (fun search_term => search_images search_term image_aspect image_type 40%Z)
    "images" search_terms ([], [], 0%Q).

(** [for i in range(count): item = valid_image_items[i]; try: ...] *)
Fixpoint images_loop (items : list MaterialInfo) (material_directory : string)
    (image_paths : list string) : M (list string) :=
  match items with
  | [] => mret image_paths
  | item :: rest =>
      image_paths ←
        try_except
          (logger INFO "downloading image: " ;;
           saved_image_path ← save_material (url item) material_directory (type item);
           if negb (String.eqb saved_image_path "") then
             logger INFO "image saved: " ;;
             mret (image_paths ++ [saved_image_path])
           else mret image_paths)
          (fun e => logger ERROR "failed to download image: " ;; mret image_paths);
      images_loop rest material_directory image_paths
  end.

Definition download_images (task_id : string) (search_terms : list string)
    (source : string) (image_aspect : VideoAspect.t) (image_count : Z)
    (image_type : string) : M (list string) :=
  '(valid_image_items, valid_image_urls, _) ←
    collect_images search_terms source image_aspect image_type;
  logger INFO "found total images: " ;;
  material_directory ← resolve_material_directory task_id;
  (* Shuffle the images to get a good mix *)
  valid_image_items ← shuffle valid_image_items;
  (* Limit to the requested number of images *)
  let count := Z.min image_count (Z.of_nat (length valid_image_items)) in
  image_paths ← images_loop (take (Z.to_nat count) valid_image_items)
                  material_directory [];
  logger SUCCESS "downloaded images" ;;
  mret image_paths.

(** The search phase of [download_videos]: the deduplicated candidates *)
Definition collect_videos (search_terms : list string) (source : string)
    (video_aspect : VideoAspect.t) (max_clip_duration : Z) : M found :=
  let search_videos :=
    if String.eqb source "pixabay" then search_videos_pixabay
    else search_videos_pexels in
  search_all (fun search_term => search_videos search_term max_clip_duration video_aspect)
    "videos" search_terms ([], [], 0%Q).

(** The body of [for item in valid_video_items: try: ...] *)
Definition videos_body (material_directory : string) (audio_duration : Q)
    (max_clip_duration : Z) (item : MaterialInfo) (st : loop_state) : M loop_state :=
  try_except
    (logger INFO "downloading video: " ;;
     saved_video_path ← save_material (url item) material_directory (type item);
     if negb (String.eqb saved_video_path "") then
       logger INFO "video saved: " ;;
       let video_paths := video_paths st ++ [saved_video_path] in
       let seconds := py_min (inject_Z max_clip_duration) (duration item) in
       let total_duration := (total_duration st + seconds)%Q in
       if Qltb audio_duration total_duration then
         logger INFO "total duration of downloaded videos, skip downloading more" ;;
         mret (LoopState video_paths total_duration true)
       else mret (LoopState video_paths total_duration false)
     else mret st)
    (fun e => logger ERROR "failed to download video: " ;; mret st).

(** [for item in valid_video_items: ...], left by [break] *)
Fixpoint videos_loop (material_directory : string) (audio_duration : Q)
    (max_clip_duration : Z) (items : list MaterialInfo) (st : loop_state)
    : M loop_state :=
  match items with
  | [] => mret st
  | item :: rest =>
      st' ← videos_body material_directory audio_duration max_clip_duration item st;
      if stopped st' then mret st'
      else videos_loop material_directory audio_duration max_clip_duration rest st'
  end.

Definition download_videos (task_id : string) (search_terms : list string)
    (source : string) (video_aspect : VideoAspect.t)
    (video_contact_mode : VideoConcatMode.t) (audio_duration : Q)
    (max_clip_duration : Z) : M (list string) :=
  '(valid_video_items, valid_video_urls, found_duration) ←
    collect_videos search_terms source video_aspect max_clip_duration;
  logger INFO "found total videos, required duration, found duration" ;;
  material_directory ← resolve_material_directory task_id;
  valid_video_items ←
    match video_contact_mode with
    | VideoConcatMode.random => shuffle valid_video_items
    | VideoConcatMode.sequential => mret valid_video_items
    end;
  st ← videos_loop material_directory audio_duration max_clip_duration
         valid_video_items (LoopState [] 0 false);
  logger SUCCESS "downloaded videos" ;;
  mret (video_paths st).

Definition download_materials (task_id : string) (search_terms : list string)
    (source : string) (material_type : MaterialType.t)
    (material_aspect : VideoAspect.t) (video_contact_mode : VideoConcatMode.t)
    (audio_duration : Q) (max_clip_duration : Z) (image_count : Z)
    (image_type : string) : M (list string) :=
  match material_type with
  | MaterialType.video =>
      download_videos task_id search_terms source material_aspect
        video_contact_mode audio_duration max_clip_duration
  | MaterialType.image =>
      download_images task_id search_terms source material_aspect
        image_count image_type
  end.

End Material.

End material.

Import material.

(** ** Vocabulary of the statements *)

(** What [os.path.exists(path) and os.path.getsize(path) > 0] answers on a
    file system *)
Definition nonempty (m : gmap string node) (path : string) : bool :=
  match m !! path with
  | Some (File b) => (0 <? N.of_nat (length b))%N
  | Some (Dir n) => (0 <? n)%N
  | None => false
  end.

(** The world after [if not os.path.exists(dir): os.makedirs(dir)] *)
Definition ensure_dir (mkdir_size : N) (dir : string) (w : world) : world :=
  if bool_decide (is_Some (fs w !! dir)) then w
  else World (requested_count w) (<[dir := Dir mkdir_size]> (fs w))
             (http_log w) (rand_calls w) (log w).

(** The world with one more log record *)
Definition logged (lv : log_level) (msg : string) (w : world) : world :=
  World (requested_count w) (fs w) (http_log w) (rand_calls w)
        (log w ++ [LogRecord lv msg]).

(** The world after [n] calls of [c] in a row *)
Fixpoint after_calls {A} (c : M A) (n : nat) (w : world) : world :=
  match n with
  | O => w
  | S n' => after_calls c n' (snd (c w))
  end.

(** The seconds a clip counts for in the budget:
    [min(max_clip_duration, item.duration)] *)
Definition seconds (max_clip_duration : Z) (item : MaterialInfo) : Q :=
  py_min (inject_Z max_clip_duration) (duration item).

(** [items] keeps, of the candidates [all] in their order, the first one of
    every URL and nothing else. *)
Definition first_wins (all items : list MaterialInfo) : Prop :=
  items `sublist_of` all /\
  NoDup (url <$> items) /\
  (forall x, x ∈ all -> url x ∈ url <$> items) /\
  (forall y, y ∈ items -> head (filter (fun x => url x = url y) all) = Some y).

(** The adapter calls of the search phase, one per term, each in the world
    the one before left, and the lists they return *)
Inductive searched (search : string -> M (list MaterialInfo)) (kind : string)
    : list string -> world -> list (list MaterialInfo) -> world -> Prop :=
  | searched_nil w : searched search kind [] w [] w
  | searched_cons search_term rest w items w1 batches w' :
      search search_term w = (Ok items, w1) ->
      searched search kind rest (logged INFO ("found " +:+ kind +:+ " for ") w1)
        batches w' ->
      searched search kind (search_term :: rest) w (items :: batches) w'.

(** What becomes of the answer to a search request: the candidates read
    from it, or the failure that leaves the adapter without candidates: the
    request that raises, the body that is not JSON, the result field that is
    missing, the exception raised while the results are read. *)
Definition adapter_outcome (field : string)
    (parse : json -> result (list MaterialInfo)) (reply : option response)
    : result (list MaterialInfo) :=
  match reply with
  | None => Raise RequestException
  | Some r =>
      match json_body r with
      | None => Raise JSONDecodeError
      | Some response =>
          has ← py_contains field response;
          if has : bool then parse response else Raise KeyError
      end
  end.

Definition items_or_none (o : result (list MaterialInfo)) : list MaterialInfo :=
  match o with
  | Ok items => items
  | Raise _ => []
  end.

(** The world after the request [req] was answered with outcome [o]: the
    request is on record, and a failure is logged as an error. *)
Definition answered (msg : string) (o : result (list MaterialInfo)) (req : request)
    (w : world) : world :=
  let w1 := World (requested_count w) (fs w) (http_log w ++ [req]) (rand_calls w)
                  (log w) in
  match o with
  | Ok _ => w1
  | Raise _ => logged ERROR msg w1
  end.

(** The call [search], made in the world [w], issues one request, returns
    (it does not raise) the candidates read from the answer, and, when the
    answer fails in one of the ways of [adapter_outcome], returns the empty
    list after logging the failure as an error. *)
Definition adapter_catches (http_reply : nat -> request -> option response)
    (search : M (list MaterialInfo)) (field msg : string)
    (parse : json -> result (list MaterialInfo)) (w : world) : Prop :=
  exists req w',
    let outcome := adapter_outcome field parse (http_reply (length (http_log w)) req) in
    search w = (Ok (items_or_none outcome), w') /\
    http_log w' = http_log w ++ [req] /\
    ((exists e, outcome = Raise e) ->
     search w = (Ok [], w') /\ last (log w') = Some (LogRecord ERROR msg)).

(** [video[k]] for a field declared [str] *)
Definition field_str (v : json) (k : string) : result string :=
  x ← py_getitem v (JStr k); py_str x.

(** [(int(video["width"]), int(video["height"]))] of a Pexels file variant *)
Definition pexels_size (int_of_str : string -> option Z) (video : json)
    : result (Z * Z) :=
  wv ← py_getitem video (JStr "width");
  w ← material.py_int int_of_str wv;
  hv ← py_getitem video (JStr "height");
  h ← material.py_int int_of_str hv;
  Ok (w, h).

(** [int(video_files[video_type]["width"])] of a Pixabay file variant *)
Definition pixabay_width (int_of_str : string -> option Z)
    (video_files video_type : json) : result Z :=
  video ← py_getitem video_files video_type;
  wv ← py_getitem video (JStr "width");
  material.py_int int_of_str wv.

(** [video_files[video_type]["url"]] *)
Definition pixabay_url (video_files video_type : json) : result string :=
  video ← py_getitem video_files video_type;
  field_str video "url".

(** The file variant [video] is the first of [video_files] (it comes after
    [pre] and before [post]) whose size is exactly [video_width] by
    [video_height]. *)
Definition pexels_first_match (int_of_str : string -> option Z)
    (video_width video_height : Z) (video_files pre : list json) (video : json)
    (post : list json) : Prop :=
  video_files = pre ++ video :: post /\
  Forall (fun g => exists wh, pexels_size int_of_str g = Ok wh /\
                              wh ≠ (video_width, video_height)) pre /\
  pexels_size int_of_str video = Ok (video_width, video_height).

(** The variant under the key [video_type] is the first of [video_types]
    whose width is [video_width] or more. *)
Definition pixabay_first_wide (int_of_str : string -> option Z) (video_width : Z)
    (video_files : json) (video_types pre : list json) (video_type : json)
    (post : list json) : Prop :=
  video_types = pre ++ video_type :: post /\
  Forall (fun k => exists w, pixabay_width int_of_str video_files k = Ok w /\
                             (w < video_width)%Z) pre /\
  exists w, pixabay_width int_of_str video_files video_type = Ok w /\
            (video_width <= w)%Z.

(** The candidate [item] was made from the Pexels result [v]: [v] lasts
    [minimum_duration] or more, and the URL of [item] is the link of the
    first file variant of [v] that has the requested size. *)
Definition pexels_candidate (int_of_str : string -> option Z) (minimum_duration : Z)
    (video_width video_height : Z) (v : json) (item : MaterialInfo) : Prop :=
  exists dv fv video_files pre video post,
    py_getitem v (JStr "duration") = Ok dv /\
    py_number dv = Ok (duration item) /\
    (inject_Z minimum_duration <= duration item)%Q /\
    py_getitem v (JStr "video_files") = Ok fv /\
    py_iter fv = Ok video_files /\
    pexels_first_match int_of_str video_width video_height video_files pre video post /\
    field_str video "link" = Ok (url item) /\
    provider item = "pexels" /\ type item = MaterialType.video.

(** The candidate [item] was made from the Pixabay result [v]: [v] lasts
    [minimum_duration] or more, and the URL of [item] is the one of the
    first file variant of [v] that is wide enough. *)
Definition pixabay_candidate (int_of_str : string -> option Z) (minimum_duration : Z)
    (video_width : Z) (v : json) (item : MaterialInfo) : Prop :=
  exists dv video_files video_types pre video_type post,
    py_getitem v (JStr "duration") = Ok dv /\
    py_number dv = Ok (duration item) /\
    (inject_Z minimum_duration <= duration item)%Q /\
    py_getitem v (JStr "videos") = Ok video_files /\
    py_iter video_files = Ok video_types /\
    pixabay_first_wide int_of_str video_width video_files video_types pre video_type post /\
    pixabay_url video_files video_type = Ok (url item) /\
    provider item = "pixabay" /\ type item = MaterialType.video.

(** The results [videos] that the answer [reply] lists under [field] *)
Definition listed (field : string) (reply : option response) (videos : list json)
    : Prop :=
  exists r response fv,
    reply = Some r /\ json_body r = Some response /\
    py_getitem response (JStr field) = Ok fv /\ py_iter fv = Ok videos.

(** A clip the probe fails on: opening it raises, or it comes without a
    duration, or with a positive duration and without a frame rate. *)
Definition probe_raises (probed : option clip_info) : Prop :=
  probed = None \/
  exists info, probed = Some info /\
    (clip_duration info = None \/
     exists d, clip_duration info = Some d /\ (0 < d)%Q /\ clip_fps info = None).

(** What [os.path.isdir(path)] answers on a file system *)
Definition is_dir (m : gmap string node) (path : string) : bool :=
  match m !! path with
  | Some (Dir _) => true
  | _ => false
  end.

(** The path of the cache for a candidate saved under [save_dir] *)
Definition material_path (md5 storage_dir : string -> string) (save_dir : string)
    (item : MaterialInfo) : string :=
  match type item with
  | MaterialType.video =>
      material.video_path_of md5 (url item)
        (material.default_dir storage_dir save_dir "cache_videos")
  | MaterialType.image =>
      material.image_path_of md5 (url item)
        (material.default_dir storage_dir save_dir "images")
  end.


(** The candidate [item] is the one made from the Pexels photo [p]. *)
Definition pexels_image (p : json) (item : MaterialInfo) : Prop :=
  exists src wd ht,
    py_getitem p (JStr "src") = Ok src /\
    field_str src "original" = Ok (url item) /\
    py_getitem p (JStr "width") = Ok wd /\
    py_getitem p (JStr "height") = Ok ht /\
    item = mkMaterialInfo "pexels" (url item) 0 MaterialType.image (Some wd) (Some ht).

(** The candidate [item] is the one made from the Pixabay hit [img]. *)
Definition pixabay_image (img : json) (item : MaterialInfo) : Prop :=
  exists wd ht,
    field_str img "largeImageURL" = Ok (url item) /\
    py_getitem img (JStr "imageWidth") = Ok wd /\
    py_getitem img (JStr "imageHeight") = Ok ht /\
    item = mkMaterialInfo "pixabay" (url item) 0 MaterialType.image (Some wd) (Some ht).

(** The provider whose adapters the argument [source] selects *)
Definition provider_of (source : string) : string :=
  if String.eqb source "pixabay" then "pixabay" else "pexels".

(** The candidate [item] carries the name of [provider] and the type [t]. *)
Definition tagged (provider_name : string) (t : MaterialType.t) (item : MaterialInfo)
    : Prop :=
  provider item = provider_name /\ type item = t.

(** The URLs seen so far, in the accumulator of the search phase *)
Definition seen_urls (acc : found) : list string := acc.1.2.

(** An API-key entry that is set: present and not empty *)
Definition configured (config_app : gmap string cfg_value) (cfg_key : string) : Prop :=
  exists v, config_app !! cfg_key = Some v /\ cfg_truthy v = true.

(** [req] is the request of [search_videos_pexels] for [search_term]: the
    video search of Pexels, for a page of 20, with a key that [get_api_key]
    returns for ["pexels_api_keys"] in the [Authorization] header. *)
Definition pexels_video_search (config_app : gmap string cfg_value)
    (urlencode : list (string * string) -> string) (aspect : VideoAspect.t)
    (search_term : string) (req : request) : Prop :=
  exists api_key w0 w1,
    material.get_api_key config_app "pexels_api_keys" w0 = (Ok api_key, w1) /\
    req = Request ("https://api.pexels.com/videos/search?"
                   +:+ urlencode [("query", search_term); ("per_page", "20");
                                  ("orientation", VideoAspect.name aspect)])
            [("Authorization", api_key); ("User-Agent", user_agent)].

(** [req] is the request of [search_images_pexels] for [search_term], with
    the default page of 40 that [download_images] leaves it. *)
Definition pexels_image_search (config_app : gmap string cfg_value)
    (urlencode : list (string * string) -> string) (aspect : VideoAspect.t)
    (search_term : string) (req : request) : Prop :=
  exists api_key w0 w1,
    material.get_api_key config_app "pexels_api_keys" w0 = (Ok api_key, w1) /\
    req = Request ("https://api.pexels.com/v1/search?"
                   +:+ urlencode [("query", search_term); ("per_page", pretty 40%Z);
                                  ("orientation", VideoAspect.name aspect)])
            [("Authorization", api_key); ("User-Agent", user_agent)].

(** A directory path that is free or names a directory *)
Definition usable_dir (m : gmap string node) (dir : string) : Prop :=
  match m !! dir with
  | Some (File _) => False
  | _ => True
  end.

(** No file, or an empty one, at the path of the cache *)
Definition no_cached_file (m : gmap string node) (path : string) : Prop :=
  m !! path = None \/ m !! path = Some (File []).

(** A clip the probe accepts: [duration > 0 and fps > 0] *)
Definition playable (info : clip_info) : Prop :=
  exists d f, clip_duration info = Some d /\ clip_fps info = Some f /\
              (0 < d)%Q /\ (0 < f)%Q.

(** A clip the probe reads without an exception but finds empty:
    [duration <= 0], or [fps <= 0] *)
Definition unplayable (info : clip_info) : Prop :=
  exists d, clip_duration info = Some d /\
    ((d <= 0)%Q \/ exists f, clip_fps info = Some f /\ (f <= 0)%Q).

(** ** A concrete installation, for the examples *)

Module Demo.

Definition config_app : gmap string cfg_value :=
  {[ "pexels_api_keys" := CfgList ["key-a"; "key-b"; "key-c"];
     "pixabay_api_keys" := CfgStr "key-p" ]}.

Definition md5 (s : string) : string := s.
Definition storage_dir (category : string) : string := "/storage/" +:+ category.
Definition task_dir (task_id : string) : string := "/tasks/" +:+ task_id.

(** A good clip, a clip the probe reads as empty, and bytes it rejects *)
Definition good_bytes : list byte := [x01].
Definition empty_clip_bytes : list byte := [x02].
Definition broken_bytes : list byte := [x03].

Definition video_probe (b : list byte) : option clip_info :=
  match b with
  | [x01] => Some (ClipInfo (Some 12%Q) (Some 30%Q))
  | [x02] => Some (ClipInfo (Some 0%Q) (Some 30%Q))
  | _ => None
  end.

(** A peer that always answers with a good clip *)
Definition http_good (n : nat) (req : request) : option response :=
  Some (Response 200 good_bytes None).

(** A peer that always answers with a clip of duration zero *)
Definition http_empty_clip (n : nat) (req : request) : option response :=
  Some (Response 200 empty_clip_bytes None).

(** An image codec on raw bytes: only [good_bytes] decode *)
Definition image_open (b : list byte) : option (list byte) :=
  match b with
  | [x01] => Some b
  | _ => None
  end.

Definition image_save (img : list byte) : option (list byte) := Some img.

(** The sizes this installation takes for the aspects
    ([VideoAspect.to_resolution] is a parameter of the model) *)
Definition to_resolution (a : VideoAspect.t) : Z * Z :=
  match a with
  | VideoAspect.landscape => (1920, 1080)%Z
  | VideoAspect.portrait => (1080, 1920)%Z
  | VideoAspect.square => (1080, 1080)%Z
  end.

Definition urlencode (params : list (string * string)) : string :=
  foldr (fun kv acc => fst kv +:+ "=" +:+ snd kv +:+ "&" +:+ acc) "" params.

(** Strings of this installation's answers never stand for numbers. *)
Definition int_of_str (s : string) : option Z := None.

Definition getrandbits (k : nat) : nat := (7 * k + 3)%nat.

Definition video_file (w h : Z) (link : string) : json :=
  JObj [("width", JInt w); ("height", JInt h); ("link", JStr link)].

(** A Pexels answer: three photos, two of them of one URL; a portrait clip
    of 10 seconds that comes in two sizes, a clip of 2 seconds, and a
    landscape clip of 8 seconds *)
Definition photo (original : string) : json :=
  JObj [("src", JObj [("original", JStr original)]);
        ("width", JInt 4000); ("height", JInt 6000)].

Definition pexels_answer : json :=
  JObj [("page", JInt 1);
        ("photos", JArr [photo "http://i/1"; photo "http://i/2"; photo "http://i/1"]);
        ("videos",
         JArr [JObj [("duration", JInt 10);
                     ("video_files",
                      JArr [video_file 540 960 "http://v/1-sd";
                            video_file 1080 1920 "http://v/1";
                            video_file 1080 1920 "http://v/1-bis"])];
               JObj [("duration", JInt 2);
                     ("video_files", JArr [video_file 1080 1920 "http://v/2"])];
               JObj [("duration", JInt 8);
                     ("video_files", JArr [video_file 1920 1080 "http://v/3"])]])].

(** A Pixabay answer: a clip of 10 seconds in three tiers, the heights of
    which do not fit a portrait, and a clip of 1 second *)
Definition pixabay_answer : json :=
  JObj [("total", JInt 2);
        ("hits",
         JArr [JObj [("duration", JInt 10);
                     ("videos",
                      JObj [("tiny", JObj [("url", JStr "http://x/1-tiny");
                                           ("width", JInt 640); ("height", JInt 360)]);
                            ("large", JObj [("url", JStr "http://x/1-large");
                                            ("width", JInt 1920); ("height", JInt 1080)]);
                            ("medium", JObj [("url", JStr "http://x/1-medium");
                                             ("width", JInt 1280); ("height", JInt 720)])])];
               JObj [("duration", JInt 1);
                     ("videos",
                      JObj [("large", JObj [("url", JStr "http://x/2");
                                            ("width", JInt 1920); ("height", JInt 1080)])])]])].

Definition is_prefix (p s : string) : bool := String.prefix p s.

(** A peer that answers every Pexels search with [pexels_answer] and every
    Pixabay search with [pixabay_answer] *)
Definition http_search (n : nat) (req : request) : option response :=
  if is_prefix "https://api.pexels.com/" (req_url req)
  then Some (Response 200 [] (Some pexels_answer))
  else Some (Response 200 [] (Some pixabay_answer)).

(** A peer whose connections fail *)
Definition http_down (n : nat) (req : request) : option response := None.

(** A peer that answers with a body that is not JSON, and one that answers
    with JSON of another shape *)
Definition http_html (n : nat) (req : request) : option response :=
  Some (Response 502 [x3c] None).

Definition http_odd (n : nat) (req : request) : option response :=
  Some (Response 200 [] (Some (JObj [("videos", JArr [JObj [("duration", JStr "long")]]);
                                     ("hits", JInt 3);
                                     ("photos", JArr [JNull])]))).

Definition world0 : world := World 0 ∅ [] 0 [].

(** A world whose video cache holds, for ["http://v/1"], bytes the probe
    rejects. *)
Definition world_broken_cache : world :=
  World 0 (<["/storage/cache_videos/vid-http://v/1.mp4" := File broken_bytes]>
           (<["/storage/cache_videos" := Dir 4096]> ∅)) [] 0 [].

(** A peer that serves bytes the probe rejects, and one that serves a good
    clip under the status 404 *)
Definition http_broken (n : nat) (req : request) : option response :=
  Some (Response 200 broken_bytes None).

Definition http_good_404 (n : nat) (req : request) : option response :=
  Some (Response 404 good_bytes None).

(** A peer that answers the searches as [http_search] does and serves a
    good clip, which is a good image too, for every other URL *)
Definition http_all (n : nat) (req : request) : option response :=
  if is_prefix "https://api.pexels.com/" (req_url req)
  then Some (Response 200 [] (Some pexels_answer))
  else if is_prefix "https://pixabay.com/api/" (req_url req)
  then Some (Response 200 [] (Some pixabay_answer))
  else Some (Response 200 good_bytes None).

(** A configuration that names a directory for the materials *)
Definition config_directory : gmap string cfg_value :=
  {[ "pexels_api_keys" := CfgStr "key-a";
     "material_directory" := CfgStr "  /data/materials " ]}.

Definition world_directory : world :=
  World 0 {[ "/data/materials" := Dir 4096 ]} [] 0 [].



(** A configuration without keys, and one with two lists of two keys *)
Definition config_unset : gmap string cfg_value :=
  {[ "pexels_api_keys" := CfgStr ""; "pixabay_api_keys" := CfgList [] ]}.

Definition config_two_lists : gmap string cfg_value :=
  {[ "pexels_api_keys" := CfgList ["pexels-0"; "pexels-1"];
     "pixabay_api_keys" := CfgList ["pixabay-0"; "pixabay-1"] ]}.

Definition clip (u : string) (d : Q) : MaterialInfo :=
  mkMaterialInfo "pexels" u d MaterialType.video None None.

(** Three candidates of duration 3 *)
Definition three_clips : list MaterialInfo :=
  [clip "http://v/1" 3; clip "http://v/2" 3; clip "http://v/3" 3].

(** [videos_body] and [videos_loop] of this installation, with a peer that
    serves a good clip for every URL *)
Definition videos_body
    : string -> Q -> Z -> MaterialInfo -> loop_state -> M loop_state :=
  material.videos_body md5 storage_dir http_good video_probe (list byte)
    image_open image_save 4096.

Definition videos_loop
    : string -> Q -> Z -> list MaterialInfo -> loop_state -> M loop_state :=
  material.videos_loop md5 storage_dir http_good video_probe (list byte)
    image_open image_save 4096.

End Demo.

(** * Properties *)

(** Unfolding of the monad operations, for running a computation by hand *)
Ltac mrun :=
  repeat (progress (cbn [mbind mret M_bind M_ret result_bind result_ret fmap result_fmap];
                    unfold mbind, mret, M_bind, M_ret, raise, pure, try_except)).

Lemma bind_Ok {A B} (c : M A) (k : A -> M B) w a w' :
  c w = (Ok a, w') -> (c ≫= k) w = k a w'.
Proof. intros H. unfold mbind, M_bind. by rewrite H. Qed.

Lemma bind_Raise {A B} (c : M A) (k : A -> M B) w e w' :
  c w = (Raise e, w') -> (c ≫= k) w = (Raise e, w').
Proof. intros H. unfold mbind, M_bind. by rewrite H. Qed.

(** ** Key rotation *)

Section KeyRotation.

Variable config_app : gmap string cfg_value.

(** A list-backed call returns the key at the incremented counter. *)
Lemma get_api_key_list cfg_key l w :
  config_app !! cfg_key = Some (CfgList l) -> l ≠ [] ->
  exists k,
    l !! (S (requested_count w) mod length l)%nat = Some k /\
    get_api_key config_app cfg_key w =
      (Ok k, World (S (requested_count w)) (fs w) (http_log w) (rand_calls w) (log w)).
Proof.
  intros Hcfg Hne. unfold get_api_key. rewrite Hcfg.
  destruct l as [|k0 l']; [done|]. cbn [cfg_truthy negb].
  destruct (lookup_lt_is_Some_2 (k0 :: l') (S (requested_count w) mod length (k0 :: l'))%nat)
    as [k Hk].
  { apply Nat.mod_upper_bound. simpl. lia. }
  exists k. split; [done|].
  unfold mbind, M_bind, incr_requested_count, get_requested_count.
  cbn [requested_count]. rewrite Hk. done.
Qed.

(** C8: [get_api_key] increments the shared counter before it indexes: with
    a list of two keys or more, the first list-backed call of the process
    (counter still 0) returns the key at index 1, the second key, and leaves
    the counter at 1; a call on a single configured string returns that
    string and leaves the whole world, the counter included, as it was, so
    such calls never advance the rotation. *)
Theorem get_api_key_increments_first cfg_key w :
  (forall l, config_app !! cfg_key = Some (CfgList l) ->
     (2 <= length l)%nat -> requested_count w = 0%nat ->
     exists k, l !! 1%nat = Some k /\
       get_api_key config_app cfg_key w =
         (Ok k, World 1 (fs w) (http_log w) (rand_calls w) (log w))) /\
  (forall s, config_app !! cfg_key = Some (CfgStr s) -> s ≠ "" ->
     get_api_key config_app cfg_key w = (Ok s, w)).
Proof.
  split.
  - intros l Hcfg Hlen Hzero.
    destruct (get_api_key_list cfg_key l w Hcfg) as (k & Hk & Hrun).
    { intros ->. simpl in Hlen. lia. }
    rewrite Hzero in Hk, Hrun.
    rewrite Nat.mod_small in Hk by lia. eauto.
  - intros s Hcfg Hs. unfold get_api_key. rewrite Hcfg.
    destruct s; [done|]. reflexivity.
Qed.

End KeyRotation.

Lemma get_api_key_increments_first_witness :
  get_api_key Demo.config_app "pexels_api_keys" Demo.world0
    = (Ok "key-b", World 1 ∅ [] 0 []) /\
  get_api_key Demo.config_app "pixabay_api_keys" Demo.world0
    = (Ok "key-p", Demo.world0).
Proof.
  split.
  - destruct (proj1 (get_api_key_increments_first Demo.config_app
                       "pexels_api_keys" Demo.world0)
                    ["key-a"; "key-b"; "key-c"] eq_refl) as (k & Hk & Hrun).
    + simpl. lia.
    + reflexivity.
    + injection Hk as <-. exact Hrun.
  - apply (proj2 (get_api_key_increments_first Demo.config_app
                    "pixabay_api_keys" Demo.world0)).
    + reflexivity.
    + discriminate.
Defined.

(** ** Asset cache *)

Lemma Qltb_lt a b : Qltb a b = true <-> (a < b)%Q.
Proof.
  unfold Qltb. rewrite negb_true_iff, <- not_true_iff_false, Qle_bool_iff.
  split; [apply Qnot_le_lt | apply Qlt_not_le].
Qed.

Lemma Qltb_ge a b : Qltb a b = false <-> (b <= a)%Q.
Proof. unfold Qltb. by rewrite negb_false_iff, Qle_bool_iff. Qed.

Lemma append_neq (s t : string) : t ≠ "" -> s ≠ s +:+ t.
Proof.
  intros Ht. induction s as [|c s IH]; simpl.
  - intros H. by subst.
  - intros [= H]. by apply IH.
Qed.

Lemma exists_nonempty_run path w :
  exists_nonempty path w = (Ok (nonempty (fs w) path), w).
Proof.
  unfold exists_nonempty, nonempty, os_path_exists, os_path_getsize, get_fs.
  mrun. destruct (fs w !! path) as [[b|n]|] eqn:E; cbn; by rewrite ?E.
Qed.

Lemma logger_run lv msg w : logger lv msg w = (Ok tt, logged lv msg w).
Proof. reflexivity. Qed.

Section AssetCache.

Variable md5 : string -> string.
Variable storage_dir : string -> string.
Variable http_reply : nat -> request -> option response.
Variable video_probe : list byte -> option clip_info.
Variable PIL_Image : Type.
Variable image_open : list byte -> option PIL_Image.
Variable image_save : PIL_Image -> option (list byte).
Variable mkdir_size : N.

Abbreviation save_video := (save_video md5 storage_dir http_reply video_probe mkdir_size).
Abbreviation save_image :=
  (save_image md5 storage_dir http_reply PIL_Image image_open image_save mkdir_size).
Abbreviation video_path_of := (video_path_of md5).
Abbreviation image_path_of := (image_path_of md5).
Abbreviation default_dir := (default_dir storage_dir).

Lemma ensure_exists_run dir w :
  ensure_exists mkdir_size dir w = (Ok tt, ensure_dir mkdir_size dir w).
Proof.
  unfold ensure_exists, os_path_exists, os_makedirs, get_fs, put_fs, ensure_dir. mrun.
  case_bool_decide as E; cbn.
  - done.
  - destruct (fs w !! dir) eqn:E'; [|done]. contradict E. by eexists.
Qed.

Lemma video_path_of_dir u dir : dir ≠ video_path_of u dir.
Proof. unfold material.video_path_of. by apply append_neq. Qed.

Lemma image_path_of_dir u dir : dir ≠ image_path_of u dir.
Proof. unfold material.image_path_of. by apply append_neq. Qed.

Lemma ensure_dir_lookup dir path w :
  dir ≠ path -> fs (ensure_dir mkdir_size dir w) !! path = fs w !! path.
Proof.
  intros Hne. unfold ensure_dir. case_bool_decide; [done|].
  cbn. by rewrite lookup_insert_ne.
Qed.

Lemma ensure_dir_nonempty dir path w :
  dir ≠ path -> nonempty (fs (ensure_dir mkdir_size dir w)) path = nonempty (fs w) path.
Proof. intros Hne. unfold nonempty. by rewrite ensure_dir_lookup. Qed.

Lemma ensure_dir_http_log dir w : http_log (ensure_dir mkdir_size dir w) = http_log w.
Proof. unfold ensure_dir. by case_bool_decide. Qed.

(** A cache hit of [save_video]: the answer and the world it leaves *)
Lemma save_video_hit video_url save_dir w :
  let dir := default_dir save_dir "cache_videos" in
  let path := video_path_of video_url dir in
  nonempty (fs w) path = true ->
  save_video video_url save_dir w
  = (Ok path, logged INFO "video already exists: " (ensure_dir mkdir_size dir w)).
Proof.
  intros dir path Hhit. unfold material.save_video.
  fold dir. fold path.
  rewrite (bind_Ok _ _ _ _ _ (ensure_exists_run dir w)).
  rewrite (bind_Ok _ _ _ _ _ (exists_nonempty_run path _)).
  rewrite ensure_dir_nonempty by apply video_path_of_dir.
  rewrite Hhit. reflexivity.
Qed.

Lemma nonempty_File m path b :
  m !! path = Some (File b) -> b ≠ [] -> nonempty m path = true.
Proof.
  intros H Hb. unfold nonempty. rewrite H. destruct b; [done|]. apply N.ltb_lt. simpl. lia.
Qed.

Lemma no_cached_file_nonempty m path : no_cached_file m path -> nonempty m path = false.
Proof. unfold nonempty. by intros [-> | ->]. Qed.

Lemma playable_unplayable info : playable info -> unplayable info -> False.
Proof.
  intros (d & f & Hd & Hf & Hd0 & Hf0) (d' & Hd' & [Hle | (f' & Hf' & Hle)]).
  - rewrite Hd in Hd'. injection Hd' as <-. by apply (Qlt_not_le _ _ Hd0).
  - rewrite Hf in Hf'. injection Hf' as <-. by apply (Qlt_not_le _ _ Hf0).
Qed.

(** Calls that hit the cache leave the file and the request log alone,
    however many follow one another. *)
Lemma save_video_hit_stable video_url save_dir b w n :
  let dir := default_dir save_dir "cache_videos" in
  let path := video_path_of video_url dir in
  let wn := after_calls (save_video video_url save_dir) n w in
  fs w !! path = Some (File b) -> b ≠ [] ->
  fst (save_video video_url save_dir wn) = Ok path /\
  fs wn !! path = Some (File b) /\ http_log wn = http_log w.
Proof.
  intros dir path. cbn zeta. revert w.
  induction n as [|n IH]; intros w Hfile Hb; cbn [after_calls].
  - rewrite save_video_hit by eauto using nonempty_File. cbn [fst]. auto.
  - rewrite (save_video_hit video_url save_dir w) by eauto using nonempty_File.
    cbn [snd].
    destruct (IH (logged INFO "video already exists: " (ensure_dir mkdir_size dir w)))
      as (H1 & H2 & H3); [|done|].
    + cbn. rewrite ensure_dir_lookup by apply video_path_of_dir. done.
    + split; [done|]. split; [done|]. etrans; [apply H3|]. apply ensure_dir_http_log.
Qed.

(** A download whose bytes the probe reads without an exception *)
Lemma save_video_download video_url save_dir w r info :
  let dir := default_dir save_dir "cache_videos" in
  let path := video_path_of video_url dir in
  let req := Request video_url [("User-Agent", user_agent)] in
  let w1 := ensure_dir mkdir_size dir w in
  let w2 := World (requested_count w) (<[path := File (content r)]> (fs w1))
                  (http_log w ++ [req]) (rand_calls w) (log w) in
  usable_dir (fs w) dir -> no_cached_file (fs w) path ->
  http_reply (length (http_log w)) req = Some r -> content r ≠ [] ->
  video_probe (content r) = Some info ->
  forall d, clip_duration info = Some d ->
  (Qltb 0 d = false -> save_video video_url save_dir w = (Ok "", w2)) /\
  (forall f, Qltb 0 d = true -> clip_fps info = Some f ->
     save_video video_url save_dir w = (Ok (if Qltb 0 f then path else ""), w2)).
Proof.
  intros dir path req w1 w2 Hdir Hmiss Hreply Hcontent Hprobe d Hd.
  assert (Hstart : save_video video_url save_dir w = validate_video video_probe path w2).
  { unfold material.save_video. fold dir. fold path.
    rewrite (bind_Ok _ _ _ _ _ (ensure_exists_run dir w)).
    rewrite (bind_Ok _ _ _ _ _ (exists_nonempty_run path _)).
    rewrite ensure_dir_nonempty by apply video_path_of_dir.
    rewrite no_cached_file_nonempty by done.
    assert (Hopen : open_wb dir path w1
              = (Ok tt, World (requested_count w) (<[path := File []]> (fs w1))
                              (http_log w) (rand_calls w) (log w))).
    { unfold open_wb, get_fs, put_fs. mrun.
      assert (exists n, fs w1 !! dir = Some (Dir n)) as [n ->].
      { subst w1. unfold ensure_dir, usable_dir in *. case_bool_decide as E.
        - destruct (fs w !! dir) as [[|n]|]; [done|by eexists|by destruct E].
        - cbn. rewrite lookup_insert_eq. by eexists. }
      subst w1. rewrite ensure_dir_lookup by apply video_path_of_dir.
      unfold ensure_dir. case_bool_decide; by destruct Hmiss as [-> | ->]. }
    rewrite (bind_Ok _ _ _ _ _ Hopen).
    unfold requests_get at 1. unfold mbind at 1, M_bind at 1.
    cbn [http_log requested_count fs rand_calls log]. fold req. rewrite Hreply.
    unfold write_file, get_fs, put_fs. mrun.
    cbn [http_log requested_count fs rand_calls log].
    by rewrite insert_insert_eq. }
  rewrite Hstart. unfold validate_video. rewrite (bind_Ok _ _ _ _ _ (exists_nonempty_run path _)).
  assert (nonempty (fs w2) path = true) as ->.
  { eapply nonempty_File; [apply lookup_insert_eq|done]. }
  unfold try_except, VideoFileClip, get_fs. mrun.
  subst w2. cbn [fs]. rewrite lookup_insert_eq, Hprobe, Hd. cbn [py_positive].
  split.
  - by intros ->.
  - intros f -> ->. cbn [py_positive]. by destruct (Qltb 0 f).
Qed.

Lemma open_wb_cases dir path w :
  open_wb dir path w = (Raise OSError, w) \/
  open_wb dir path w
  = (Ok tt, World (requested_count w) (<[path := File []]> (fs w)) (http_log w)
                  (rand_calls w) (log w)).
Proof.
  unfold open_wb, get_fs, put_fs. mrun.
  destruct (fs w !! dir) as [[?|?]|]; [by left| |by left].
  destruct (fs w !! path) as [[?|?]|]; [by right|by left|by right].
Qed.

(** Every way out of [validate_video] on a regular file: the path; or nothing
    usable is left at the path; or the probe read the file left there without
    an exception and found it empty. *)
Lemma validate_video_cases path c w r1 w1 :
  fs w !! path = Some (File c) ->
  validate_video video_probe path w = (r1, w1) ->
  r1 = Ok path \/
  nonempty (fs w1) path = false \/
  (exists b info, fs w1 !! path = Some (File b) /\ video_probe b = Some info /\
                  unplayable info /\ r1 = Ok "").
Proof.
  intros Hfile.
  unfold validate_video. rewrite (bind_Ok _ _ _ _ _ (exists_nonempty_run path _)).
  destruct (nonempty (fs w) path) eqn:Hne; [|by intros [= <- <-]; right; left].
  assert (Hremoved :
    (os_remove_quiet path ;; logger WARNING "invalid video file: " ;; mret "") w
      = (r1, w1) -> nonempty (fs w1) path = false).
  { unfold os_remove_quiet, get_fs, put_fs, logger. mrun. rewrite Hfile.
    intros [= <- <-]. unfold nonempty. cbn [fs]. by rewrite lookup_delete_eq. }
  unfold try_except at 1, VideoFileClip, get_fs. mrun. rewrite Hfile.
  destruct (video_probe c) as [info|] eqn:Hprobe; [|by right; left; apply Hremoved].
  destruct (clip_duration info) as [d|] eqn:Hd; cbn [py_positive];
    [|by right; left; apply Hremoved].
  destruct (Qltb 0 d) eqn:Hd0.
  - destruct (clip_fps info) as [f|] eqn:Hf; cbn [py_positive];
      [|by right; left; apply Hremoved].
    destruct (Qltb 0 f) eqn:Hf0; intros [= <- <-]; [by left|].
    right; right. exists c, info. repeat split; try done.
    exists d. split; [done|]. right. exists f. split; [done|]. by apply Qltb_ge.
  - intros [= <- <-]. right; right. exists c, info. repeat split; try done.
    exists d. split; [done|]. left. by apply Qltb_ge.
Qed.

(** Every way out of [save_video] *)
Lemma save_video_cases video_url save_dir w r1 w1 :
  let dir := default_dir save_dir "cache_videos" in
  let path := video_path_of video_url dir in
  save_video video_url save_dir w = (r1, w1) ->
  r1 = Ok path \/
  nonempty (fs w1) path = false \/
  (exists b info, fs w1 !! path = Some (File b) /\ video_probe b = Some info /\
                  unplayable info /\ r1 = Ok "").
Proof.
  intros dir path. unfold material.save_video. fold dir. fold path.
  rewrite (bind_Ok _ _ _ _ _ (ensure_exists_run dir w)).
  rewrite (bind_Ok _ _ _ _ _ (exists_nonempty_run path _)).
  set (w' := ensure_dir mkdir_size dir w).
  destruct (nonempty (fs w') path) eqn:Hmiss.
  { intros [= <- <-]. by left. }
  destruct (open_wb_cases dir path w') as [Hopen | Hopen].
  { rewrite (bind_Raise _ _ _ _ _ Hopen). intros [= <- <-]. by right; left. }
  rewrite (bind_Ok _ _ _ _ _ Hopen).
  unfold requests_get at 1. unfold mbind at 1, M_bind at 1.
  cbn [http_log requested_count fs rand_calls log].
  destruct (http_reply _ _) as [r|].
  - unfold write_file, get_fs, put_fs. mrun.
    cbn [http_log requested_count fs rand_calls log].
    apply (validate_video_cases path (content r)). cbn [fs]. apply lookup_insert_eq.
  - intros [= <- <-]. right; left. unfold nonempty. cbn [fs].
    by rewrite lookup_insert_eq.
Qed.

(** A cache hit of [save_image] *)
Lemma save_image_hit image_url save_dir w :
  let dir := default_dir save_dir "images" in
  let path := image_path_of image_url dir in
  nonempty (fs w) path = true ->
  save_image image_url save_dir w
  = (Ok path, logged INFO "image already exists: " (ensure_dir mkdir_size dir w)).
Proof.
  intros dir path Hhit. unfold material.save_image.
  fold dir. fold path.
  rewrite (bind_Ok _ _ _ _ _ (ensure_exists_run dir w)).
  rewrite (bind_Ok _ _ _ _ _ (exists_nonempty_run path _)).
  rewrite ensure_dir_nonempty by apply image_path_of_dir.
  rewrite Hhit. reflexivity.
Qed.

(** Every way out of [save_image]: the path, or nothing usable is left at
    the path. *)
Lemma save_image_cases image_url save_dir w r1 w1 :
  let dir := default_dir save_dir "images" in
  let path := image_path_of image_url dir in
  save_image image_url save_dir w = (r1, w1) ->
  r1 = Ok path \/ nonempty (fs w1) path = false.
Proof.
  intros dir path. unfold material.save_image. fold dir. fold path.
  rewrite (bind_Ok _ _ _ _ _ (ensure_exists_run dir w)).
  rewrite (bind_Ok _ _ _ _ _ (exists_nonempty_run path _)).
  set (w' := ensure_dir mkdir_size dir w).
  destruct (nonempty (fs w') path) eqn:Hmiss.
  { intros [= <- <-]. by left. }
  unfold try_except, requests_get, img_save, get_fs, put_fs, logger. mrun.
  destruct (http_reply _ _) as [r|]; [|by intros [= <- <-]; right].
  destruct (status_code r =? 200)%Z; [|by intros [= <- <-]; right].
  destruct (image_open (content r)) as [img|]; [|by intros [= <- <-]; right].
  cbn [fs]. unfold nonempty in Hmiss |- *.
  destruct (fs w' !! path) as [[c|n]|] eqn:Hpath;
    [|by intros [= <- <-]; right; cbn [fs]; rewrite Hpath|].
  - destruct (image_save img) as [b|]; intros [= <- <-]; [by left|].
    right. cbn [fs]. by rewrite lookup_insert_eq.
  - destruct (image_save img) as [b|]; intros [= <- <-]; [by left|].
    right. cbn [fs]. by rewrite Hpath.
Qed.

(** C1, as the code has it: when the cache file of a video URL exists with a
    size above zero, [save_video] returns its path at once. The probe is not
    consulted (the answer is the same under any other probe and any other
    HTTP peer), the file stays as it is and no request is issued: a cached
    file that the probe would reject is neither removed nor fetched again. *)
Theorem save_video_cached_returned_unprobed video_url save_dir w :
  let dir := default_dir save_dir "cache_videos" in
  let path := video_path_of video_url dir in
  nonempty (fs w) path = true ->
  exists w1,
    save_video video_url save_dir w = (Ok path, w1) /\
    fs w1 !! path = fs w !! path /\
    http_log w1 = http_log w /\
    forall http_reply' video_probe',
      material.save_video md5 storage_dir http_reply' video_probe' mkdir_size
        video_url save_dir w = (Ok path, w1).
Proof.
  intros dir path Hhit.
  exists (logged INFO "video already exists: " (ensure_dir mkdir_size dir w)).
  split; [by apply save_video_hit|].
  split; [cbn [logged fs]; apply ensure_dir_lookup, video_path_of_dir|].
  split; [cbn [logged http_log]; apply ensure_dir_http_log|].
  intros http_reply' video_probe'. unfold material.save_video.
  fold dir. fold path.
  rewrite (bind_Ok _ _ _ _ _ (ensure_exists_run dir w)).
  rewrite (bind_Ok _ _ _ _ _ (exists_nonempty_run path _)).
  rewrite ensure_dir_nonempty by apply video_path_of_dir.
  rewrite Hhit. reflexivity.
Qed.

(** C7: when, after a first call of [save_video] (of [save_image]) for a
    URL, a valid cached file is in place (it exists, is not empty and, for a
    video, the probe accepts it), the first call returned the path of the
    cache, and a second call for the same URL returns the same path and
    issues no request. *)
Theorem save_twice_same_path url save_dir w0 :
  (forall r1 w1 b info,
     save_video url save_dir w0 = (r1, w1) ->
     fs w1 !! video_path_of url (default_dir save_dir "cache_videos") = Some (File b) ->
     b ≠ [] -> video_probe b = Some info -> playable info ->
     exists w2,
       r1 = Ok (video_path_of url (default_dir save_dir "cache_videos")) /\
       save_video url save_dir w1 = (r1, w2) /\
       http_log w2 = http_log w1) /\
  (forall r1 w1 b,
     save_image url save_dir w0 = (r1, w1) ->
     fs w1 !! image_path_of url (default_dir save_dir "images") = Some (File b) ->
     b ≠ [] ->
     exists w2,
       r1 = Ok (image_path_of url (default_dir save_dir "images")) /\
       save_image url save_dir w1 = (r1, w2) /\
       http_log w2 = http_log w1).
Proof.
  split.
  - intros r1 w1 b info Hrun Hfile Hb Hprobe Hplay.
    pose proof (nonempty_File _ _ _ Hfile Hb) as Hne.
    assert (r1 = Ok (video_path_of url (default_dir save_dir "cache_videos"))) as ->.
    { destruct (save_video_cases _ _ _ _ _ Hrun)
        as [H | [H | (b' & info' & Hfile' & Hprobe' & Hbad & _)]]; [done|congruence|].
      rewrite Hfile in Hfile'. injection Hfile' as <-.
      rewrite Hprobe in Hprobe'. injection Hprobe' as <-.
      destruct (playable_unplayable _ Hplay Hbad). }
    eexists. split; [done|]. split; [by apply save_video_hit|].
    cbn [logged http_log]. apply ensure_dir_http_log.
  - intros r1 w1 b Hrun Hfile Hb.
    pose proof (nonempty_File _ _ _ Hfile Hb) as Hne.
    assert (r1 = Ok (image_path_of url (default_dir save_dir "images"))) as ->.
    { destruct (save_image_cases _ _ _ _ _ Hrun) as [H | H]; [done|congruence]. }
    eexists. split; [done|]. split; [by apply save_image_hit|].
    cbn [logged http_log]. apply ensure_dir_http_log.
Qed.

(** C9: when [save_video] downloads a file that is not empty and that the
    probe reads without an exception as having [duration <= 0] or
    [fps <= 0], it returns the empty string and leaves the file in place;
    from then on every call of [save_video] for the same URL returns the
    path of that file, as a cache hit, without any request. *)
Theorem save_video_keeps_unplayable_file video_url save_dir w r info :
  let dir := default_dir save_dir "cache_videos" in
  let path := video_path_of video_url dir in
  let req := Request video_url [("User-Agent", user_agent)] in
  usable_dir (fs w) dir -> no_cached_file (fs w) path ->
  http_reply (length (http_log w)) req = Some r -> content r ≠ [] ->
  video_probe (content r) = Some info -> unplayable info ->
  exists w1,
    save_video video_url save_dir w = (Ok "", w1) /\
    fs w1 !! path = Some (File (content r)) /\
    forall n,
      let wn := after_calls (save_video video_url save_dir) n w1 in
      fst (save_video video_url save_dir wn) = Ok path /\
      fs wn !! path = Some (File (content r)) /\
      http_log wn = http_log w1.
Proof.
  intros dir path req Hdir Hmiss Hreply Hcontent Hprobe (d & Hd & Hbad).
  destruct (save_video_download video_url save_dir w r info
              Hdir Hmiss Hreply Hcontent Hprobe d Hd) as [Hzero Hfps].
  eexists. split; [|split].
  - destruct (Qltb 0 d) eqn:Hd0.
    + destruct Hbad as [Hle | (f & Hf & Hle)].
      * apply Qltb_lt in Hd0. destruct (Qlt_not_le _ _ Hd0 Hle).
      * rewrite (Hfps f eq_refl Hf). apply Qltb_ge in Hle. by rewrite Hle.
    + by apply Hzero.
  - cbn [fs]. apply lookup_insert_eq.
  - intros n. apply save_video_hit_stable; [|done].
    cbn [fs]. apply lookup_insert_eq.
Qed.

End AssetCache.

Lemma save_video_cached_returned_unprobed_witness :
  exists w1,
    save_video Demo.md5 Demo.storage_dir Demo.http_good Demo.video_probe 4096
      "http://v/1" "" Demo.world_broken_cache
    = (Ok "/storage/cache_videos/vid-http://v/1.mp4", w1) /\
    fs w1 !! "/storage/cache_videos/vid-http://v/1.mp4"
    = fs Demo.world_broken_cache !! "/storage/cache_videos/vid-http://v/1.mp4" /\
    http_log w1 = [].
Proof.
  destruct (save_video_cached_returned_unprobed Demo.md5 Demo.storage_dir
              Demo.http_good Demo.video_probe 4096 "http://v/1" ""
              Demo.world_broken_cache) as (w1 & H1 & H2 & H3 & _).
  - reflexivity.
  - exists w1. auto.
Defined.

(** C1, as the claim has it, fails: the cache of ["http://v/1"] holds bytes
    that the probe rejects; [save_video] returns the path of the cached file
    all the same, the file is still there afterwards, and the next call
    returns the path again without any request. *)
Lemma save_video_cached_revalidated_cex :
  let path := "/storage/cache_videos/vid-http://v/1.mp4" in
  let save := save_video Demo.md5 Demo.storage_dir Demo.http_good Demo.video_probe
                4096 "http://v/1" "" in
  let first := save Demo.world_broken_cache in
  let second := save (snd first) in
  fs Demo.world_broken_cache !! path = Some (File Demo.broken_bytes) /\
  Demo.video_probe Demo.broken_bytes = None /\
  fst first = Ok path /\
  fs (snd first) !! path = Some (File Demo.broken_bytes) /\
  fst second = Ok path /\
  http_log (snd second) = [].
Proof. vm_compute. repeat split. Qed.

Lemma save_twice_same_path_witness :
  let vpath := "/storage/cache_videos/vid-http://v/1.mp4" in
  let ipath := "/storage/images/img-http://i/1.jpg" in
  let save_v := save_video Demo.md5 Demo.storage_dir Demo.http_good Demo.video_probe
                  4096 "http://v/1" "" in
  let save_i := save_image Demo.md5 Demo.storage_dir Demo.http_good (list byte)
                  Demo.image_open Demo.image_save 4096 "http://i/1" "" in
  (fst (save_v Demo.world0) = Ok vpath /\
   fst (save_v (snd (save_v Demo.world0))) = Ok vpath /\
   http_log (snd (save_v (snd (save_v Demo.world0))))
   = http_log (snd (save_v Demo.world0))) /\
  (fst (save_i Demo.world0) = Ok ipath /\
   fst (save_i (snd (save_i Demo.world0))) = Ok ipath /\
   http_log (snd (save_i (snd (save_i Demo.world0))))
   = http_log (snd (save_i Demo.world0))).
Proof.
  intros vpath ipath save_v save_i.
  pose proof (save_twice_same_path Demo.md5 Demo.storage_dir Demo.http_good
                Demo.video_probe (list byte) Demo.image_open Demo.image_save 4096)
    as Htwice.
  split.
  - destruct (proj1 (Htwice "http://v/1" "" Demo.world0) _ _ Demo.good_bytes
                (ClipInfo (Some 12%Q) (Some 30%Q)) (surjective_pairing _))
      as (w2 & Hr & Hsecond & Hlog).
    + reflexivity.
    + discriminate.
    + reflexivity.
    + exists 12%Q, 30%Q. repeat split.
    + subst save_v. cbv beta. rewrite Hsecond. cbn [fst snd].
      split; [exact Hr|]. split; [exact Hr|exact Hlog].
  - destruct (proj2 (Htwice "http://i/1" "" Demo.world0) _ _ Demo.good_bytes
                (surjective_pairing _)) as (w2 & Hr & Hsecond & Hlog).
    + reflexivity.
    + discriminate.
    + subst save_i. cbv beta. rewrite Hsecond. cbn [fst snd].
      split; [exact Hr|]. split; [exact Hr|exact Hlog].
Defined.

Lemma save_video_keeps_unplayable_file_witness :
  let path := "/storage/cache_videos/vid-http://v/1.mp4" in
  let save := save_video Demo.md5 Demo.storage_dir Demo.http_empty_clip
                Demo.video_probe 4096 "http://v/1" "" in
  exists w1,
    save Demo.world0 = (Ok "", w1) /\
    fs w1 !! path = Some (File Demo.empty_clip_bytes) /\
    forall n, fst (save (after_calls save n w1)) = Ok path /\
              http_log (after_calls save n w1) = http_log w1.
Proof.
  intros path save.
  destruct (save_video_keeps_unplayable_file Demo.md5 Demo.storage_dir
              Demo.http_empty_clip Demo.video_probe 4096 "http://v/1" ""
              Demo.world0 (Response 200 Demo.empty_clip_bytes None)
              (ClipInfo (Some 0%Q) (Some 30%Q))) as (w1 & Hrun & Hfile & Hnext).
  - exact I.
  - by left.
  - reflexivity.
  - discriminate.
  - reflexivity.
  - exists 0%Q. split; [reflexivity|]. left. apply Qle_refl.
  - exists w1. split; [exact Hrun|]. split; [exact Hfile|].
    intros n. destruct (Hnext n) as (H1 & _ & H3). split; [exact H1|exact H3].
Defined.

(** ** The download loop of [download_videos] *)

Section VideoLoop.

Variable md5 : string -> string.
Variable storage_dir : string -> string.
Variable http_reply : nat -> request -> option response.
Variable video_probe : list byte -> option clip_info.
Variable PIL_Image : Type.
Variable image_open : list byte -> option PIL_Image.
Variable image_save : PIL_Image -> option (list byte).
Variable mkdir_size : N.
Variable material_directory : string.

Abbreviation save_material :=
  (save_material md5 storage_dir http_reply video_probe PIL_Image image_open
     image_save mkdir_size).
Abbreviation videos_body :=
  (videos_body md5 storage_dir http_reply video_probe PIL_Image image_open
     image_save mkdir_size material_directory).
Abbreviation videos_loop :=
  (videos_loop md5 storage_dir http_reply video_probe PIL_Image image_open
     image_save mkdir_size material_directory).

(** The call of [save_material] in the body of the loop, in the world the
    body makes it in *)
Abbreviation attempt item w :=
  (save_material (url item) material_directory (type item)
     (logged INFO "downloading video: " w)).

Lemma videos_body_saved audio cap item st w p w1 :
  attempt item w = (Ok p, w1) -> p ≠ "" ->
  let total := (total_duration st + seconds cap item)%Q in
  videos_body audio cap item st w
  = if Qltb audio total then
      (Ok (LoopState (video_paths st ++ [p]) total true),
       logged INFO "total duration of downloaded videos, skip downloading more"
         (logged INFO "video saved: " w1))
    else
      (Ok (LoopState (video_paths st ++ [p]) total false),
       logged INFO "video saved: " w1).
Proof.
  intros Hsave Hp total. unfold material.videos_body.
  unfold try_except. rewrite (bind_Ok _ _ _ _ _ (logger_run _ _ _)).
  rewrite (bind_Ok _ _ _ _ _ Hsave).
  assert (String.eqb p "" = false) as -> by by apply String.eqb_neq.
  cbn [negb]. rewrite (bind_Ok _ _ _ _ _ (logger_run _ _ _)).
  fold (seconds cap item). fold total.
  destruct (Qltb audio total); [|done].
  by rewrite (bind_Ok _ _ _ _ _ (logger_run _ _ _)).
Qed.

Lemma videos_body_failed audio cap item st w r w1 :
  attempt item w = (r, w1) -> r = Ok "" \/ (exists e, r = Raise e) ->
  videos_body audio cap item st w
  = (Ok st, match r with
            | Ok _ => w1
            | Raise _ => logged ERROR "failed to download video: " w1
            end).
Proof.
  intros Hsave Hr. unfold material.videos_body.
  unfold try_except. rewrite (bind_Ok _ _ _ _ _ (logger_run _ _ _)).
  destruct Hr as [-> | [e ->]].
  - by rewrite (bind_Ok _ _ _ _ _ Hsave).
  - by rewrite (bind_Raise _ _ _ _ _ Hsave).
Qed.

Lemma videos_loop_cons audio cap item rest st w st1 w1 :
  videos_body audio cap item st w = (Ok st1, w1) ->
  videos_loop audio cap (item :: rest) st w
  = if stopped st1 then (Ok st1, w1) else videos_loop audio cap rest st1 w1.
Proof.
  intros Hbody. cbn [material.videos_loop].
  rewrite (bind_Ok _ _ _ _ _ Hbody). by destruct (stopped st1).
Qed.

(** One turn of the loop, whatever [save_material] does *)
Lemma videos_loop_turn audio cap item rest st w r w1 :
  attempt item w = (r, w1) ->
  exists st1 w2,
    videos_body audio cap item st w = (Ok st1, w2) /\
    videos_loop audio cap (item :: rest) st w
    = (if stopped st1 then (Ok st1, w2) else videos_loop audio cap rest st1 w2) /\
    match r with
    | Ok p =>
        if String.eqb p "" then st1 = st
        else
          video_paths st1 = video_paths st ++ [p] /\
          total_duration st1 = (total_duration st + seconds cap item)%Q /\
          (stopped st1 = true <-> (audio < total_duration st1)%Q)
    | Raise _ => st1 = st
    end.
Proof.
  intros Hsave.
  assert (Hfail : r = Ok "" \/ (exists e, r = Raise e) ->
    exists st1 w2,
      videos_body audio cap item st w = (Ok st1, w2) /\
      videos_loop audio cap (item :: rest) st w
      = (if stopped st1 then (Ok st1, w2) else videos_loop audio cap rest st1 w2) /\
      st1 = st).
  { intros Hr. pose proof (videos_body_failed audio cap item st w r w1 Hsave Hr) as Hbody.
    eexists _, _. split; [exact Hbody|]. split; [|done].
    apply videos_loop_cons, Hbody. }
  destruct r as [p|e].
  - destruct (String.eqb_spec p "") as [-> | Hp].
    + destruct Hfail as (st1 & w2 & H1 & H2 & H3); [by left|]. by exists st1, w2.
    + pose proof (videos_body_saved audio cap item st w p w1 Hsave Hp) as Hbody.
      cbn zeta in Hbody.
      destruct (Qltb audio (total_duration st + seconds cap item)) eqn:Hcmp.
      * eexists _, _. split; [exact Hbody|].
        split; [by apply videos_loop_cons|]. cbn [stopped total_duration video_paths].
        apply Qltb_lt in Hcmp. done.
      * eexists _, _. split; [exact Hbody|].
        split; [by apply videos_loop_cons|]. cbn [stopped total_duration video_paths].
        apply Qltb_ge in Hcmp. repeat split; try done.
        intros Hlt. destruct (Qlt_not_le _ _ Hlt Hcmp).
  - destruct Hfail as (st1 & w2 & H1 & H2 & H3); [by right; eexists|].
    by exists st1, w2.
Qed.



(** C2, as the code has it: three candidates of duration 3, clips capped
    at 5, an audio of 7 seconds (of any length from 6 up to, not including,
    9), every [save_material] returning a path. The loop keeps all three
    paths: the running duration is 3, then 6, which is not above the audio
    duration, then 9, which is, and the loop stops after appending the third
    path. *)
Theorem videos_loop_keeps_three audio a b c w p1 w1 p2 w2 p3 w3 :
  duration a = 3%Q -> duration b = 3%Q -> duration c = 3%Q ->
  (6 <= audio)%Q -> (audio < 9)%Q ->
  attempt a w = (Ok p1, w1) -> p1 ≠ "" ->
  attempt b (logged INFO "video saved: " w1) = (Ok p2, w2) -> p2 ≠ "" ->
  attempt c (logged INFO "video saved: " w2) = (Ok p3, w3) -> p3 ≠ "" ->
  videos_loop audio 5 [a; b; c] (LoopState [] 0 false) w
  = (Ok (LoopState [p1; p2; p3] 9 true),
     logged INFO "total duration of downloaded videos, skip downloading more"
       (logged INFO "video saved: " w3)).
Proof.
  intros Ha Hb Hc Hlo Hhi H1 Hp1 H2 Hp2 H3 Hp3.
  assert (Hsec : forall x, duration x = 3%Q -> seconds 5 x = 3%Q).
  { intros x Hx. unfold seconds. by rewrite Hx. }
  assert (Hgo : forall t, (t <= 6)%Q -> Qltb audio t = false).
  { intros t Ht. apply Qltb_ge. by apply Qle_trans with 6%Q. }
  assert (Hstop : Qltb audio 9 = true) by by apply Qltb_lt.
  pose proof (videos_body_saved audio 5 a (LoopState [] 0 false) w p1 w1 H1 Hp1) as B1.
  cbn zeta in B1. cbn [total_duration video_paths] in B1.
  rewrite (Hsec a Ha), (Hgo (0 + 3)%Q) in B1 by done.
  rewrite (videos_loop_cons _ _ _ _ _ _ _ _ B1). cbn [stopped].
  pose proof (videos_body_saved audio 5 b (LoopState ([] ++ [p1]) (0 + 3) false)
                _ p2 w2 H2 Hp2) as B2.
  cbn zeta in B2. cbn [total_duration video_paths] in B2.
  rewrite (Hsec b Hb), (Hgo (0 + 3 + 3)%Q) in B2 by done.
  rewrite (videos_loop_cons _ _ _ _ _ _ _ _ B2). cbn [stopped].
  pose proof (videos_body_saved audio 5 c (LoopState (([] ++ [p1]) ++ [p2]) (0 + 3 + 3) false)
                _ p3 w3 H3 Hp3) as B3.
  cbn zeta in B3. cbn [total_duration video_paths] in B3.
  rewrite (Hsec c Hc) in B3. change (0 + 3 + 3 + 3)%Q with 9%Q in B3.
  rewrite Hstop in B3.
  rewrite (videos_loop_cons _ _ _ _ _ _ _ _ B3). reflexivity.
Qed.

End VideoLoop.


Lemma videos_loop_keeps_three_witness :
  exists w',
    Demo.videos_loop "" 7 5 Demo.three_clips (LoopState [] 0 false) Demo.world0
    = (Ok (LoopState ["/storage/cache_videos/vid-http://v/1.mp4";
                      "/storage/cache_videos/vid-http://v/2.mp4";
                      "/storage/cache_videos/vid-http://v/3.mp4"] 9 true), w').
Proof.
  eexists.
  eapply (videos_loop_keeps_three Demo.md5 Demo.storage_dir Demo.http_good
            Demo.video_probe (list byte) Demo.image_open Demo.image_save 4096 ""
            7 (Demo.clip "http://v/1" 3) (Demo.clip "http://v/2" 3)
            (Demo.clip "http://v/3" 3) Demo.world0).
  - reflexivity.
  - reflexivity.
  - reflexivity.
  - discriminate.
  - reflexivity.
  - vm_compute. reflexivity.
  - discriminate.
  - vm_compute. reflexivity.
  - discriminate.
  - vm_compute. reflexivity.
  - discriminate.
Defined.

(** C2, as the claim has it, fails: with the candidates [Demo.three_clips]
    (durations 3, 3, 3), clips capped at 5 and an audio of 7 seconds, every
    [save_material] returns a path and the loop retains three clips, not
    two. *)
Lemma videos_loop_keeps_two_cex :
  let run := Demo.videos_loop "" 7 5 Demo.three_clips (LoopState [] 0 false)
               Demo.world0 in
  duration <$> Demo.three_clips = [3%Q; 3%Q; 3%Q] /\
  exists st,
    fst run = Ok st /\
    video_paths st = ["/storage/cache_videos/vid-http://v/1.mp4";
                      "/storage/cache_videos/vid-http://v/2.mp4";
                      "/storage/cache_videos/vid-http://v/3.mp4"] /\
    total_duration st = 9%Q /\
    length (video_paths st) ≠ 2%nat.
Proof.
  split; [reflexivity|]. eexists. split; [vm_compute; reflexivity|].
  cbn. repeat split. discriminate.
Qed.

(** ** Deduplication of the candidates *)

Lemma first_wins_nil : first_wins [] [].
Proof.
  split; [constructor|]. split; [apply NoDup_nil_2|].
  split; intros ? H; by apply elem_of_nil in H.
Qed.

Lemma first_wins_seen prev items x :
  first_wins prev items -> url x ∈ url <$> items -> first_wins (prev ++ [x]) items.
Proof.
  intros (Hsub & Hnd & Hall & Hfirst) Hx. repeat split.
  - by apply sublist_inserts_r.
  - done.
  - intros z [Hz | ->%list_elem_of_singleton]%elem_of_app; auto.
  - intros y Hy. rewrite filter_app. specialize (Hfirst y Hy).
    destruct (filter _ prev); [done|]. done.
Qed.

Lemma first_wins_new prev items x :
  first_wins prev items -> url x ∉ url <$> items ->
  first_wins (prev ++ [x]) (items ++ [x]).
Proof.
  intros (Hsub & Hnd & Hall & Hfirst) Hx. repeat split.
  - by apply sublist_app.
  - rewrite fmap_app. apply NoDup_app. repeat split; [done| |apply NoDup_singleton].
    intros u Hu ->%list_elem_of_singleton. done.
  - intros z Hz. rewrite fmap_app. apply elem_of_app.
    apply elem_of_app in Hz as [Hz | ->%list_elem_of_singleton]; [left; auto|].
    right. cbn. apply list_elem_of_singleton. done.
  - intros y [Hy | ->%list_elem_of_singleton]%elem_of_app; rewrite filter_app.
    + specialize (Hfirst y Hy). destruct (filter _ prev); [done|]. done.
    + assert (filter (fun z => url z = url x) prev = []) as ->.
      { destruct (filter _ prev) as [|z l] eqn:Hz; [done|].
        assert (z ∈ filter (fun z => url z = url x) prev) as [Heq Hin]%list_elem_of_filter
          by (rewrite Hz; left).
        destruct Hx. rewrite <- Heq. auto. }
      cbn. rewrite decide_True by done. done.
Qed.

Lemma add_items_first_wins items prev valid_items found_duration :
  first_wins prev valid_items ->
  exists valid_items' found_duration',
    add_items items (valid_items, url <$> valid_items, found_duration)
    = (valid_items', url <$> valid_items', found_duration') /\
    first_wins (prev ++ items) valid_items'.
Proof.
  revert prev valid_items found_duration.
  induction items as [|x items IH]; intros prev valid_items found_duration Hinv.
  - exists valid_items, found_duration. by rewrite app_nil_r.
  - cbn [add_items]. rewrite (cons_middle x prev items), (assoc_L (++)).
    case_bool_decide as Hseen.
    + apply IH. by apply first_wins_seen.
    + replace ((url <$> valid_items) ++ [url x]) with (url <$> (valid_items ++ [x]))
        by (by rewrite fmap_app).
      apply IH. by apply first_wins_new.
Qed.

Lemma swap_Permutation {A} (x : list A) i j : swap x i j ≡ₚ x.
Proof.
  unfold swap. destruct (x !! i) as [a|] eqn:Hi; [|done].
  destruct (x !! j) as [b|] eqn:Hj; [|done].
  by apply Permutation_insert_swap.
Qed.

Lemma shuffle_from_Permutation {A} getrandbits i (x : list A) w x' w' :
  shuffle_from getrandbits i x w = (Ok x', w') -> x' ≡ₚ x.
Proof.
  revert x w. induction i as [|i IH]; intros x w; cbn [shuffle_from].
  - by intros [= <- <-].
  - unfold mbind, M_bind, randbelow. intros Hrun%IH.
    rewrite Hrun. apply swap_Permutation.
Qed.

Lemma shuffle_Permutation {A} getrandbits (x : list A) w x' w' :
  shuffle getrandbits x w = (Ok x', w') -> x' ≡ₚ x.
Proof. apply shuffle_from_Permutation. Qed.

Lemma search_all_first_wins search kind search_terms prev valid_items found_duration
    w acc w' :
  first_wins prev valid_items ->
  search_all search kind search_terms
    (valid_items, url <$> valid_items, found_duration) w = (Ok acc, w') ->
  exists batches valid_items' found_duration',
    acc = (valid_items', url <$> valid_items', found_duration') /\
    searched search kind search_terms w batches w' /\
    first_wins (prev ++ concat batches) valid_items'.
Proof.
  revert prev valid_items found_duration w.
  induction search_terms as [|search_term rest IH];
    intros prev valid_items found_duration w Hinv; cbn [search_all].
  - intros [= <- <-]. exists [], valid_items, found_duration.
    split; [done|]. split; [constructor|]. by rewrite app_nil_r.
  - destruct (search search_term w) as [[items|e] w1] eqn:Hsearch.
    + rewrite (bind_Ok _ _ _ _ _ Hsearch), (bind_Ok _ _ _ _ _ (logger_run _ _ _)).
      destruct (add_items_first_wins items prev valid_items found_duration Hinv)
        as (valid_items1 & found_duration1 & -> & Hinv1).
      intros (batches & valid_items' & found_duration' & -> & Hrest & Hinv')%(IH _ _ _ _ Hinv1).
      exists (items :: batches), valid_items', found_duration'.
      split; [done|]. split; [by econstructor|].
      cbn [concat]. by rewrite (assoc_L (++)).
    + by rewrite (bind_Raise _ _ _ _ _ Hsearch).
Qed.

Section Dedup.

Variable config_app : gmap string cfg_value.
Variable to_resolution : VideoAspect.t -> Z * Z.
Variable urlencode : list (string * string) -> string.
Variable int_of_str : string -> option Z.
Variable http_reply : nat -> request -> option response.
Variable getrandbits : nat -> nat.

Abbreviation collect_videos :=
  (collect_videos config_app to_resolution urlencode int_of_str http_reply).
Abbreviation collect_images := (collect_images config_app urlencode http_reply).
Abbreviation search_videos_pexels :=
  (search_videos_pexels config_app to_resolution urlencode int_of_str http_reply).
Abbreviation search_videos_pixabay :=
  (search_videos_pixabay config_app to_resolution urlencode int_of_str http_reply).
Abbreviation search_images_pexels := (search_images_pexels config_app urlencode http_reply).
Abbreviation search_images_pixabay := (search_images_pixabay config_app urlencode http_reply).

(** C4: in a run of [download_videos] and in a run of [download_images],
    whatever the adapter returns for each term, the candidates retained by
    the search phase have pairwise distinct URLs: they are, in their order,
    the first candidate of every URL among the results of all the terms
    together, the list of seen URLs being carried from one term to the next;
    and the list is still without a repeated URL after [random.shuffle]. *)
Theorem retained_urls_distinct search_terms source aspect w items urls total w' :
  (forall max_clip_duration,
     collect_videos search_terms source aspect max_clip_duration w
     = (Ok (items, urls, total), w') ->
     exists batches,
       searched (fun search_term =>
                   (if String.eqb source "pixabay" then search_videos_pixabay
                    else search_videos_pexels) search_term max_clip_duration aspect)
         "videos" search_terms w batches w' /\
       first_wins (concat batches) items /\
       urls = url <$> items /\ NoDup (url <$> items)) /\
  (forall image_type,
     collect_images search_terms source aspect image_type w
     = (Ok (items, urls, total), w') ->
     exists batches,
       searched (fun search_term =>
                   (if String.eqb source "pixabay" then search_images_pixabay
                    else search_images_pexels) search_term aspect image_type 40%Z)
         "images" search_terms w batches w' /\
       first_wins (concat batches) items /\
       urls = url <$> items /\ NoDup (url <$> items)) /\
  (NoDup (url <$> items) ->
   forall w1 shuffled w2,
     shuffle getrandbits items w1 = (Ok shuffled, w2) ->
     shuffled ≡ₚ items /\ NoDup (url <$> shuffled)).
Proof.
  split; [|split].
  - intros max_clip_duration Hrun. unfold material.collect_videos in Hrun.
    apply (search_all_first_wins _ _ _ [] [] 0%Q) in Hrun
      as (batches & items' & total' & [= -> -> ->] & Hsearched & Hfirst);
      [|apply first_wins_nil].
    exists batches. repeat split; try done; apply Hfirst.
  - intros image_type Hrun. unfold material.collect_images in Hrun.
    apply (search_all_first_wins _ _ _ [] [] 0%Q) in Hrun
      as (batches & items' & total' & [= -> -> ->] & Hsearched & Hfirst);
      [|apply first_wins_nil].
    exists batches. repeat split; try done; apply Hfirst.
  - intros Hnd w1 shuffled w2 Hperm%shuffle_Permutation.
    split; [done|]. by rewrite Hperm.
Qed.

End Dedup.

Lemma retained_urls_distinct_witness :
  (exists items urls total w',
     collect_videos Demo.config_app Demo.to_resolution Demo.urlencode Demo.int_of_str
       Demo.http_search ["a"; "b"] "pexels" VideoAspect.portrait 5 Demo.world0
     = (Ok (items, urls, total), w') /\
     urls = ["http://v/1"] /\ NoDup (url <$> items)) /\
  (exists items urls total w',
     collect_images Demo.config_app Demo.urlencode Demo.http_search ["a"; "b"]
       "pexels" VideoAspect.portrait "all" Demo.world0
     = (Ok (items, urls, total), w') /\
     urls = ["http://i/1"; "http://i/2"] /\ NoDup (url <$> items) /\
     forall w1 shuffled w2,
       shuffle Demo.getrandbits items w1 = (Ok shuffled, w2) ->
       NoDup (url <$> shuffled)).
Proof.
  split.
  - epose proof (retained_urls_distinct Demo.config_app Demo.to_resolution
                   Demo.urlencode Demo.int_of_str Demo.http_search
                   Demo.getrandbits ["a"; "b"] "pexels" VideoAspect.portrait
                   Demo.world0 _ _ _ _) as Hthm.
    edestruct (proj1 Hthm 5%Z) as (batches & _ & _ & _ & Hdistinct).
    + vm_compute. reflexivity.
    + eexists _, _, _, _. split; [vm_compute; reflexivity|].
      split; [reflexivity|exact Hdistinct].
  - epose proof (retained_urls_distinct Demo.config_app Demo.to_resolution
                   Demo.urlencode Demo.int_of_str Demo.http_search
                   Demo.getrandbits ["a"; "b"] "pexels" VideoAspect.portrait
                   Demo.world0 _ _ _ _) as Hthm.
    edestruct (proj1 (proj2 Hthm) "all") as (batches & _ & _ & _ & Hdistinct).
    + vm_compute. reflexivity.
    + eexists _, _, _, _. split; [vm_compute; reflexivity|].
      split; [reflexivity|]. split; [exact Hdistinct|].
      intros w1 shuffled w2 Hshuffle.
      exact (proj2 (proj2 (proj2 Hthm) Hdistinct w1 shuffled w2 Hshuffle)).
Defined.

(** ** Provider search adapters *)

Section Adapters.

Variable config_app : gmap string cfg_value.
Variable to_resolution : VideoAspect.t -> Z * Z.
Variable urlencode : list (string * string) -> string.
Variable int_of_str : string -> option Z.
Variable http_reply : nat -> request -> option response.

Abbreviation get_api_key := (get_api_key config_app).
Abbreviation search_videos_pexels :=
  (search_videos_pexels config_app to_resolution urlencode int_of_str http_reply).
Abbreviation search_videos_pixabay :=
  (search_videos_pixabay config_app to_resolution urlencode int_of_str http_reply).
Abbreviation search_images_pexels := (search_images_pexels config_app urlencode http_reply).
Abbreviation search_images_pixabay := (search_images_pixabay config_app urlencode http_reply).
Abbreviation pexels_video_items := (pexels_video_items int_of_str).
Abbreviation pixabay_video_items := (pixabay_video_items int_of_str).

(** The [try] block the four adapters share *)
Lemma search_try_run field msg (parse : json -> result (list MaterialInfo))
    u headers w :
  let req := Request u headers in
  let outcome := adapter_outcome field parse (http_reply (length (http_log w)) req) in
  try_except
    (r ← requests_get http_reply u headers;
     response ← response_json r;
     has ← pure (py_contains field response);
     if negb has then logger ERROR msg ;; mret [] else pure (parse response))
    (fun e => logger ERROR msg ;; mret []) w
  = (Ok (items_or_none outcome), answered msg outcome req w).
Proof.
  intros req outcome. subst outcome. unfold adapter_outcome, answered.
  unfold try_except, requests_get, response_json, logger. mrun. fold req.
  destruct (http_reply (length (http_log w)) req) as [r|]; [|done].
  destruct (json_body r) as [response|]; [|done].
  destruct (py_contains field response) as [[|]|e]; cbn; [|done..].
  by destruct (parse response).
Qed.

Lemma search_videos_pexels_run search_term minimum_duration aspect w api_key w1 :
  get_api_key "pexels_api_keys" w = (Ok api_key, w1) ->
  exists req,
    let outcome :=
      adapter_outcome "videos"
        (fun response => pexels_video_items response minimum_duration
                           (to_resolution aspect).1 (to_resolution aspect).2)
        (http_reply (length (http_log w1)) req) in
    search_videos_pexels search_term minimum_duration aspect w
    = (Ok (items_or_none outcome),
       answered "search videos failed: " outcome req
         (logged INFO "searching videos: " w1)).
Proof.
  intros Hkey. unfold material.search_videos_pexels.
  destruct (to_resolution aspect) as [video_width video_height].
  rewrite (bind_Ok _ _ _ _ _ Hkey), (bind_Ok _ _ _ _ _ (logger_run _ _ _)).
  eexists. exact (search_try_run "videos" _ _ _ _ (logged INFO "searching videos: " w1)).
Qed.

Lemma search_videos_pixabay_run search_term minimum_duration aspect w api_key w1 :
  get_api_key "pixabay_api_keys" w = (Ok api_key, w1) ->
  exists req,
    let outcome :=
      adapter_outcome "hits"
        (fun response => pixabay_video_items response minimum_duration
                           (to_resolution aspect).1)
        (http_reply (length (http_log w1)) req) in
    search_videos_pixabay search_term minimum_duration aspect w
    = (Ok (items_or_none outcome),
       answered "search videos failed: " outcome req
         (logged INFO "searching videos: " w1)).
Proof.
  intros Hkey. unfold material.search_videos_pixabay.
  destruct (to_resolution aspect) as [video_width video_height].
  rewrite (bind_Ok _ _ _ _ _ Hkey), (bind_Ok _ _ _ _ _ (logger_run _ _ _)).
  eexists. exact (search_try_run "hits" _ _ _ _ (logged INFO "searching videos: " w1)).
Qed.

Lemma search_images_pexels_run search_term aspect image_type per_page w api_key w1 :
  get_api_key "pexels_api_keys" w = (Ok api_key, w1) ->
  exists req,
    let outcome :=
      adapter_outcome "photos" pexels_image_items
        (http_reply (length (http_log w1)) req) in
    search_images_pexels search_term aspect image_type per_page w
    = (Ok (items_or_none outcome),
       answered "search images failed: " outcome req
         (logged INFO "searching images: " w1)).
Proof.
  intros Hkey. unfold material.search_images_pexels.
  rewrite (bind_Ok _ _ _ _ _ Hkey), (bind_Ok _ _ _ _ _ (logger_run _ _ _)).
  eexists. exact (search_try_run "photos" _ _ _ _ (logged INFO "searching images: " w1)).
Qed.

Lemma search_images_pixabay_run search_term aspect image_type per_page w api_key w1 :
  get_api_key "pixabay_api_keys" w = (Ok api_key, w1) ->
  exists req,
    let outcome :=
      adapter_outcome "hits" pixabay_image_items
        (http_reply (length (http_log w1)) req) in
    search_images_pixabay search_term aspect image_type per_page w
    = (Ok (items_or_none outcome),
       answered "search images failed: " outcome req
         (logged INFO "searching images: " w1)).
Proof.
  intros Hkey. unfold material.search_images_pixabay.
  rewrite (bind_Ok _ _ _ _ _ Hkey), (bind_Ok _ _ _ _ _ (logger_run _ _ _)).
  eexists. exact (search_try_run "hits" _ _ _ _ (logged INFO "searching images: " w1)).
Qed.

Lemma get_api_key_http_log cfg_key w r w1 :
  get_api_key cfg_key w = (r, w1) -> http_log w1 = http_log w.
Proof.
  unfold material.get_api_key, incr_requested_count, get_requested_count, raise. mrun.
  destruct (config_app !! cfg_key) as [[s|l]|]; [| |by intros [= _ <-]].
  - destruct (negb _); by intros [= _ <-].
  - destruct (negb _); [by intros [= _ <-]|].
    cbn [requested_count]. destruct (l !! _); by intros [= _ <-].
Qed.

Lemma adapter_catches_run search field msg parse w w1 req :
  http_log w1 = http_log w ->
  (let outcome := adapter_outcome field parse (http_reply (length (http_log w1)) req) in
   search w = (Ok (items_or_none outcome), answered msg outcome req w1)) ->
  adapter_catches http_reply search field msg parse w.
Proof.
  intros Hlog Hrun. cbn zeta in Hrun. rewrite Hlog in Hrun.
  exists req, (answered msg (adapter_outcome field parse
                               (http_reply (length (http_log w)) req)) req w1).
  cbn zeta. split; [done|]. split.
  - unfold answered. destruct (adapter_outcome _ _ _); cbn; by rewrite Hlog.
  - intros [e He]. rewrite Hrun, He. split; [done|].
    cbn [answered logged log]. apply last_snoc.
Qed.

(** C6: once the API key is there, each of the four search adapters returns
    and does not raise; when the request raises, when the body of the answer
    is not JSON, when the result field is missing or when reading the
    results raises, the adapter logs the failure as an error and returns the
    empty list. *)
Theorem search_adapters_catch w api_key w1 :
  (get_api_key "pexels_api_keys" w = (Ok api_key, w1) ->
   (forall search_term minimum_duration aspect,
      adapter_catches http_reply
        (search_videos_pexels search_term minimum_duration aspect)
        "videos" "search videos failed: "
        (fun response => pexels_video_items response minimum_duration
                           (to_resolution aspect).1 (to_resolution aspect).2) w) /\
   (forall search_term aspect image_type per_page,
      adapter_catches http_reply
        (search_images_pexels search_term aspect image_type per_page)
        "photos" "search images failed: " pexels_image_items w)) /\
  (get_api_key "pixabay_api_keys" w = (Ok api_key, w1) ->
   (forall search_term minimum_duration aspect,
      adapter_catches http_reply
        (search_videos_pixabay search_term minimum_duration aspect)
        "hits" "search videos failed: "
        (fun response => pixabay_video_items response minimum_duration
                           (to_resolution aspect).1) w) /\
   (forall search_term aspect image_type per_page,
      adapter_catches http_reply
        (search_images_pixabay search_term aspect image_type per_page)
        "hits" "search images failed: " pixabay_image_items w)).
Proof.
  split; intros Hkey; pose proof (get_api_key_http_log _ _ _ _ Hkey) as Hlog; split.
  - intros search_term minimum_duration aspect.
    destruct (search_videos_pexels_run search_term minimum_duration aspect _ _ _ Hkey)
      as [req Hrun].
    by apply (adapter_catches_run _ _ _ _ _ (logged INFO "searching videos: " w1) req).
  - intros search_term aspect image_type per_page.
    destruct (search_images_pexels_run search_term aspect image_type per_page _ _ _ Hkey)
      as [req Hrun].
    by apply (adapter_catches_run _ _ _ _ _ (logged INFO "searching images: " w1) req).
  - intros search_term minimum_duration aspect.
    destruct (search_videos_pixabay_run search_term minimum_duration aspect _ _ _ Hkey)
      as [req Hrun].
    by apply (adapter_catches_run _ _ _ _ _ (logged INFO "searching videos: " w1) req).
  - intros search_term aspect image_type per_page.
    destruct (search_images_pixabay_run search_term aspect image_type per_page _ _ _ Hkey)
      as [req Hrun].
    by apply (adapter_catches_run _ _ _ _ _ (logged INFO "searching images: " w1) req).
Qed.

End Adapters.

Lemma search_adapters_catch_witness :
  (exists w',
     search_videos_pexels Demo.config_app Demo.to_resolution Demo.urlencode
       Demo.int_of_str Demo.http_down "cats" 5 VideoAspect.portrait Demo.world0
     = (Ok [], w') /\
     last (log w') = Some (LogRecord ERROR "search videos failed: ")) /\
  (exists w',
     search_images_pixabay Demo.config_app Demo.urlencode Demo.http_html
       "cats" VideoAspect.portrait "all" 40 Demo.world0
     = (Ok [], w') /\
     last (log w') = Some (LogRecord ERROR "search images failed: ")) /\
  (exists w',
     search_videos_pexels Demo.config_app Demo.to_resolution Demo.urlencode
       Demo.int_of_str Demo.http_odd "cats" 5 VideoAspect.portrait Demo.world0
     = (Ok [], w') /\
     last (log w') = Some (LogRecord ERROR "search videos failed: ")).
Proof.
  split; [|split].
  - epose proof (proj1 (search_adapters_catch Demo.config_app Demo.to_resolution
                          Demo.urlencode Demo.int_of_str Demo.http_down
                          Demo.world0 _ _)) as Hcatch.
    destruct Hcatch as [Hvideos _]; [vm_compute; reflexivity|].
    destruct (Hvideos "cats" 5%Z VideoAspect.portrait) as (req & w' & _ & _ & Hfail).
    exists w'. apply Hfail. by eexists.
  - epose proof (proj2 (search_adapters_catch Demo.config_app Demo.to_resolution
                          Demo.urlencode Demo.int_of_str Demo.http_html
                          Demo.world0 _ _)) as Hcatch.
    destruct Hcatch as [_ Himages]; [vm_compute; reflexivity|].
    destruct (Himages "cats" VideoAspect.portrait "all" 40%Z)
      as (req & w' & _ & _ & Hfail).
    exists w'. apply Hfail. by eexists.
  - epose proof (proj1 (search_adapters_catch Demo.config_app Demo.to_resolution
                          Demo.urlencode Demo.int_of_str Demo.http_odd
                          Demo.world0 _ _)) as Hcatch.
    destruct Hcatch as [Hvideos _]; [vm_compute; reflexivity|].
    destruct (Hvideos "cats" 5%Z VideoAspect.portrait) as (req & w' & _ & _ & Hfail).
    exists w'. apply Hfail. by eexists.
Defined.

(** ** The filters of the video adapters *)

Section VideoFilters.

Variable config_app : gmap string cfg_value.
Variable to_resolution : VideoAspect.t -> Z * Z.
Variable urlencode : list (string * string) -> string.
Variable int_of_str : string -> option Z.
Variable http_reply : nat -> request -> option response.

Abbreviation pexels_pick := (pexels_pick int_of_str).
Abbreviation pixabay_pick := (pixabay_pick int_of_str).
Abbreviation pexels_videos := (pexels_videos int_of_str).
Abbreviation pixabay_videos := (pixabay_videos int_of_str).

Lemma pexels_pick_cons video rest d W H :
  pexels_pick (video :: rest) d W H
  = match pexels_size int_of_str video with
    | Ok (w, h) =>
        if ((w =? W) && (h =? H))%Z then
          u ← field_str video "link";
          Ok (Some (mkMaterialInfo "pexels" u d MaterialType.video None None))
        else pexels_pick rest d W H
    | Raise e => Raise e
    end.
Proof.
  cbn [material.pexels_pick]. unfold pexels_size, field_str.
  destruct (py_getitem video (JStr "width")) as [wv|]; [|done]. cbn.
  destruct (material.py_int int_of_str wv) as [w|]; [|done]. cbn.
  destruct (py_getitem video (JStr "height")) as [hv|]; [|done]. cbn.
  destruct (material.py_int int_of_str hv) as [h|]; [|done]. cbn.
  destruct ((w =? W) && (h =? H))%Z; [|done].
  destruct (py_getitem video (JStr "link")) as [link|]; [|done]. cbn.
  by destruct (py_str link).
Qed.

Lemma pixabay_pick_cons video_files video_type rest d W :
  pixabay_pick video_files (video_type :: rest) d W
  = match pixabay_width int_of_str video_files video_type with
    | Ok w =>
        if (W <=? w)%Z then
          u ← pixabay_url video_files video_type;
          Ok (Some (mkMaterialInfo "pixabay" u d MaterialType.video None None))
        else pixabay_pick video_files rest d W
    | Raise e => Raise e
    end.
Proof.
  cbn [material.pixabay_pick]. unfold pixabay_width, pixabay_url, field_str.
  destruct (py_getitem video_files video_type) as [video|]; [|done]. cbn.
  destruct (py_getitem video (JStr "width")) as [wv|]; [|done]. cbn.
  destruct (material.py_int int_of_str wv) as [w|]; [|done]. cbn.
  destruct (W <=? w)%Z; [|done].
  destruct (py_getitem video (JStr "url")) as [link|]; [|done]. cbn.
  by destruct (py_str link).
Qed.

(** The pick of [search_videos_pexels] is the first file variant of the
    requested size, whatever comes after it. *)
Lemma pexels_pick_Some video_files d W H item :
  pexels_pick video_files d W H = Ok (Some item) <->
  exists pre video post u,
    pexels_first_match int_of_str W H video_files pre video post /\
    field_str video "link" = Ok u /\
    item = mkMaterialInfo "pexels" u d MaterialType.video None None.
Proof.
  unfold pexels_first_match. split.
  - induction video_files as [|video rest IH]; [done|].
    rewrite pexels_pick_cons.
    destruct (pexels_size int_of_str video) as [[w h]|] eqn:Hsize; [|done].
    destruct ((w =? W) && (h =? H))%Z eqn:Hmatch.
    + apply andb_true_iff in Hmatch as [->%Z.eqb_eq ->%Z.eqb_eq].
      destruct (field_str video "link") as [u|] eqn:Hu; [|done].
      intros [= <-]. by exists [], video, rest, u.
    + intros (pre & video' & post & u & (-> & Hpre & Hsize') & Hu & ->)%IH.
      exists (video :: pre), video', post, u. repeat split; try done.
      constructor; [|done]. exists (w, h). split; [done|].
      intros [= -> ->]. by rewrite !Z.eqb_refl in Hmatch.
  - intros (pre & video & post & u & (-> & Hpre & Hsize) & Hu & ->).
    induction Hpre as [|g pre (wh & Hg & Hne) _ IH]; cbn [app];
      rewrite pexels_pick_cons.
    + by rewrite Hsize, !Z.eqb_refl, Hu.
    + rewrite Hg. destruct wh as [w h].
      destruct ((w =? W) && (h =? H))%Z eqn:Hmatch; [|done].
      apply andb_true_iff in Hmatch as [->%Z.eqb_eq ->%Z.eqb_eq]. done.
Qed.

(** The pick of [search_videos_pixabay] is the first file variant that is
    wide enough, whatever its height and whatever comes after it. *)
Lemma pixabay_pick_Some video_files video_types d W item :
  pixabay_pick video_files video_types d W = Ok (Some item) <->
  exists pre video_type post u,
    pixabay_first_wide int_of_str W video_files video_types pre video_type post /\
    pixabay_url video_files video_type = Ok u /\
    item = mkMaterialInfo "pixabay" u d MaterialType.video None None.
Proof.
  unfold pixabay_first_wide. split.
  - induction video_types as [|video_type rest IH]; [done|].
    rewrite pixabay_pick_cons.
    destruct (pixabay_width int_of_str video_files video_type) as [w|] eqn:Hw; [|done].
    destruct (W <=? w)%Z eqn:Hwide.
    + apply Z.leb_le in Hwide.
      destruct (pixabay_url video_files video_type) as [u|] eqn:Hu; [|done].
      intros [= <-]. exists [], video_type, rest, u. repeat split; try done. eauto.
    + apply Z.leb_gt in Hwide.
      intros (pre & video_type' & post & u & (-> & Hpre & Hw') & Hu & ->)%IH.
      exists (video_type :: pre), video_type', post, u. repeat split; try done.
      constructor; [|done]. eauto.
  - intros (pre & video_type & post & u & (-> & Hpre & w & Hw & Hwide) & Hu & ->).
    induction Hpre as [|k pre (w' & Hk & Hnarrow) _ IH]; cbn [app];
      rewrite pixabay_pick_cons.
    + rewrite Hw. apply Z.leb_le in Hwide. by rewrite Hwide, Hu.
    + rewrite Hk. apply Z.leb_gt in Hnarrow. by rewrite Hnarrow.
Qed.

Lemma pexels_videos_spec videos minimum_duration W H video_items items :
  pexels_videos videos minimum_duration W H video_items = Ok items ->
  exists new,
    items = video_items ++ new /\
    Forall (fun item => exists v, v ∈ videos /\
              pexels_candidate int_of_str minimum_duration W H v item) new.
Proof.
  revert video_items. induction videos as [|v rest IH]; intros video_items;
    cbn [material.pexels_videos].
  { intros [= <-]. exists []. by rewrite app_nil_r. }
  assert (Hrest : forall acc,
    pexels_videos rest minimum_duration W H acc = Ok items ->
    exists new, items = acc ++ new /\
      Forall (fun item => exists v', v' ∈ v :: rest /\
                pexels_candidate int_of_str minimum_duration W H v' item) new).
  { intros acc (new & -> & Hnew)%IH. exists new. split; [done|].
    eapply Forall_impl; [exact Hnew|]. intros item (v' & Hv' & Hc).
    exists v'. split; [by right|done]. }
  destruct (py_getitem v (JStr "duration")) as [dv|] eqn:Hdv; [|done]. cbn.
  destruct (py_number dv) as [d|] eqn:Hd; [|done]. cbn.
  destruct (Qltb d (inject_Z minimum_duration)) eqn:Hshort; [by apply Hrest|].
  destruct (py_getitem v (JStr "video_files")) as [fv|] eqn:Hfv; [|done]. cbn.
  destruct (py_iter fv) as [video_files|] eqn:Hfiles; [|done]. cbn.
  destruct (pexels_pick video_files d W H) as [[item|]|] eqn:Hpick; [| |done]; cbn.
  - intros (new & -> & Hnew)%Hrest. exists (item :: new).
    split; [by rewrite <- (assoc_L (++))|]. constructor; [|done].
    exists v. split; [by left|].
    apply pexels_pick_Some in Hpick as (pre & video & post & u & Hfirst & Hu & ->).
    exists dv, fv, video_files, pre, video, post. cbn [duration url provider type].
    repeat split; try done; try apply Hfirst. by apply Qltb_ge.
  - rewrite app_nil_r. apply Hrest.
Qed.

Lemma pixabay_videos_spec videos minimum_duration W video_items items :
  pixabay_videos videos minimum_duration W video_items = Ok items ->
  exists new,
    items = video_items ++ new /\
    Forall (fun item => exists v, v ∈ videos /\
              pixabay_candidate int_of_str minimum_duration W v item) new.
Proof.
  revert video_items. induction videos as [|v rest IH]; intros video_items;
    cbn [material.pixabay_videos].
  { intros [= <-]. exists []. by rewrite app_nil_r. }
  assert (Hrest : forall acc,
    pixabay_videos rest minimum_duration W acc = Ok items ->
    exists new, items = acc ++ new /\
      Forall (fun item => exists v', v' ∈ v :: rest /\
                pixabay_candidate int_of_str minimum_duration W v' item) new).
  { intros acc (new & -> & Hnew)%IH. exists new. split; [done|].
    eapply Forall_impl; [exact Hnew|]. intros item (v' & Hv' & Hc).
    exists v'. split; [by right|done]. }
  destruct (py_getitem v (JStr "duration")) as [dv|] eqn:Hdv; [|done]. cbn.
  destruct (py_number dv) as [d|] eqn:Hd; [|done]. cbn.
  destruct (Qltb d (inject_Z minimum_duration)) eqn:Hshort; [by apply Hrest|].
  destruct (py_getitem v (JStr "videos")) as [video_files|] eqn:Hfv; [|done]. cbn.
  destruct (py_iter video_files) as [video_types|] eqn:Htypes; [|done]. cbn.
  destruct (pixabay_pick video_files video_types d W) as [[item|]|] eqn:Hpick;
    [| |done]; cbn.
  - intros (new & -> & Hnew)%Hrest. exists (item :: new).
    split; [by rewrite <- (assoc_L (++))|]. constructor; [|done].
    exists v. split; [by left|].
    apply pixabay_pick_Some in Hpick as (pre & video_type & post & u & Hfirst & Hu & ->).
    exists dv, video_files, video_types, pre, video_type, post.
    cbn [duration url provider type].
    repeat split; try done; try apply Hfirst. by apply Qltb_ge.
  - rewrite app_nil_r. apply Hrest.
Qed.

(** An answer that yields candidates lists the results they were read from. *)
Lemma adapter_outcome_listed field (loop : list json -> result (list MaterialInfo))
    reply items :
  adapter_outcome field
    (fun response => fv ← py_getitem response (JStr field);
                     videos ← py_iter fv; loop videos) reply = Ok items ->
  exists videos, listed field reply videos /\ loop videos = Ok items.
Proof.
  unfold adapter_outcome, listed. destruct reply as [r|]; [|done].
  destruct (json_body r) as [response|] eqn:Hjson; [|done].
  destruct (py_contains field response) as [[|]|]; cbn; [|done..].
  destruct (py_getitem response (JStr field)) as [fv|] eqn:Hfv; [|done]. cbn.
  destruct (py_iter fv) as [videos|] eqn:Hiter; [|done]. cbn.
  intros Hloop. exists videos. split; [|done]. by exists r, response, fv.
Qed.

Abbreviation search_videos_pexels :=
  (search_videos_pexels config_app to_resolution urlencode int_of_str http_reply).
Abbreviation search_videos_pixabay :=
  (search_videos_pixabay config_app to_resolution urlencode int_of_str http_reply).


End VideoFilters.


(** * Further properties of the module *)

(** ** Key rotation *)

Section KeyRotationMore.

Variable config_app : gmap string cfg_value.

Abbreviation get_api_key := (get_api_key config_app).

(** X1: a key that is missing from the configuration, or configured as the
    empty string or the empty list, makes [get_api_key] raise [ValueError];
    nothing is changed, the counter included. *)
Theorem get_api_key_unset_raises cfg_key w :
  config_app !! cfg_key = None \/
  config_app !! cfg_key = Some (CfgStr "") \/
  config_app !! cfg_key = Some (CfgList []) ->
  get_api_key cfg_key w = (Raise ValueError, w).
Proof.
  unfold material.get_api_key. by intros [-> | [-> | ->]].
Qed.

Lemma after_calls_S {A} (c : M A) n w :
  after_calls c (S n) w = snd (c (after_calls c n w)).
Proof.
  revert w. induction n as [|n IH]; intros w; [done|].
  cbn [after_calls] in *. by rewrite IH.
Qed.

Lemma get_api_key_counter cfg_key l w n :
  config_app !! cfg_key = Some (CfgList l) -> l ≠ [] ->
  requested_count (after_calls (get_api_key cfg_key) n w)
  = (requested_count w + n)%nat.
Proof.
  intros Hcfg Hl. induction n as [|n IH]; [by rewrite Nat.add_0_r|].
  rewrite after_calls_S.
  destruct (get_api_key_list config_app cfg_key l
              (after_calls (get_api_key cfg_key) n w) Hcfg Hl) as (k & _ & ->).
  cbn [snd requested_count]. rewrite IH. lia.
Qed.

(** X2: calls of [get_api_key] in a row on a key configured as a non-empty
    list go round the list: the call that follows [n] earlier ones returns
    the key at index [(counter + n + 1) mod len], the counter has then grown
    by one per call, and the same key comes back every [len] calls. *)
Theorem get_api_key_round_robin cfg_key l w n :
  config_app !! cfg_key = Some (CfgList l) -> l ≠ [] ->
  let call := get_api_key cfg_key in
  exists key,
    l !! ((requested_count w + n + 1) mod length l)%nat = Some key /\
    fst (call (after_calls call n w)) = Ok key /\
    requested_count (after_calls call (S n) w) = (requested_count w + S n)%nat /\
    fst (call (after_calls call (n + length l) w)) = Ok key.
Proof.
  intros Hcfg Hl call.
  assert (Hlen : length l ≠ 0%nat) by by destruct l.
  destruct (get_api_key_list config_app cfg_key l (after_calls call n w) Hcfg Hl)
    as (key & Hkey & Hrun).
  destruct (get_api_key_list config_app cfg_key l
              (after_calls call (n + length l) w) Hcfg Hl)
    as (key' & Hkey' & Hrun').
  subst call. rewrite (get_api_key_counter cfg_key l) in Hkey, Hkey' by done.
  replace (S (requested_count w + n)) with (requested_count w + n + 1)%nat
    in Hkey by lia.
  replace (S (requested_count w + (n + length l)))
    with (requested_count w + n + 1 + 1 * length l)%nat in Hkey' by lia.
  rewrite Nat.Div0.mod_add in Hkey'. rewrite Hkey in Hkey'. injection Hkey' as <-.
  exists key. split; [done|]. split; [by rewrite Hrun|].
  split; [by apply (get_api_key_counter cfg_key l)|]. by rewrite Hrun'.
Qed.

(** X3: the counter is one for all keys: a call on one list-backed key moves
    the rotation of every other list-backed key on as well, so that the call
    on [other_key] that follows a call on [cfg_key] returns the key at index
    [(counter + 2) mod len]. *)
Theorem get_api_key_shared_counter cfg_key other_key l l' w :
  config_app !! cfg_key = Some (CfgList l) -> l ≠ [] ->
  config_app !! other_key = Some (CfgList l') -> l' ≠ [] ->
  exists key,
    l' !! ((requested_count w + 2) mod length l')%nat = Some key /\
    fst (get_api_key other_key (snd (get_api_key cfg_key w))) = Ok key.
Proof.
  intros Hcfg Hl Hcfg' Hl'.
  destruct (get_api_key_list config_app cfg_key l w Hcfg Hl) as (k & _ & ->).
  cbn [snd].
  destruct (get_api_key_list config_app other_key l'
              (World (S (requested_count w)) (fs w) (http_log w) (rand_calls w) (log w))
              Hcfg' Hl')
    as (key & Hkey & ->).
  cbn [requested_count] in Hkey.
  exists key. split; [|done].
  by replace (requested_count w + 2)%nat with (S (S (requested_count w))) by lia.
Qed.

End KeyRotationMore.

Lemma get_api_key_unset_raises_witness :
  get_api_key Demo.config_app "material_directory" Demo.world0
  = (Raise ValueError, Demo.world0) /\
  get_api_key Demo.config_unset "pexels_api_keys" Demo.world0
  = (Raise ValueError, Demo.world0) /\
  get_api_key Demo.config_unset "pixabay_api_keys" Demo.world0
  = (Raise ValueError, Demo.world0).
Proof.
  split; [|split]; apply get_api_key_unset_raises.
  - by left.
  - by right; left.
  - by right; right.
Defined.

Lemma get_api_key_round_robin_witness :
  let call := get_api_key Demo.config_app "pexels_api_keys" in
  fst (call (after_calls call 0 Demo.world0)) = Ok "key-b" /\
  fst (call (after_calls call 1 Demo.world0)) = Ok "key-c" /\
  fst (call (after_calls call 2 Demo.world0)) = Ok "key-a" /\
  fst (call (after_calls call 3 Demo.world0)) = Ok "key-b".
Proof.
  intros call.
  pose proof (fun n => get_api_key_round_robin Demo.config_app "pexels_api_keys"
                         ["key-a"; "key-b"; "key-c"] Demo.world0 n eq_refl)
    as Hround.
  assert (Hne : ["key-a"; "key-b"; "key-c"] ≠ ([] : list string)) by discriminate.
  destruct (Hround 0%nat Hne) as (k0 & Hk0 & Hcall0 & _ & Hcall3).
  destruct (Hround 1%nat Hne) as (k1 & Hk1 & Hcall1 & _).
  destruct (Hround 2%nat Hne) as (k2 & Hk2 & Hcall2 & _).
  injection Hk0 as <-. injection Hk1 as <-. injection Hk2 as <-.
  repeat split; assumption.
Defined.

Lemma get_api_key_shared_counter_witness :
  let pexels := get_api_key Demo.config_two_lists "pexels_api_keys" in
  let pixabay := get_api_key Demo.config_two_lists "pixabay_api_keys" in
  fst (pixabay (snd (pexels Demo.world0))) = Ok "pixabay-0" /\
  fst (pexels (snd (pixabay (snd (pexels Demo.world0))))) = Ok "pexels-1".
Proof.
  intros pexels pixabay. split.
  - destruct (get_api_key_shared_counter Demo.config_two_lists "pexels_api_keys"
                "pixabay_api_keys" ["pexels-0"; "pexels-1"]
                ["pixabay-0"; "pixabay-1"] Demo.world0 eq_refl)
      as (key & Hkey & Hcall); [discriminate|reflexivity|discriminate|].
    injection Hkey as <-. exact Hcall.
  - destruct (get_api_key_shared_counter Demo.config_two_lists "pixabay_api_keys"
                "pexels_api_keys" ["pixabay-0"; "pixabay-1"]
                ["pexels-0"; "pexels-1"] (snd (pexels Demo.world0)) eq_refl)
      as (key & Hkey & Hcall); [discriminate|reflexivity|discriminate|].
    injection Hkey as <-. exact Hcall.
Defined.

(** ** Asset cache *)

Lemma before_query_app base q :
  before_query base = base -> before_query (base +:+ "?" +:+ q) = base.
Proof.
  induction base as [|c base IH]; [done|]. simpl.
  destruct (Ascii.eqb c "?"); [done|]. intros [= H]. f_equal. by apply IH.
Qed.

Section AssetCacheMore.

Variable md5 : string -> string.
Variable storage_dir : string -> string.
Variable http_reply : nat -> request -> option response.
Variable video_probe : list byte -> option clip_info.
Variable PIL_Image : Type.
Variable image_open : list byte -> option PIL_Image.
Variable image_save : PIL_Image -> option (list byte).
Variable mkdir_size : N.

Abbreviation save_video := (save_video md5 storage_dir http_reply video_probe mkdir_size).
Abbreviation save_image :=
  (save_image md5 storage_dir http_reply PIL_Image image_open image_save mkdir_size).
Abbreviation video_path_of := (video_path_of md5).
Abbreviation image_path_of := (image_path_of md5).
Abbreviation default_dir := (default_dir storage_dir).

(** The world in which [save_video] sends its request on a cache miss: the
    directory is there and the file was opened for writing. *)
Lemma save_video_miss video_url save_dir w :
  let dir := default_dir save_dir "cache_videos" in
  let path := video_path_of video_url dir in
  usable_dir (fs w) dir -> no_cached_file (fs w) path ->
  save_video video_url save_dir w
  = (r ← requests_get http_reply video_url [("User-Agent", user_agent)];
     write_file path (content r) ;;
     validate_video video_probe path)
      (World (requested_count w)
             (<[path := File []]> (fs (ensure_dir mkdir_size dir w)))
             (http_log w) (rand_calls w) (log w)).
Proof.
  intros dir path Hdir Hmiss. unfold material.save_video. fold dir. fold path.
  rewrite (bind_Ok _ _ _ _ _ (ensure_exists_run mkdir_size dir w)).
  rewrite (bind_Ok _ _ _ _ _ (exists_nonempty_run path _)).
  rewrite (ensure_dir_nonempty mkdir_size) by apply video_path_of_dir.
  rewrite no_cached_file_nonempty by done.
  assert (Hopen : open_wb dir path (ensure_dir mkdir_size dir w)
            = (Ok tt, World (requested_count w)
                            (<[path := File []]> (fs (ensure_dir mkdir_size dir w)))
                            (http_log w) (rand_calls w) (log w))).
  { unfold open_wb, get_fs, put_fs. mrun.
    assert (exists n, fs (ensure_dir mkdir_size dir w) !! dir = Some (Dir n)) as [n ->].
    { unfold ensure_dir, usable_dir in *. case_bool_decide as E.
      - destruct (fs w !! dir) as [[|n]|]; [done|by eexists|by destruct E].
      - cbn. rewrite lookup_insert_eq. by eexists. }
    rewrite (ensure_dir_lookup mkdir_size) by apply video_path_of_dir.
    unfold ensure_dir. case_bool_decide; by destruct Hmiss as [-> | ->]. }
  by rewrite (bind_Ok _ _ _ _ _ Hopen).
Qed.

(** X4: on a cache miss, when the request raises, [save_video] raises too
    (the caller has to catch it); when the answer has an empty body,
    [save_video] returns the empty string. Both times the one request was
    made and an empty file is left at the path of the cache, which the next
    call does not take for a cached video. *)
Theorem save_video_leaves_empty_file video_url save_dir w :
  let dir := default_dir save_dir "cache_videos" in
  let path := video_path_of video_url dir in
  let req := Request video_url [("User-Agent", user_agent)] in
  let reply := http_reply (length (http_log w)) req in
  usable_dir (fs w) dir -> no_cached_file (fs w) path ->
  reply = None \/ (exists r, reply = Some r /\ content r = []) ->
  exists w1,
    save_video video_url save_dir w
    = (if reply is Some _ then Ok "" else Raise RequestException, w1) /\
    fs w1 !! path = Some (File []) /\
    http_log w1 = http_log w ++ [req] /\
    usable_dir (fs w1) dir /\ no_cached_file (fs w1) path.
Proof.
  intros dir path req reply Hdir Hmiss Hreply.
  rewrite (save_video_miss video_url save_dir w Hdir Hmiss). fold dir. fold path.
  assert (Hdir' : forall c,
    usable_dir (<[path := File c]> (fs (ensure_dir mkdir_size dir w))) dir).
  { intros c. unfold usable_dir.
    rewrite lookup_insert_ne by (symmetry; apply video_path_of_dir).
    unfold ensure_dir, usable_dir in *. case_bool_decide; [done|].
    cbn. by rewrite lookup_insert_eq. }
  unfold requests_get at 1. unfold mbind at 1, M_bind at 1.
  cbn [http_log requested_count fs rand_calls log]. fold req. fold reply.
  destruct Hreply as [-> | (r & -> & Hempty)].
  - eexists. split; [done|]. cbn [fs http_log].
    split; [apply lookup_insert_eq|]. split; [done|]. split; [apply Hdir'|].
    right. apply lookup_insert_eq.
  - unfold write_file, get_fs, put_fs. mrun.
    cbn [http_log requested_count fs rand_calls log].
    rewrite insert_insert_eq, Hempty.
    unfold validate_video. rewrite (bind_Ok _ _ _ _ _ (exists_nonempty_run path _)).
    unfold nonempty. cbn [fs]. rewrite lookup_insert_eq. cbn.
    eexists. split; [done|]. cbn [fs http_log].
    split; [apply lookup_insert_eq|]. split; [done|]. split; [apply Hdir'|].
    right. apply lookup_insert_eq.
Qed.

(** On a cache miss that the peer answers, [save_video] ends as
    [validate_video] does on the downloaded bytes. *)
Lemma save_video_fetched video_url save_dir w r :
  let dir := default_dir save_dir "cache_videos" in
  let path := video_path_of video_url dir in
  let req := Request video_url [("User-Agent", user_agent)] in
  usable_dir (fs w) dir -> no_cached_file (fs w) path ->
  http_reply (length (http_log w)) req = Some r ->
  save_video video_url save_dir w
  = validate_video video_probe path
      (World (requested_count w)
             (<[path := File (content r)]> (fs (ensure_dir mkdir_size dir w)))
             (http_log w ++ [req]) (rand_calls w) (log w)).
Proof.
  intros dir path req Hdir Hmiss Hreply.
  rewrite (save_video_miss video_url save_dir w Hdir Hmiss). fold dir. fold path.
  unfold requests_get at 1. unfold mbind at 1, M_bind at 1.
  cbn [http_log requested_count fs rand_calls log]. fold req. rewrite Hreply.
  unfold write_file, get_fs, put_fs. mrun.
  cbn [http_log requested_count fs rand_calls log].
  by rewrite insert_insert_eq.
Qed.

(** X5: on a cache miss, when the probe fails on the downloaded bytes (the
    clip cannot be opened, or it has no duration, or no frame rate),
    [save_video] removes the file it has just written, logs a warning and
    returns the empty string: nothing is left in the cache. *)
Theorem save_video_removes_broken_file video_url save_dir w r :
  let dir := default_dir save_dir "cache_videos" in
  let path := video_path_of video_url dir in
  let req := Request video_url [("User-Agent", user_agent)] in
  usable_dir (fs w) dir -> no_cached_file (fs w) path ->
  http_reply (length (http_log w)) req = Some r -> content r ≠ [] ->
  probe_raises (video_probe (content r)) ->
  exists w1,
    save_video video_url save_dir w = (Ok "", w1) /\
    fs w1 !! path = None /\
    http_log w1 = http_log w ++ [req] /\
    last (log w1) = Some (LogRecord WARNING "invalid video file: ").
Proof.
  intros dir path req Hdir Hmiss Hreply Hcontent Hprobe.
  rewrite (save_video_fetched video_url save_dir w r Hdir Hmiss Hreply).
  fold dir. fold path. fold req.
  unfold validate_video. rewrite (bind_Ok _ _ _ _ _ (exists_nonempty_run path _)).
  erewrite nonempty_File; [|apply lookup_insert_eq|done].
  assert (Hhandler : forall w0 : world,
    fs w0 !! path = Some (File (content r)) ->
    exists w1,
      (os_remove_quiet path ;; logger WARNING "invalid video file: " ;; mret "") w0
      = (Ok "", w1) /\
      fs w1 !! path = None /\ http_log w1 = http_log w0 /\
      last (log w1) = Some (LogRecord WARNING "invalid video file: ")).
  { intros w0 Hfile. unfold os_remove_quiet, get_fs, put_fs, logger. mrun.
    rewrite Hfile. eexists. split; [done|]. cbn [fs http_log log].
    split; [apply lookup_delete_eq|]. split; [done|]. apply last_snoc. }
  unfold try_except at 1, VideoFileClip, get_fs. mrun. cbn [fs].
  rewrite lookup_insert_eq.
  destruct Hprobe as [-> | (info & -> & [Hd | (d & Hd & Hpos & Hf)])].
  - apply Hhandler. cbn [fs]. apply lookup_insert_eq.
  - rewrite Hd. cbn [py_positive]. apply Hhandler. cbn [fs]. apply lookup_insert_eq.
  - rewrite Hd, Hf. cbn [py_positive]. apply Qltb_lt in Hpos. rewrite Hpos.
    apply Hhandler. cbn [fs]. apply lookup_insert_eq.
Qed.

(** What [requests_get] hands on depends on the answers of the peer only. *)
Lemma requests_get_content {A} (http http' : nat -> request -> option response)
    u headers (k : list byte -> M A) w :
  (forall n req, content <$> http n req = content <$> http' n req) ->
  (r ← requests_get http u headers; k (content r)) w
  = (r ← requests_get http' u headers; k (content r)) w.
Proof.
  intros Hsame. unfold requests_get. unfold mbind, M_bind.
  specialize (Hsame (length (http_log w)) (Request u headers)).
  destruct (http _ _) as [r|], (http' _ _) as [r'|]; simplify_eq/=; by try rewrite Hsame.
Qed.

(** X6: [save_video] does not look at the status of the answer: under two
    peers whose answers have the same bodies, whatever their status codes
    and JSON readings, it does the same. An error page sent with status 404
    is written to the cache file and probed like a video. *)
Theorem save_video_ignores_status (http_reply' : nat -> request -> option response)
    video_url save_dir w :
  (forall n req, content <$> http_reply n req = content <$> http_reply' n req) ->
  save_video video_url save_dir w
  = material.save_video md5 storage_dir http_reply' video_probe mkdir_size
      video_url save_dir w.
Proof.
  intros Hsame. unfold material.save_video.
  set (dir := default_dir save_dir "cache_videos").
  set (path := video_path_of video_url dir).
  rewrite !(bind_Ok _ _ _ _ _ (ensure_exists_run mkdir_size dir w)).
  rewrite !(bind_Ok _ _ _ _ _ (exists_nonempty_run path _)).
  destruct (nonempty _ path); [done|].
  destruct (open_wb_cases dir path (ensure_dir mkdir_size dir w)) as [Hopen | Hopen].
  - by rewrite !(bind_Raise _ _ _ _ _ Hopen).
  - rewrite !(bind_Ok _ _ _ _ _ Hopen).
    by apply (requests_get_content http_reply http_reply' video_url _
                (fun c => write_file path c ;; validate_video video_probe path)).
Qed.

(** X7: the cache is keyed by the URL up to its first question mark: once
    the video of [base?q1] is cached, [save_video] of [base?q2] returns the
    cached path without any request. *)
Theorem save_video_query_shares_cache base q1 q2 save_dir w :
  let dir := default_dir save_dir "cache_videos" in
  let path := video_path_of (base +:+ "?" +:+ q1) dir in
  before_query base = base ->
  nonempty (fs w) path = true ->
  exists w1,
    save_video (base +:+ "?" +:+ q2) save_dir w = (Ok path, w1) /\
    path = video_path_of base dir /\
    fs w1 !! path = fs w !! path /\ http_log w1 = http_log w.
Proof.
  intros dir path Hbase Hhit.
  assert (Hpath : forall q, video_path_of (base +:+ "?" +:+ q) dir = video_path_of base dir).
  { intros q. unfold material.video_path_of. by rewrite before_query_app, Hbase. }
  subst path. rewrite (Hpath q1) in *. rewrite <- (Hpath q2) in *.
  rewrite (save_video_hit md5 storage_dir http_reply video_probe mkdir_size
             (base +:+ "?" +:+ q2) save_dir w Hhit).
  eexists. split; [done|]. split; [done|]. cbn [logged fs http_log].
  split; [apply ensure_dir_lookup, video_path_of_dir|apply ensure_dir_http_log].
Qed.

Lemma validate_video_result path w r1 w1 :
  validate_video video_probe path w = (r1, w1) ->
  http_log w1 = http_log w /\
  forall p, r1 = Ok p -> p ≠ "" -> p = path /\ nonempty (fs w1) path = true.
Proof.
  unfold validate_video. rewrite (bind_Ok _ _ _ _ _ (exists_nonempty_run path _)).
  destruct (nonempty (fs w) path) eqn:Hne; [|by intros [= <- <-]; split; [|intros ? [= <-]]].
  assert (Hhandler : forall w0 r w',
    (os_remove_quiet path ;; logger WARNING "invalid video file: " ;; mret "") w0
    = (r, w') -> r = Ok "" /\ http_log w' = http_log w0).
  { intros w0 r w'. unfold os_remove_quiet, get_fs, put_fs, logger. mrun.
    destruct (fs w0 !! path) as [[?|?]|]; by intros [= <- <-]. }
  assert (Hbody : forall r w0,
    (clip ← VideoFileClip video_probe path;
     d ← pure (py_positive (clip_duration clip));
     valid ← (if d : bool then pure (py_positive (clip_fps clip)) else mret false);
     if valid : bool then mret path else mret "") w = (r, w0) ->
    w0 = w /\ forall p, r = Ok p -> p = path \/ p = "").
  { intros r w0. unfold VideoFileClip, get_fs. mrun.
    destruct (fs w !! path) as [[b|n]|]; cbn; [|by intros [= <- <-]..].
    destruct (video_probe b) as [info|]; cbn; [|by intros [= <- <-]].
    destruct (clip_duration info) as [d|]; cbn; [|by intros [= <- <-]].
    destruct (Qltb 0 d); cbn.
    - destruct (clip_fps info) as [f|]; cbn; [|by intros [= <- <-]].
      destruct (Qltb 0 f); intros [= <- <-]; (split; [done|]); intros ? [= <-]; auto.
    - intros [= <- <-]. split; [done|]. intros ? [= <-]. auto. }
  unfold try_except at 1.
  lazymatch goal with
  | |- match ?c with _ => _ end = _ -> _ => destruct c as [[p|e] w0] eqn:Hrun
  end.
  - destruct (Hbody _ _ eq_refl) as [-> Hp]. intros [= <- <-]. split; [done|].
    intros p' [= <-] Hne'. destruct (Hp p eq_refl) as [-> | ->]; done.
  - destruct (Hbody _ _ eq_refl) as [-> _]. intros [-> Hlog]%Hhandler.
    split; [done|]. by intros ? [= <-].
Qed.

(** Every way out of [save_video], as to the requests made and the path
    returned *)
Lemma save_video_result video_url save_dir w r1 w1 :
  let dir := default_dir save_dir "cache_videos" in
  let path := video_path_of video_url dir in
  let req := Request video_url [("User-Agent", user_agent)] in
  save_video video_url save_dir w = (r1, w1) ->
  (http_log w1 = http_log w \/ http_log w1 = http_log w ++ [req]) /\
  forall p, r1 = Ok p -> p ≠ "" -> p = path /\ nonempty (fs w1) path = true.
Proof.
  intros dir path req. unfold material.save_video. fold dir. fold path.
  rewrite (bind_Ok _ _ _ _ _ (ensure_exists_run mkdir_size dir w)).
  rewrite (bind_Ok _ _ _ _ _ (exists_nonempty_run path _)).
  set (w' := ensure_dir mkdir_size dir w).
  assert (Hlog : http_log w' = http_log w) by apply ensure_dir_http_log.
  destruct (nonempty (fs w') path) eqn:Hhit.
  { intros [= <- <-]. cbn [logged http_log fs]. split; [by left|].
    by intros ? [= <-]. }
  destruct (open_wb_cases dir path w') as [Hopen | Hopen].
  { rewrite (bind_Raise _ _ _ _ _ Hopen). intros [= <- <-]. split; [by left|done]. }
  rewrite (bind_Ok _ _ _ _ _ Hopen).
  unfold requests_get at 1. unfold mbind at 1, M_bind at 1.
  cbn [http_log requested_count fs rand_calls log]. fold req.
  destruct (http_reply _ _) as [r|].
  - unfold write_file, get_fs, put_fs. mrun.
    cbn [http_log requested_count fs rand_calls log].
    intros [Hlog1 Hpath]%validate_video_result. cbn [http_log] in Hlog1.
    split; [right; by rewrite Hlog1, Hlog|done].
  - intros [= <- <-]. cbn [http_log]. split; [right; by rewrite Hlog|done].
Qed.

(** X8: whenever [save_video] returns a string that is not empty, the string
    is the path of the cache for the URL and a file that is not empty is at
    that path when the call returns. *)
Theorem save_video_returns_existing_file video_url save_dir w p w1 :
  save_video video_url save_dir w = (Ok p, w1) -> p ≠ "" ->
  p = video_path_of video_url (default_dir save_dir "cache_videos") /\
  nonempty (fs w1) p = true.
Proof.
  intros Hrun Hp.
  destruct (proj2 (save_video_result _ _ _ _ _ Hrun) p eq_refl Hp) as [-> Hfile].
  done.
Qed.

(** Every way out of [save_image], as to the requests made *)
Lemma save_image_requests image_url save_dir w r1 w1 :
  let req := Request image_url [("User-Agent", user_agent)] in
  save_image image_url save_dir w = (r1, w1) ->
  http_log w1 = http_log w \/ http_log w1 = http_log w ++ [req].
Proof.
  intros req. unfold material.save_image.
  set (dir := default_dir save_dir "images").
  set (path := image_path_of image_url dir).
  rewrite (bind_Ok _ _ _ _ _ (ensure_exists_run mkdir_size dir w)).
  rewrite (bind_Ok _ _ _ _ _ (exists_nonempty_run path _)).
  set (w' := ensure_dir mkdir_size dir w).
  assert (Hlog : http_log w' = http_log w) by apply ensure_dir_http_log.
  destruct (nonempty (fs w') path).
  { intros [= <- <-]. by left. }
  unfold try_except, requests_get, img_save, get_fs, put_fs, logger. mrun. fold req.
  destruct (http_reply _ _) as [r|]; [|by intros [= <- <-]; right; cbn; rewrite Hlog].
  destruct (status_code r =? 200)%Z; [|by intros [= <- <-]; right; cbn; rewrite Hlog].
  destruct (image_open (content r)) as [img|];
    [|by intros [= <- <-]; right; cbn; rewrite Hlog].
  cbn [fs].
  destruct (fs w' !! path) as [[c|n]|]; [|by intros [= <- <-]; right; cbn; rewrite Hlog|];
    destruct (image_save img); intros [= <- <-]; right; cbn; by rewrite Hlog.
Qed.

(** X9: a call of [save_video] or of [save_image] makes no request or one
    request, and this request is for the URL it was given, with the
    [User-Agent] header and nothing else. *)
Theorem save_makes_one_request_at_most url save_dir material_type w r1 w1 :
  save_material md5 storage_dir http_reply video_probe PIL_Image image_open
    image_save mkdir_size url save_dir material_type w = (r1, w1) ->
  http_log w1 = http_log w \/
  http_log w1 = http_log w ++ [Request url [("User-Agent", user_agent)]].
Proof.
  destruct material_type; cbn [material.save_material].
  - intros Hrun. apply (save_video_result _ _ _ _ _ Hrun).
  - apply save_image_requests.
Qed.

(** X10: on a cache miss, when the request raises, when the status of the
    answer is not 200 or when the body does not decode as an image,
    [save_image] returns the empty string after its one request and has
    written nothing: but for the directory it may have made, the file system
    is as it was. *)
Theorem save_image_failure_writes_nothing image_url save_dir w :
  let dir := default_dir save_dir "images" in
  let path := image_path_of image_url dir in
  let req := Request image_url [("User-Agent", user_agent)] in
  let reply := http_reply (length (http_log w)) req in
  nonempty (fs w) path = false ->
  reply = None \/
  (exists r, reply = Some r /\
     (status_code r ≠ 200%Z \/ image_open (content r) = None)) ->
  exists w1,
    save_image image_url save_dir w = (Ok "", w1) /\
    fs w1 = fs (ensure_dir mkdir_size dir w) /\
    http_log w1 = http_log w ++ [req].
Proof.
  intros dir path req reply Hmiss Hfail. unfold material.save_image.
  fold dir. fold path.
  rewrite (bind_Ok _ _ _ _ _ (ensure_exists_run mkdir_size dir w)).
  rewrite (bind_Ok _ _ _ _ _ (exists_nonempty_run path _)).
  rewrite (ensure_dir_nonempty mkdir_size) by apply image_path_of_dir.
  rewrite Hmiss.
  unfold try_except, requests_get, logger. mrun.
  rewrite (ensure_dir_http_log mkdir_size). fold req. fold reply.
  destruct Hfail as [-> | (r & -> & [Hstatus | Hdecode])].
  - eexists. by split.
  - apply Z.eqb_neq in Hstatus. rewrite Hstatus. eexists. by split.
  - rewrite Hdecode. destruct (status_code r =? 200)%Z; eexists; by split.
Qed.


End AssetCacheMore.

Lemma save_video_leaves_empty_file_witness :
  let path := "/storage/cache_videos/vid-http://v/1.mp4" in
  exists w1,
    save_video Demo.md5 Demo.storage_dir Demo.http_down Demo.video_probe 4096
      "http://v/1" "" Demo.world0 = (Raise RequestException, w1) /\
    fs w1 !! path = Some (File []) /\
    no_cached_file (fs w1) path.
Proof.
  intros path.
  destruct (save_video_leaves_empty_file Demo.md5 Demo.storage_dir Demo.http_down
              Demo.video_probe 4096 "http://v/1" "" Demo.world0)
    as (w1 & Hrun & Hfile & _ & _ & Hmiss).
  - exact I.
  - by left.
  - by left.
  - exists w1. split; [exact Hrun|]. split; [exact Hfile|exact Hmiss].
Defined.

Lemma save_video_removes_broken_file_witness :
  exists w1,
    save_video Demo.md5 Demo.storage_dir Demo.http_broken Demo.video_probe 4096
      "http://v/1" "" Demo.world0 = (Ok "", w1) /\
    fs w1 !! "/storage/cache_videos/vid-http://v/1.mp4" = None.
Proof.
  destruct (save_video_removes_broken_file Demo.md5 Demo.storage_dir
              Demo.http_broken Demo.video_probe 4096 "http://v/1" "" Demo.world0
              (Response 200 Demo.broken_bytes None))
    as (w1 & Hrun & Hfile & _).
  - exact I.
  - by left.
  - reflexivity.
  - discriminate.
  - by left.
  - exists w1. split; [exact Hrun|exact Hfile].
Defined.

Lemma save_video_ignores_status_witness :
  save_video Demo.md5 Demo.storage_dir Demo.http_good Demo.video_probe 4096
    "http://v/1" "" Demo.world0
  = save_video Demo.md5 Demo.storage_dir Demo.http_good_404 Demo.video_probe 4096
      "http://v/1" "" Demo.world0.
Proof.
  apply (save_video_ignores_status Demo.md5 Demo.storage_dir Demo.http_good
           Demo.video_probe 4096 Demo.http_good_404).
  reflexivity.
Defined.

Lemma save_video_query_shares_cache_witness :
  exists w1,
    save_video Demo.md5 Demo.storage_dir Demo.http_down Demo.video_probe 4096
      "http://v/1?size=large" "" Demo.world_broken_cache
    = (Ok "/storage/cache_videos/vid-http://v/1.mp4", w1) /\
    http_log w1 = [].
Proof.
  destruct (save_video_query_shares_cache Demo.md5 Demo.storage_dir Demo.http_down
              Demo.video_probe 4096 "http://v/1" "size=small" "size=large" ""
              Demo.world_broken_cache)
    as (w1 & Hrun & _ & _ & Hlog).
  - reflexivity.
  - reflexivity.
  - exists w1. split; [exact Hrun|exact Hlog].
Defined.

Lemma save_video_returns_existing_file_witness :
  let run := save_video Demo.md5 Demo.storage_dir Demo.http_good Demo.video_probe
               4096 "http://v/1" "" Demo.world0 in
  nonempty (fs (snd run)) "/storage/cache_videos/vid-http://v/1.mp4" = true.
Proof.
  intros run.
  destruct (save_video_returns_existing_file Demo.md5 Demo.storage_dir
              Demo.http_good Demo.video_probe 4096 "http://v/1" "" Demo.world0
              "/storage/cache_videos/vid-http://v/1.mp4" (snd run))
    as [_ Hfile].
  - reflexivity.
  - discriminate.
  - exact Hfile.
Defined.

Lemma save_makes_one_request_at_most_witness :
  let saved := save_material Demo.md5 Demo.storage_dir Demo.http_good
                 Demo.video_probe (list byte) Demo.image_open Demo.image_save 4096
                 "http://i/1" "" MaterialType.image Demo.world0 in
  http_log (snd saved) = [] \/
  http_log (snd saved) = [Request "http://i/1" [("User-Agent", user_agent)]].
Proof.
  intros saved.
  apply (save_makes_one_request_at_most Demo.md5 Demo.storage_dir Demo.http_good
           Demo.video_probe (list byte) Demo.image_open Demo.image_save 4096
           "http://i/1" "" MaterialType.image Demo.world0 (fst saved) (snd saved)).
  apply surjective_pairing.
Defined.

Lemma save_image_failure_writes_nothing_witness :
  (exists w1,
     save_image Demo.md5 Demo.storage_dir Demo.http_down (list byte) Demo.image_open
       Demo.image_save 4096 "http://i/1" "" Demo.world0 = (Ok "", w1) /\
     fs w1 !! "/storage/images/img-http://i/1.jpg" = None) /\
  (exists w1,
     save_image Demo.md5 Demo.storage_dir Demo.http_good_404 (list byte)
       Demo.image_open Demo.image_save 4096 "http://i/1" "" Demo.world0
     = (Ok "", w1) /\
     fs w1 !! "/storage/images/img-http://i/1.jpg" = None).
Proof.
  split.
  - destruct (save_image_failure_writes_nothing Demo.md5 Demo.storage_dir
                Demo.http_down (list byte) Demo.image_open Demo.image_save 4096
                "http://i/1" "" Demo.world0) as (w1 & Hrun & Hfs & _).
    + reflexivity.
    + by left.
    + exists w1. split; [exact Hrun|]. by rewrite Hfs.
  - destruct (save_image_failure_writes_nothing Demo.md5 Demo.storage_dir
                Demo.http_good_404 (list byte) Demo.image_open Demo.image_save 4096
                "http://i/1" "" Demo.world0) as (w1 & Hrun & Hfs & _).
    + reflexivity.
    + right. eexists. split; [reflexivity|]. left. discriminate.
    + exists w1. split; [exact Hrun|]. by rewrite Hfs.
Defined.


(** ** The download loops *)

Section Loops.

Variable md5 : string -> string.
Variable storage_dir : string -> string.
Variable http_reply : nat -> request -> option response.
Variable video_probe : list byte -> option clip_info.
Variable PIL_Image : Type.
Variable image_open : list byte -> option PIL_Image.
Variable image_save : PIL_Image -> option (list byte).
Variable mkdir_size : N.
Variable material_directory : string.

Abbreviation save_material :=
  (save_material md5 storage_dir http_reply video_probe PIL_Image image_open
     image_save mkdir_size).
Abbreviation videos_body :=
  (videos_body md5 storage_dir http_reply video_probe PIL_Image image_open
     image_save mkdir_size material_directory).
Abbreviation videos_loop :=
  (videos_loop md5 storage_dir http_reply video_probe PIL_Image image_open
     image_save mkdir_size material_directory).
Abbreviation images_loop :=
  (images_loop md5 storage_dir http_reply video_probe PIL_Image image_open
     image_save mkdir_size).

Lemma save_image_returns image_url save_dir w p w1 :
  material.save_image md5 storage_dir http_reply PIL_Image image_open image_save
    mkdir_size image_url save_dir w = (Ok p, w1) ->
  p ≠ "" ->
  p = material.image_path_of md5 image_url (material.default_dir storage_dir save_dir "images").
Proof.
  unfold material.save_image.
  set (dir := material.default_dir storage_dir save_dir "images").
  set (path := material.image_path_of md5 image_url dir).
  rewrite (bind_Ok _ _ _ _ _ (ensure_exists_run mkdir_size dir w)).
  rewrite (bind_Ok _ _ _ _ _ (exists_nonempty_run path _)).
  set (w' := ensure_dir mkdir_size dir w).
  destruct (nonempty (fs w') path).
  { by intros [= <- <-]. }
  unfold try_except, requests_get, img_save, get_fs, put_fs, logger. mrun.
  destruct (http_reply _ _) as [r|]; [|by intros [= <- <-]].
  destruct (status_code r =? 200)%Z; [|by intros [= <- <-]].
  destruct (image_open (content r)) as [img|]; [|by intros [= <- <-]].
  cbn [fs].
  destruct (fs w' !! path) as [[c|n]|]; [|by intros [= <- <-]|];
    destruct (image_save img); by intros [= <- <-].
Qed.

(** A string that [save_material] returns is empty or the path of the cache
    for the candidate. *)
Lemma save_material_returns item save_dir w p w1 :
  save_material (url item) save_dir (type item) w = (Ok p, w1) -> p ≠ "" ->
  p = material_path md5 storage_dir save_dir item.
Proof.
  unfold material_path. destruct (type item); cbn [material.save_material].
  - intros Hrun Hp.
    by destruct (proj2 (save_video_result md5 storage_dir http_reply video_probe
                          mkdir_size _ _ _ _ _ Hrun) p eq_refl Hp).
  - apply save_image_returns.
Qed.

(** The candidates [kept] whose paths a run of the video loop adds *)
Lemma videos_loop_kept audio cap items st w :
  exists st' w' kept,
    videos_loop audio cap items st w = (Ok st', w') /\
    kept `sublist_of` items /\
    video_paths st' = video_paths st
                      ++ (material_path md5 storage_dir material_directory <$> kept).
Proof.
  revert st w. induction items as [|item rest IH]; intros st w.
  { exists st, w, []. cbn. by rewrite app_nil_r. }
  destruct (save_material (url item) material_directory (type item)
              (logged INFO "downloading video: " w)) as [r w1] eqn:Hsave.
  destruct (videos_loop_turn md5 storage_dir http_reply video_probe PIL_Image
              image_open image_save mkdir_size material_directory audio cap
              item rest st w r w1 Hsave) as (st1 & w2 & _ & Hloop & Hturn).
  rewrite Hloop.
  assert (Hskip : st1 = st ->
    exists st' w' kept,
      (if stopped st1 then (Ok st1, w2) else videos_loop audio cap rest st1 w2)
      = (Ok st', w') /\
      kept `sublist_of` item :: rest /\
      video_paths st' = video_paths st
                        ++ (material_path md5 storage_dir material_directory <$> kept)).
  { intros ->. destruct (stopped st).
    - exists st, w2, []. split; [done|]. split; [apply sublist_nil_l|].
      cbn. by rewrite app_nil_r.
    - destruct (IH st w2) as (st' & w' & kept & Hrun & Hsub & Hpaths).
      exists st', w', kept. split; [done|]. split; [by apply sublist_cons|done]. }
  destruct r as [p|e]; [destruct (String.eqb_spec p "") as [-> | Hp]|]; [by auto| |by auto].
  destruct Hturn as (Hpaths & _ & _).
  pose proof (save_material_returns item material_directory _ p w1 Hsave Hp) as ->.
  destruct (stopped st1).
  - exists st1, w2, [item]. split; [done|].
    split; [apply sublist_skip, sublist_nil_l|]. by rewrite Hpaths.
  - destruct (IH st1 w2) as (st' & w' & kept & Hrun & Hsub & Hpaths').
    exists st', w', (item :: kept). split; [done|].
    split; [by apply sublist_skip|]. rewrite Hpaths', Hpaths.
    by rewrite <- (assoc_L (++)).
Qed.

(** X12: the download loop of [download_videos] returns whatever
    [save_material] does: no failed or raising download makes it raise. The
    paths it adds are the paths of the cache for some of the candidates,
    in the order of the candidates, so there are no more of them than
    candidates and none is the empty string. *)
Theorem videos_loop_returns_cache_paths audio cap items st w :
  exists st' w' kept,
    videos_loop audio cap items st w = (Ok st', w') /\
    kept `sublist_of` items /\
    video_paths st' = video_paths st
                      ++ (material_path md5 storage_dir material_directory <$> kept).
Proof. apply videos_loop_kept. Qed.

(** The candidates [kept] whose paths a run of the image loop adds *)
Lemma images_loop_kept items image_paths w :
  exists image_paths' w' kept,
    images_loop items material_directory image_paths w = (Ok image_paths', w') /\
    kept `sublist_of` items /\
    image_paths' = image_paths
                   ++ (material_path md5 storage_dir material_directory <$> kept).
Proof.
  revert image_paths w. induction items as [|item rest IH]; intros image_paths w.
  { exists image_paths, w, []. cbn. by rewrite app_nil_r. }
  cbn [material.images_loop].
  lazymatch goal with
  | |- context [try_except ?c ?h ≫= _] =>
      assert (Htry : exists paths1 w2 kept1,
        try_except c h w = (Ok paths1, w2) /\
        kept1 `sublist_of` [item] /\
        paths1 = image_paths
                 ++ (material_path md5 storage_dir material_directory <$> kept1))
  end.
  { unfold try_except. rewrite (bind_Ok _ _ _ _ _ (logger_run _ _ _)).
    destruct (save_material (url item) material_directory (type item)
                (logged INFO "downloading image: " w)) as [[p|e] w1] eqn:Hsave.
    - rewrite (bind_Ok _ _ _ _ _ Hsave).
      destruct (String.eqb_spec p "") as [-> | Hp]; cbn [negb].
      + exists image_paths, w1, []. split; [done|]. split; [apply sublist_nil_l|].
        cbn. by rewrite app_nil_r.
      + rewrite (bind_Ok _ _ _ _ _ (logger_run _ _ _)).
        pose proof (save_material_returns item material_directory _ p w1 Hsave Hp) as ->.
        by eexists _, _, [item].
    - rewrite (bind_Raise _ _ _ _ _ Hsave).
      rewrite (bind_Ok _ _ _ _ _ (logger_run _ _ _)).
      eexists image_paths, _, []. split; [done|]. split; [apply sublist_nil_l|].
      cbn. by rewrite app_nil_r. }
  destruct Htry as (paths1 & w2 & kept1 & Htry & Hsub1 & ->).
  rewrite (bind_Ok _ _ _ _ _ Htry).
  destruct (IH (image_paths
                ++ (material_path md5 storage_dir material_directory <$> kept1)) w2)
    as (paths' & w' & kept & Hrun & Hsub & Hpaths).
  exists paths', w', (kept1 ++ kept). split; [done|].
  split; [by apply (sublist_app kept1 [item] kept rest)|].
  by rewrite Hpaths, fmap_app, (assoc_L (++)).
Qed.

(** X13: the download loop of [download_images] returns, whatever
    [save_material] does, and the paths it adds are the paths of the cache
    for some of the candidates, in their order. *)
Theorem images_loop_returns_cache_paths items image_paths w :
  exists image_paths' w' kept,
    images_loop items material_directory image_paths w = (Ok image_paths', w') /\
    kept `sublist_of` items /\
    image_paths' = image_paths
                   ++ (material_path md5 storage_dir material_directory <$> kept).
Proof. apply images_loop_kept. Qed.

End Loops.

(** ** The orchestrators *)

Lemma shuffle_from_returns {A} getrandbits i (x : list A) w :
  exists x' w', shuffle_from getrandbits i x w = (Ok x', w').
Proof.
  revert x w. induction i as [|i IH]; intros x w; cbn [shuffle_from]; [by eexists _, _|].
  unfold mbind, M_bind, randbelow. apply IH.
Qed.

Section Orchestrators.

Variable config_app : gmap string cfg_value.
Variable md5 : string -> string.
Variable storage_dir : string -> string.
Variable task_dir : string -> string.
Variable to_resolution : VideoAspect.t -> Z * Z.
Variable urlencode : list (string * string) -> string.
Variable int_of_str : string -> option Z.
Variable http_reply : nat -> request -> option response.
Variable video_probe : list byte -> option clip_info.
Variable PIL_Image : Type.
Variable image_open : list byte -> option PIL_Image.
Variable image_save : PIL_Image -> option (list byte).
Variable mkdir_size : N.
Variable getrandbits : nat -> nat.

Abbreviation download_videos :=
  (download_videos config_app md5 storage_dir task_dir to_resolution urlencode
     int_of_str http_reply video_probe PIL_Image image_open image_save mkdir_size
     getrandbits).
Abbreviation download_images :=
  (download_images config_app md5 storage_dir task_dir urlencode http_reply
     video_probe PIL_Image image_open image_save mkdir_size getrandbits).
Abbreviation collect_videos :=
  (collect_videos config_app to_resolution urlencode int_of_str http_reply).
Abbreviation collect_images := (collect_images config_app urlencode http_reply).
Abbreviation resolve_material_directory :=
  (resolve_material_directory config_app task_dir).

(** The run of [resolve_material_directory], by the configured value *)
Lemma resolve_material_directory_run task_id w :
  exists r,
    resolve_material_directory task_id w = (r, w) /\
    match config_app !! "material_directory" with
    | Some (CfgList _) => r = Raise AttributeError
    | Some (CfgStr s) =>
        if String.eqb (strip s) "task" then r = Ok (task_dir task_id)
        else if is_dir (fs w) (strip s) then r = Ok (strip s)
        else r = Ok ""
    | None => r = Ok ""
    end.
Proof.
  unfold material.resolve_material_directory, os_path_isdir, get_fs. mrun.
  destruct (config_app !! "material_directory") as [[s|l]|]; cbn.
  - destruct (String.eqb (strip s) "task"); [by eexists|].
    unfold is_dir.
    destruct (String.eqb_spec (strip s) "") as [Hempty | Hne]; cbn.
    + rewrite Hempty. eexists. split; [done|]. by destruct (fs w !! "") as [[?|?]|].
    + destruct (fs w !! strip s) as [[c|n]|]; by eexists.
  - by eexists.
  - by eexists.
Qed.


(** What [download_images] does after the search phase returned *)
Lemma download_images_collected task_id search_terms source aspect image_count
    image_type w candidates urls total w1 :
  collect_images search_terms source aspect image_type w
  = (Ok (candidates, urls, total), w1) ->
  forall r w',
    download_images task_id search_terms source aspect image_count image_type w
    = (r, w') ->
    (r = Raise AttributeError) \/
    exists dir kept paths,
      r = Ok paths /\
      (length kept <= Z.to_nat image_count)%nat /\
      kept ⊆+ candidates /\
      paths = material_path md5 storage_dir dir <$> kept.
Proof.
  intros Hcollect r w'. unfold material.download_images.
  rewrite (bind_Ok _ _ _ _ _ Hcollect), (bind_Ok _ _ _ _ _ (logger_run _ _ _)).
  destruct (resolve_material_directory_run task_id
              (logged INFO "found total images: " w1)) as (rd & Hdir & Hcases).
  destruct rd as [dir|e].
  - rewrite (bind_Ok _ _ _ _ _ Hdir).
    destruct (shuffle_from_returns getrandbits (length candidates - 1) candidates
                (logged INFO "found total images: " w1)) as (shuffled & w2 & Hshuffle).
    pose proof (shuffle_from_Permutation _ _ _ _ _ _ Hshuffle) as Hperm.
    fold (shuffle getrandbits candidates) in Hshuffle.
    rewrite (bind_Ok _ _ _ _ _ Hshuffle).
    set (count := Z.to_nat (Z.min image_count (Z.of_nat (length shuffled)))).
    destruct (images_loop_kept md5 storage_dir http_reply video_probe
                PIL_Image image_open image_save mkdir_size dir
                (take count shuffled) [] w2) as (paths & w3 & kept & Hloop & Hsub & ->).
    rewrite (bind_Ok _ _ _ _ _ Hloop), (bind_Ok _ _ _ _ _ (logger_run _ _ _)).
    intros [= <- <-]. right.
    exists dir, kept, (material_path md5 storage_dir dir <$> kept). split; [done|].
    split; [|split; [|done]].
    + apply sublist_length in Hsub. rewrite length_take in Hsub. subst count. lia.
    + rewrite <- Hperm. apply sublist_submseteq.
      etrans; [exact Hsub|]. apply sublist_take.
  - rewrite (bind_Raise _ _ _ _ _ Hdir). intros [= <- <-]. left. revert Hcases.
    destruct (config_app !! "material_directory") as [[s|l]|];
      [|by intros [= ->]|by intros [=]].
    destruct (String.eqb (strip s) "task"); [by intros [=]|].
    by destruct (is_dir _ _); intros [=].
Qed.

(** X15: the paths [download_images] returns are the paths of the cache for
    distinct candidates retained by the search phase (some of them, in the
    order of the shuffle), and there are at most [image_count] of them: none
    when [image_count] is zero or below. *)
Theorem download_images_at_most_count task_id search_terms source aspect image_count
    image_type w paths w' :
  download_images task_id search_terms source aspect image_count image_type w
  = (Ok paths, w') ->
  (length paths <= Z.to_nat image_count)%nat /\
  exists candidates urls total w1 dir kept,
    collect_images search_terms source aspect image_type w
    = (Ok (candidates, urls, total), w1) /\
    kept ⊆+ candidates /\
    paths = material_path md5 storage_dir dir <$> kept.
Proof.
  intros Hrun.
  destruct (collect_images search_terms source aspect image_type w)
    as [[[[candidates urls] total]|e] w1] eqn:Hcollect.
  - destruct (download_images_collected task_id search_terms source aspect
                image_count image_type w candidates urls total w1 Hcollect _ _ Hrun)
      as [[=] | (dir & kept & paths' & [= <-] & Hlen & Hsub & ->)].
    split; [by rewrite length_fmap|]. by exists candidates, urls, total, w1, dir, kept.
  - unfold material.download_images in Hrun.
    by rewrite (bind_Raise _ _ _ _ _ Hcollect) in Hrun.
Qed.

(** X16: the paths [download_videos] returns are the paths of the cache for
    candidates retained by the search phase, each candidate giving one path
    at most. When the clips are to be concatenated in sequence, the paths
    come in the order in which the candidates were found. *)
Theorem download_videos_paths task_id search_terms source aspect video_contact_mode
    audio_duration max_clip_duration w paths w' :
  download_videos task_id search_terms source aspect video_contact_mode
    audio_duration max_clip_duration w = (Ok paths, w') ->
  exists candidates urls total w1 dir kept,
    collect_videos search_terms source aspect max_clip_duration w
    = (Ok (candidates, urls, total), w1) /\
    paths = material_path md5 storage_dir dir <$> kept /\
    match video_contact_mode with
    | VideoConcatMode.sequential => kept `sublist_of` candidates
    | VideoConcatMode.random => kept ⊆+ candidates
    end.
Proof.
  intros Hrun. unfold material.download_videos in Hrun.
  destruct (collect_videos search_terms source aspect max_clip_duration w)
    as [[[[candidates urls] total]|e] w1] eqn:Hcollect;
    [|by rewrite (bind_Raise _ _ _ _ _ Hcollect) in Hrun].
  rewrite (bind_Ok _ _ _ _ _ Hcollect), (bind_Ok _ _ _ _ _ (logger_run _ _ _)) in Hrun.
  destruct (resolve_material_directory_run task_id
              (logged INFO "found total videos, required duration, found duration" w1))
    as (rd & Hdir & _).
  destruct rd as [dir|e]; [|by rewrite (bind_Raise _ _ _ _ _ Hdir) in Hrun].
  rewrite (bind_Ok _ _ _ _ _ Hdir) in Hrun.
  exists candidates, urls, total, w1, dir.
  destruct video_contact_mode.
  - destruct (shuffle_from_returns getrandbits (length candidates - 1) candidates
                (logged INFO "found total videos, required duration, found duration" w1))
      as (shuffled & w2 & Hshuffle).
    pose proof (shuffle_from_Permutation _ _ _ _ _ _ Hshuffle) as Hperm.
    fold (shuffle getrandbits candidates) in Hshuffle.
    rewrite (bind_Ok _ _ _ _ _ Hshuffle) in Hrun.
    destruct (videos_loop_kept md5 storage_dir http_reply video_probe
                PIL_Image image_open image_save mkdir_size dir audio_duration
                max_clip_duration shuffled (LoopState [] 0 false) w2)
      as (st' & w3 & kept & Hloop & Hsub & Hpaths).
    rewrite (bind_Ok _ _ _ _ _ Hloop), (bind_Ok _ _ _ _ _ (logger_run _ _ _)) in Hrun.
    injection Hrun as <- <-. exists kept. split; [done|]. split; [by rewrite Hpaths|].
    rewrite <- Hperm. by apply sublist_submseteq.
  - unfold mbind at 1, M_bind at 1 in Hrun. unfold mret at 1, M_ret at 1 in Hrun.
    destruct (videos_loop_kept md5 storage_dir http_reply video_probe
                PIL_Image image_open image_save mkdir_size dir audio_duration
                max_clip_duration candidates (LoopState [] 0 false)
                (logged INFO "found total videos, required duration, found duration" w1))
      as (st' & w3 & kept & Hloop & Hsub & Hpaths).
    rewrite (bind_Ok _ _ _ _ _ Hloop), (bind_Ok _ _ _ _ _ (logger_run _ _ _)) in Hrun.
    injection Hrun as <- <-. exists kept. split; [done|]. split; [by rewrite Hpaths|].
    done.
Qed.

(** The API key the adapters of a source ask for *)
Abbreviation key_of source :=
  (if String.eqb source "pixabay" then "pixabay_api_keys" else "pexels_api_keys").

(** X17: with no search term, [download_videos] and [download_images]
    search nothing and download nothing: they return the empty list without
    a request, without asking for an API key and without touching the file
    system (or raise, when the material directory is configured as a
    list). *)
Theorem download_without_terms task_id source aspect w :
  let expected : result (list string) :=
    match config_app !! "material_directory" with
    | Some (CfgList _) => Raise AttributeError
    | _ => Ok []
    end in
  (forall video_contact_mode audio_duration max_clip_duration,
     exists w',
       download_videos task_id [] source aspect video_contact_mode audio_duration
         max_clip_duration w = (expected, w') /\
       http_log w' = http_log w /\ fs w' = fs w /\
       requested_count w' = requested_count w) /\
  (forall image_count image_type,
     exists w',
       download_images task_id [] source aspect image_count image_type w
       = (expected, w') /\
       http_log w' = http_log w /\ fs w' = fs w /\
       requested_count w' = requested_count w).
Proof.
  intros expected.
  assert (Hdir : forall w0 : world,
    (exists dir, resolve_material_directory task_id w0 = (Ok dir, w0) /\
                 expected = Ok []) \/
    (resolve_material_directory task_id w0 = (Raise AttributeError, w0) /\
     expected = Raise AttributeError)).
  { intros w0. destruct (resolve_material_directory_run task_id w0) as (r & Hrun & Hr).
    subst expected. revert Hr.
    destruct (config_app !! "material_directory") as [[s|l]|].
    - destruct (String.eqb (strip s) "task"); [intros ->; left; by eexists|].
      destruct (is_dir _ _); intros ->; left; by eexists.
    - intros ->. by right.
    - intros ->. left. by eexists. }
  split.
  - intros video_contact_mode audio_duration max_clip_duration.
    unfold material.download_videos, material.collect_videos. cbn [search_all].
    unfold mbind at 1, M_bind at 1. unfold mret at 1, M_ret at 1.
    rewrite (bind_Ok _ _ _ _ _ (logger_run _ _ _)).
    destruct (Hdir (logged INFO "found total videos, required duration, found duration" w))
      as [(dir & Hrun & ->) | [Hrun ->]].
    + rewrite (bind_Ok _ _ _ _ _ Hrun). destruct video_contact_mode; by eexists.
    + rewrite (bind_Raise _ _ _ _ _ Hrun). by eexists.
  - intros image_count image_type.
    unfold material.download_images, material.collect_images. cbn [search_all].
    unfold mbind at 1, M_bind at 1. unfold mret at 1, M_ret at 1.
    rewrite (bind_Ok _ _ _ _ _ (logger_run _ _ _)).
    destruct (Hdir (logged INFO "found total images: " w)) as [(dir & Hrun & ->) | [Hrun ->]].
    + rewrite (bind_Ok _ _ _ _ _ Hrun). unfold shuffle.
      cbn [length Nat.sub shuffle_from].
      unfold mbind at 1, M_bind at 1. unfold mret at 1, M_ret at 1.
      rewrite take_nil. by eexists.
    + rewrite (bind_Raise _ _ _ _ _ Hrun). by eexists.
Qed.

(** X18: with a search term to look for and the API key of the chosen
    provider missing (or configured empty), [download_videos] and
    [download_images] raise [ValueError] at the first search: nothing was
    requested, logged or written. *)
Theorem download_without_key_raises task_id search_term rest source aspect w :
  config_app !! key_of source = None \/
  config_app !! key_of source = Some (CfgStr "") \/
  config_app !! key_of source = Some (CfgList []) ->
  (forall video_contact_mode audio_duration max_clip_duration,
     download_videos task_id (search_term :: rest) source aspect video_contact_mode
       audio_duration max_clip_duration w = (Raise ValueError, w)) /\
  (forall image_count image_type,
     download_images task_id (search_term :: rest) source aspect image_count
       image_type w = (Raise ValueError, w)).
Proof.
  intros Hunset.
  assert (Hkey : material.get_api_key config_app (key_of source) w
                 = (Raise ValueError, w)).
  { unfold material.get_api_key. by destruct Hunset as [-> | [-> | ->]]. }
  split.
  - intros video_contact_mode audio_duration max_clip_duration.
    unfold material.download_videos, material.collect_videos.
    apply bind_Raise. cbn [search_all]. apply bind_Raise.
    revert Hkey. destruct (String.eqb source "pixabay"); intros Hkey.
    + unfold material.search_videos_pixabay. destruct (to_resolution aspect).
      by apply bind_Raise.
    + unfold material.search_videos_pexels. destruct (to_resolution aspect).
      by apply bind_Raise.
  - intros image_count image_type.
    unfold material.download_images, material.collect_images.
    apply bind_Raise. cbn [search_all]. apply bind_Raise.
    revert Hkey. destruct (String.eqb source "pixabay"); intros Hkey.
    + unfold material.search_images_pixabay. by apply bind_Raise.
    + unfold material.search_images_pexels. by apply bind_Raise.
Qed.

End Orchestrators.

Lemma download_images_at_most_count_witness :
  exists paths w',
    download_images Demo.config_app Demo.md5 Demo.storage_dir Demo.task_dir
      Demo.urlencode Demo.http_all Demo.video_probe (list byte) Demo.image_open
      Demo.image_save 4096 Demo.getrandbits "task-1" ["cats"; "dogs"] "pexels"
      VideoAspect.portrait 1 "all" Demo.world0 = (Ok paths, w') /\
    (length paths <= 1)%nat.
Proof.
  edestruct (download_images_at_most_count Demo.config_app Demo.md5
               Demo.storage_dir Demo.task_dir Demo.urlencode Demo.http_all
               Demo.video_probe (list byte) Demo.image_open Demo.image_save 4096
               Demo.getrandbits "task-1" ["cats"; "dogs"] "pexels"
               VideoAspect.portrait 1 "all" Demo.world0) as [Hlen _].
  - vm_compute. reflexivity.
  - eexists _, _. split; [vm_compute; reflexivity|exact Hlen].
Defined.

Lemma download_videos_paths_witness :
  exists paths w' dir kept,
    download_videos Demo.config_app Demo.md5 Demo.storage_dir Demo.task_dir
      Demo.to_resolution Demo.urlencode Demo.int_of_str Demo.http_all
      Demo.video_probe (list byte) Demo.image_open Demo.image_save 4096
      Demo.getrandbits "task-1" ["cats"; "dogs"] "pexels" VideoAspect.portrait
      VideoConcatMode.sequential 7 5 Demo.world0 = (Ok paths, w') /\
    paths = material_path Demo.md5 Demo.storage_dir dir <$> kept.
Proof.
  edestruct (download_videos_paths Demo.config_app Demo.md5 Demo.storage_dir
               Demo.task_dir Demo.to_resolution Demo.urlencode Demo.int_of_str
               Demo.http_all Demo.video_probe (list byte) Demo.image_open
               Demo.image_save 4096 Demo.getrandbits "task-1" ["cats"; "dogs"]
               "pexels" VideoAspect.portrait VideoConcatMode.sequential 7 5
               Demo.world0)
    as (candidates & urls & total & w1 & dir & kept & _ & Hpaths & _).
  - vm_compute. reflexivity.
  - eexists _, _, dir, kept. split; [vm_compute; reflexivity|exact Hpaths].
Defined.

Lemma download_without_key_raises_witness :
  download_videos Demo.config_unset Demo.md5 Demo.storage_dir Demo.task_dir
    Demo.to_resolution Demo.urlencode Demo.int_of_str Demo.http_all
    Demo.video_probe (list byte) Demo.image_open Demo.image_save 4096
    Demo.getrandbits "task-1" ["cats"] "pexels" VideoAspect.portrait
    VideoConcatMode.random 7 5 Demo.world0 = (Raise ValueError, Demo.world0) /\
  download_images Demo.config_unset Demo.md5 Demo.storage_dir Demo.task_dir
    Demo.urlencode Demo.http_all Demo.video_probe (list byte) Demo.image_open
    Demo.image_save 4096 Demo.getrandbits "task-1" ["cats"] "pixabay"
    VideoAspect.portrait 20 "all" Demo.world0 = (Raise ValueError, Demo.world0).
Proof.
  split.
  - apply (download_without_key_raises Demo.config_unset Demo.md5 Demo.storage_dir
             Demo.task_dir Demo.to_resolution Demo.urlencode Demo.int_of_str
             Demo.http_all Demo.video_probe (list byte) Demo.image_open
             Demo.image_save 4096 Demo.getrandbits "task-1" "cats" [] "pexels"
             VideoAspect.portrait Demo.world0).
    by right; left.
  - apply (download_without_key_raises Demo.config_unset Demo.md5 Demo.storage_dir
             Demo.task_dir Demo.to_resolution Demo.urlencode Demo.int_of_str
             Demo.http_all Demo.video_probe (list byte) Demo.image_open
             Demo.image_save 4096 Demo.getrandbits "task-1" "cats" [] "pixabay"
             VideoAspect.portrait Demo.world0).
    by right; right.
Defined.

(** ** The search adapters and the search phase *)

Lemma add_items_urls_mono items acc u :
  u ∈ seen_urls acc -> u ∈ seen_urls (add_items items acc).
Proof.
  revert acc. induction items as [|x items IH]; intros [[vi vu] fd] Hu; [done|].
  cbn [add_items]. case_bool_decide; apply IH; [done|].
  apply elem_of_app. by left.
Qed.

Lemma add_items_urls items acc x :
  x ∈ items -> url x ∈ seen_urls (add_items items acc).
Proof.
  revert acc. induction items as [|y items IH]; intros [[vi vu] fd] Hin.
  { by apply elem_of_nil in Hin. }
  cbn [add_items]. apply elem_of_cons in Hin as [-> | Hin].
  - case_bool_decide; apply add_items_urls_mono; [done|].
    apply elem_of_app. right. by apply list_elem_of_singleton.
  - case_bool_decide; by apply IH.
Qed.

Lemma add_items_seen items acc :
  (forall x, x ∈ items -> url x ∈ seen_urls acc) -> add_items items acc = acc.
Proof.
  revert acc. induction items as [|y items IH]; intros [[vi vu] fd] Hseen; [done|].
  cbn [add_items]. rewrite bool_decide_eq_true_2 by (apply (Hseen y); by left).
  apply IH. intros x Hx. apply Hseen. by right.
Qed.

(** X19: the loop that retains the candidates is idempotent: results that
    were fed to it once change nothing when they are fed to it again (no
    candidate, no URL and no duration is added), whatever was retained
    before. *)
Theorem add_items_idempotent items acc :
  add_items items (add_items items acc) = add_items items acc.
Proof. apply add_items_seen. intros x Hx. by apply add_items_urls. Qed.

Lemma pexels_photos_spec photos image_items items :
  pexels_photos photos image_items = Ok items ->
  exists new, items = image_items ++ new /\ Forall2 pexels_image photos new.
Proof.
  revert image_items. induction photos as [|p rest IH]; intros image_items;
    cbn [material.pexels_photos].
  { intros [= <-]. exists []. by rewrite app_nil_r. }
  destruct (py_getitem p (JStr "src")) as [src|] eqn:Hsrc; [|done]. cbn.
  destruct (py_getitem src (JStr "original")) as [original|] eqn:Horiginal; [|done]. cbn.
  destruct (py_str original) as [u|] eqn:Hu; [|done]. cbn.
  destruct (py_getitem p (JStr "width")) as [wd|] eqn:Hwd; [|done]. cbn.
  destruct (py_getitem p (JStr "height")) as [ht|] eqn:Hht; [|done]. cbn.
  intros (new & -> & Hnew)%IH. eexists (_ :: new).
  split; [by rewrite <- (assoc_L (++))|]. constructor; [|done].
  exists src, wd, ht. unfold field_str. rewrite Horiginal. by cbn.
Qed.

Lemma pixabay_images_spec images image_items items :
  pixabay_images images image_items = Ok items ->
  exists new, items = image_items ++ new /\ Forall2 pixabay_image images new.
Proof.
  revert image_items. induction images as [|img rest IH]; intros image_items;
    cbn [material.pixabay_images].
  { intros [= <-]. exists []. by rewrite app_nil_r. }
  destruct (py_getitem img (JStr "largeImageURL")) as [large|] eqn:Hlarge; [|done]. cbn.
  destruct (py_str large) as [u|] eqn:Hu; [|done]. cbn.
  destruct (py_getitem img (JStr "imageWidth")) as [wd|] eqn:Hwd; [|done]. cbn.
  destruct (py_getitem img (JStr "imageHeight")) as [ht|] eqn:Hht; [|done]. cbn.
  intros (new & -> & Hnew)%IH. eexists (_ :: new).
  split; [by rewrite <- (assoc_L (++))|]. constructor; [|done].
  exists wd, ht. unfold field_str. rewrite Hlarge. by cbn.
Qed.


Section SearchMore.

Variable config_app : gmap string cfg_value.
Variable to_resolution : VideoAspect.t -> Z * Z.
Variable urlencode : list (string * string) -> string.
Variable int_of_str : string -> option Z.
Variable http_reply : nat -> request -> option response.

Abbreviation get_api_key := (get_api_key config_app).
Abbreviation search_videos_pexels :=
  (search_videos_pexels config_app to_resolution urlencode int_of_str http_reply).
Abbreviation search_videos_pixabay :=
  (search_videos_pixabay config_app to_resolution urlencode int_of_str http_reply).
Abbreviation search_images_pexels := (search_images_pexels config_app urlencode http_reply).
Abbreviation search_images_pixabay := (search_images_pixabay config_app urlencode http_reply).
Abbreviation pexels_videos := (pexels_videos int_of_str).
Abbreviation pixabay_videos := (pixabay_videos int_of_str).
Abbreviation pexels_video_items := (pexels_video_items int_of_str).
Abbreviation pixabay_video_items := (pixabay_video_items int_of_str).
Abbreviation collect_videos :=
  (collect_videos config_app to_resolution urlencode int_of_str http_reply).
Abbreviation collect_images := (collect_images config_app urlencode http_reply).

Lemma get_api_key_fs cfg_key w r w1 : get_api_key cfg_key w = (r, w1) -> fs w1 = fs w.
Proof.
  unfold material.get_api_key, incr_requested_count, get_requested_count, raise. mrun.
  destruct (config_app !! cfg_key) as [[s|l]|]; [| |by intros [= _ <-]].
  - destruct (negb _); by intros [= _ <-].
  - destruct (negb _); [by intros [= _ <-]|].
    cbn [requested_count]. destruct (l !! _); by intros [= _ <-].
Qed.

(** What a returning adapter call returned and did, from its run *)
Lemma search_answered (search : M (list MaterialInfo)) field msg parse w w1 req lv m
    items w' :
  http_log w1 = http_log w -> fs w1 = fs w ->
  (let outcome := adapter_outcome field parse (http_reply (length (http_log w1)) req) in
   search w = (Ok (items_or_none outcome), answered msg outcome req (logged lv m w1))) ->
  search w = (Ok items, w') ->
  items = items_or_none
            (adapter_outcome field parse (http_reply (length (http_log w)) req)) /\
  http_log w' = http_log w ++ [req] /\ fs w' = fs w.
Proof.
  intros Hlog Hfs Hrun Hret. cbn zeta in Hrun. rewrite Hlog in Hrun.
  rewrite Hrun in Hret. injection Hret as <- <-. split; [done|].
  unfold answered. destruct (adapter_outcome _ _ _); cbn; by rewrite Hlog, Hfs.
Qed.

Lemma search_videos_pexels_items search_term minimum_duration aspect w items w' :
  search_videos_pexels search_term minimum_duration aspect w = (Ok items, w') ->
  exists req,
    items = items_or_none
              (adapter_outcome "videos"
                 (fun response => pexels_video_items response minimum_duration
                                    (to_resolution aspect).1 (to_resolution aspect).2)
                 (http_reply (length (http_log w)) req)) /\
    http_log w' = http_log w ++ [req] /\ fs w' = fs w.
Proof.
  intros Hret.
  destruct (get_api_key "pexels_api_keys" w) as [[api_key|e] w1] eqn:Hkey.
  - destruct (search_videos_pexels_run config_app to_resolution urlencode int_of_str
                http_reply search_term minimum_duration aspect _ _ _ Hkey) as [req Hrun].
    exists req.
    exact (search_answered _ _ _ _ _ _ _ _ _ _ _ (get_api_key_http_log _ _ _ _ _ Hkey)
             (get_api_key_fs _ _ _ _ Hkey) Hrun Hret).
  - unfold material.search_videos_pexels in Hret.
    destruct (to_resolution aspect). by rewrite (bind_Raise _ _ _ _ _ Hkey) in Hret.
Qed.

Lemma search_videos_pixabay_items search_term minimum_duration aspect w items w' :
  search_videos_pixabay search_term minimum_duration aspect w = (Ok items, w') ->
  exists req,
    items = items_or_none
              (adapter_outcome "hits"
                 (fun response => pixabay_video_items response minimum_duration
                                    (to_resolution aspect).1)
                 (http_reply (length (http_log w)) req)) /\
    http_log w' = http_log w ++ [req] /\ fs w' = fs w.
Proof.
  intros Hret.
  destruct (get_api_key "pixabay_api_keys" w) as [[api_key|e] w1] eqn:Hkey.
  - destruct (search_videos_pixabay_run config_app to_resolution urlencode int_of_str
                http_reply search_term minimum_duration aspect _ _ _ Hkey) as [req Hrun].
    exists req.
    exact (search_answered _ _ _ _ _ _ _ _ _ _ _ (get_api_key_http_log _ _ _ _ _ Hkey)
             (get_api_key_fs _ _ _ _ Hkey) Hrun Hret).
  - unfold material.search_videos_pixabay in Hret.
    destruct (to_resolution aspect). by rewrite (bind_Raise _ _ _ _ _ Hkey) in Hret.
Qed.

Lemma search_images_pexels_items search_term aspect image_type per_page w items w' :
  search_images_pexels search_term aspect image_type per_page w = (Ok items, w') ->
  exists req,
    items = items_or_none
              (adapter_outcome "photos" pexels_image_items
                 (http_reply (length (http_log w)) req)) /\
    http_log w' = http_log w ++ [req] /\ fs w' = fs w.
Proof.
  intros Hret.
  destruct (get_api_key "pexels_api_keys" w) as [[api_key|e] w1] eqn:Hkey.
  - destruct (search_images_pexels_run config_app urlencode http_reply search_term
                aspect image_type per_page _ _ _ Hkey) as [req Hrun].
    exists req.
    exact (search_answered _ _ _ _ _ _ _ _ _ _ _ (get_api_key_http_log _ _ _ _ _ Hkey)
             (get_api_key_fs _ _ _ _ Hkey) Hrun Hret).
  - unfold material.search_images_pexels in Hret.
    by rewrite (bind_Raise _ _ _ _ _ Hkey) in Hret.
Qed.

Lemma search_images_pixabay_items search_term aspect image_type per_page w items w' :
  search_images_pixabay search_term aspect image_type per_page w = (Ok items, w') ->
  exists req,
    items = items_or_none
              (adapter_outcome "hits" pixabay_image_items
                 (http_reply (length (http_log w)) req)) /\
    http_log w' = http_log w ++ [req] /\ fs w' = fs w.
Proof.
  intros Hret.
  destruct (get_api_key "pixabay_api_keys" w) as [[api_key|e] w1] eqn:Hkey.
  - destruct (search_images_pixabay_run config_app urlencode http_reply search_term
                aspect image_type per_page _ _ _ Hkey) as [req Hrun].
    exists req.
    exact (search_answered _ _ _ _ _ _ _ _ _ _ _ (get_api_key_http_log _ _ _ _ _ Hkey)
             (get_api_key_fs _ _ _ _ Hkey) Hrun Hret).
  - unfold material.search_images_pixabay in Hret.
    by rewrite (bind_Raise _ _ _ _ _ Hkey) in Hret.
Qed.

(** X20: the image adapters filter nothing: when an image search retains
    candidates, the answer lists as many results as there are candidates and
    the candidates are made from the results one by one, in their order,
    each with the URL, the width and the height its result gives, whatever
    the requested aspect and image type. *)
Theorem image_search_keeps_every_result search_term aspect image_type per_page w
    items w' :
  items ≠ [] ->
  (search_images_pexels search_term aspect image_type per_page w = (Ok items, w') ->
   exists req photos,
     listed "photos" (http_reply (length (http_log w)) req) photos /\
     Forall2 pexels_image photos items) /\
  (search_images_pixabay search_term aspect image_type per_page w = (Ok items, w') ->
   exists req images,
     listed "hits" (http_reply (length (http_log w)) req) images /\
     Forall2 pixabay_image images items).
Proof.
  intros Hitems. split.
  - intros (req & Hout & _)%search_images_pexels_items. exists req.
    destruct (adapter_outcome _ _ _) as [items'|] eqn:Houtcome; cbn in Hout;
      subst items; [|done].
    apply (adapter_outcome_listed "photos" (fun photos => pexels_photos photos []))
      in Houtcome as (photos & Hlisted & Hloop).
    apply pexels_photos_spec in Hloop as (new & -> & Hnew). by exists photos.
  - intros (req & Hout & _)%search_images_pixabay_items. exists req.
    destruct (adapter_outcome _ _ _) as [items'|] eqn:Houtcome; cbn in Hout;
      subst items; [|done].
    apply (adapter_outcome_listed "hits" (fun images => pixabay_images images []))
      in Houtcome as (images & Hlisted & Hloop).
    apply pixabay_images_spec in Hloop as (new & -> & Hnew). by exists images.
Qed.




(** The candidates an adapter returns carry its provider and its type. *)
Lemma search_videos_pexels_tagged search_term minimum_duration aspect w items w' :
  search_videos_pexels search_term minimum_duration aspect w = (Ok items, w') ->
  Forall (tagged "pexels" MaterialType.video) items.
Proof.
  intros (req & -> & _)%search_videos_pexels_items.
  destruct (adapter_outcome _ _ _) as [items'|] eqn:Houtcome; cbn; [|constructor].
  apply (adapter_outcome_listed "videos"
           (fun videos => pexels_videos videos minimum_duration
                            (to_resolution aspect).1 (to_resolution aspect).2 []))
    in Houtcome as (videos & _ & Hloop).
  apply pexels_videos_spec in Hloop as (new & -> & Hnew).
  eapply Forall_impl; [exact Hnew|]. intros item (v & _ & Hc).
  by destruct Hc as (? & ? & ? & ? & ? & ? & _ & _ & _ & _ & _ & _ & _ & Hp & Ht).
Qed.

Lemma search_videos_pixabay_tagged search_term minimum_duration aspect w items w' :
  search_videos_pixabay search_term minimum_duration aspect w = (Ok items, w') ->
  Forall (tagged "pixabay" MaterialType.video) items.
Proof.
  intros (req & -> & _)%search_videos_pixabay_items.
  destruct (adapter_outcome _ _ _) as [items'|] eqn:Houtcome; cbn; [|constructor].
  apply (adapter_outcome_listed "hits"
           (fun videos => pixabay_videos videos minimum_duration
                            (to_resolution aspect).1 []))
    in Houtcome as (videos & _ & Hloop).
  apply pixabay_videos_spec in Hloop as (new & -> & Hnew).
  eapply Forall_impl; [exact Hnew|]. intros item (v & _ & Hc).
  by destruct Hc as (? & ? & ? & ? & ? & ? & _ & _ & _ & _ & _ & _ & _ & Hp & Ht).
Qed.

Lemma search_images_pexels_tagged search_term aspect image_type per_page w items w' :
  search_images_pexels search_term aspect image_type per_page w = (Ok items, w') ->
  Forall (tagged "pexels" MaterialType.image) items.
Proof.
  intros (req & -> & _)%search_images_pexels_items.
  destruct (adapter_outcome _ _ _) as [items'|] eqn:Houtcome; cbn; [|constructor].
  apply (adapter_outcome_listed "photos" (fun photos => pexels_photos photos []))
    in Houtcome as (photos & _ & Hloop).
  apply pexels_photos_spec in Hloop as (new & -> & Hnew). cbn.
  induction Hnew as [|p item photos new (? & ? & ? & _ & _ & _ & _ & ->) _ IH];
    constructor; done.
Qed.

Lemma search_images_pixabay_tagged search_term aspect image_type per_page w items w' :
  search_images_pixabay search_term aspect image_type per_page w = (Ok items, w') ->
  Forall (tagged "pixabay" MaterialType.image) items.
Proof.
  intros (req & -> & _)%search_images_pixabay_items.
  destruct (adapter_outcome _ _ _) as [items'|] eqn:Houtcome; cbn; [|constructor].
  apply (adapter_outcome_listed "hits" (fun images => pixabay_images images []))
    in Houtcome as (images & _ & Hloop).
  apply pixabay_images_spec in Hloop as (new & -> & Hnew). cbn.
  induction Hnew as [|p item images new (? & ? & _ & _ & _ & ->) _ IH];
    constructor; done.
Qed.

(** What every adapter call keeps, the whole search phase keeps. *)
Lemma search_all_Forall (P : MaterialInfo -> Prop) search kind search_terms acc w
    acc' w' :
  (forall search_term w0 items w1,
     search search_term w0 = (Ok items, w1) -> Forall P items) ->
  Forall P acc.1.1 ->
  search_all search kind search_terms acc w = (Ok acc', w') ->
  Forall P acc'.1.1.
Proof.
  intros Hsearch. revert acc w.
  induction search_terms as [|search_term rest IH]; intros acc w Hacc;
    cbn [search_all].
  { by intros [= <- <-]. }
  destruct (search search_term w) as [[items|e] w1] eqn:Hrun.
  - rewrite (bind_Ok _ _ _ _ _ Hrun), (bind_Ok _ _ _ _ _ (logger_run _ _ _)).
    apply IH. apply Hsearch in Hrun. clear -Hrun Hacc.
    revert acc Hacc. induction Hrun as [|x items Hx _ IHitems]; intros [[vi vu] fd] Hacc;
      [done|].
    cbn [add_items]. case_bool_decide; apply IHitems; [done|].
    cbn. apply Forall_app. split; [done|]. by constructor.
  - by rewrite (bind_Raise _ _ _ _ _ Hrun).
Qed.

(** X22: every candidate the search phase of [download_videos] retains is a
    video tagged with the provider the argument [source] selects (Pixabay
    for ["pixabay"], Pexels for anything else), and every candidate the
    search phase of [download_images] retains is an image tagged so: the
    video loop only ever saves videos and the image loop images. *)
Theorem candidates_tagged_with_source search_terms source aspect w items urls total w' :
  (forall max_clip_duration,
     collect_videos search_terms source aspect max_clip_duration w
     = (Ok (items, urls, total), w') ->
     Forall (tagged (provider_of source) MaterialType.video) items) /\
  (forall image_type,
     collect_images search_terms source aspect image_type w
     = (Ok (items, urls, total), w') ->
     Forall (tagged (provider_of source) MaterialType.image) items).
Proof.
  unfold provider_of. split.
  - intros max_clip_duration Hrun. unfold material.collect_videos in Hrun.
    eapply (search_all_Forall _ _ _ _ ([], [], 0%Q) _ (items, urls, total)) in Hrun;
      [exact Hrun| |constructor].
    intros search_term w0 items0 w1.
    destruct (String.eqb source "pixabay");
      [apply search_videos_pixabay_tagged|apply search_videos_pexels_tagged].
  - intros image_type Hrun. unfold material.collect_images in Hrun.
    eapply (search_all_Forall _ _ _ _ ([], [], 0%Q) _ (items, urls, total)) in Hrun;
      [exact Hrun| |constructor].
    intros search_term w0 items0 w1.
    destruct (String.eqb source "pixabay");
      [apply search_images_pixabay_tagged|apply search_images_pexels_tagged].
Qed.

(** The requests of the search phase: one per adapter call that returns *)
Lemma search_all_requests search kind search_terms acc w acc' w' :
  (forall search_term w0 items w1,
     search search_term w0 = (Ok items, w1) ->
     length (http_log w1) = S (length (http_log w0)) /\ fs w1 = fs w0) ->
  search_all search kind search_terms acc w = (Ok acc', w') ->
  length (http_log w') = (length (http_log w) + length search_terms)%nat /\
  fs w' = fs w.
Proof.
  intros Hsearch. revert acc w.
  induction search_terms as [|search_term rest IH]; intros acc w; cbn [search_all].
  { intros [= <- <-]. cbn. split; [lia|done]. }
  destruct (search search_term w) as [[items|e] w1] eqn:Hrun.
  - rewrite (bind_Ok _ _ _ _ _ Hrun), (bind_Ok _ _ _ _ _ (logger_run _ _ _)).
    intros [Hlen Hfs]%IH. cbn [logged http_log fs] in Hlen, Hfs.
    destruct (Hsearch _ _ _ _ Hrun) as [Hlen1 Hfs1].
    cbn [length]. split; [lia|congruence].
  - by rewrite (bind_Raise _ _ _ _ _ Hrun).
Qed.

Lemma collect_videos_requests search_terms source aspect max_clip_duration w acc w' :
  collect_videos search_terms source aspect max_clip_duration w = (Ok acc, w') ->
  length (http_log w') = (length (http_log w) + length search_terms)%nat /\
  fs w' = fs w.
Proof.
  apply search_all_requests. intros search_term w0 items w1.
  destruct (String.eqb source "pixabay").
  - intros (req & _ & -> & ->)%search_videos_pixabay_items.
    rewrite length_app. cbn. split; [lia|done].
  - intros (req & _ & -> & ->)%search_videos_pexels_items.
    rewrite length_app. cbn. split; [lia|done].
Qed.

Lemma collect_images_requests search_terms source aspect image_type w acc w' :
  collect_images search_terms source aspect image_type w = (Ok acc, w') ->
  length (http_log w') = (length (http_log w) + length search_terms)%nat /\
  fs w' = fs w.
Proof.
  apply search_all_requests. intros search_term w0 items w1.
  destruct (String.eqb source "pixabay").
  - intros (req & _ & -> & ->)%search_images_pixabay_items.
    rewrite length_app. cbn. split; [lia|done].
  - intros (req & _ & -> & ->)%search_images_pexels_items.
    rewrite length_app. cbn. split; [lia|done].
Qed.

(** X23: the search phase makes one request for every search term, no more
    and no less (no second page is asked for, nothing is tried again, and
    the search goes on through all the terms however much was found), and
    it leaves the file system as it was. *)
Theorem search_phase_one_request_per_term search_terms source aspect w acc w' :
  (forall max_clip_duration,
     collect_videos search_terms source aspect max_clip_duration w = (Ok acc, w') ->
     length (http_log w') = (length (http_log w) + length search_terms)%nat /\
     fs w' = fs w) /\
  (forall image_type,
     collect_images search_terms source aspect image_type w = (Ok acc, w') ->
     length (http_log w') = (length (http_log w) + length search_terms)%nat /\
     fs w' = fs w).
Proof.
  split.
  - intros max_clip_duration. apply collect_videos_requests.
  - intros image_type. apply collect_images_requests.
Qed.

End SearchMore.

Lemma image_search_keeps_every_result_witness :
  exists items w' photos,
    search_images_pexels Demo.config_app Demo.urlencode Demo.http_search "cats"
      VideoAspect.portrait "all" 40 Demo.world0 = (Ok items, w') /\
    length items = 3%nat /\ Forall2 pexels_image photos items.
Proof.
  assert (Hrun : exists items w',
    search_images_pexels Demo.config_app Demo.urlencode Demo.http_search "cats"
      VideoAspect.portrait "all" 40 Demo.world0 = (Ok items, w') /\
    length items = 3%nat /\ items ≠ []).
  { eexists _, _. split; [vm_compute; reflexivity|]. split; [reflexivity|done]. }
  destruct Hrun as (items & w' & Hrun & Hlen & Hne).
  destruct (image_search_keeps_every_result Demo.config_app Demo.urlencode
              Demo.http_search "cats" VideoAspect.portrait "all" 40 Demo.world0
              items w' Hne) as [Hpexels _].
  destruct (Hpexels Hrun) as (req & photos & _ & Hall).
  by exists items, w', photos.
Defined.


Lemma candidates_tagged_with_source_witness :
  exists items urls total w',
    collect_videos Demo.config_app Demo.to_resolution Demo.urlencode Demo.int_of_str
      Demo.http_search ["a"; "b"] "pixabay" VideoAspect.portrait 5 Demo.world0
    = (Ok (items, urls, total), w') /\
    Forall (tagged "pixabay" MaterialType.video) items.
Proof.
  epose proof (candidates_tagged_with_source Demo.config_app Demo.to_resolution
                 Demo.urlencode Demo.int_of_str Demo.http_search ["a"; "b"]
                 "pixabay" VideoAspect.portrait Demo.world0 _ _ _ _) as Hthm.
  eexists _, _, _, _. split; [vm_compute; reflexivity|].
  apply (proj1 Hthm 5%Z). vm_compute. reflexivity.
Defined.

Lemma search_phase_one_request_per_term_witness :
  exists acc w',
    collect_images Demo.config_app Demo.urlencode Demo.http_search ["a"; "b"]
      "pexels" VideoAspect.portrait "all" Demo.world0 = (Ok acc, w') /\
    length (http_log w') = 2%nat.
Proof.
  epose proof (search_phase_one_request_per_term Demo.config_app Demo.to_resolution
                 Demo.urlencode Demo.int_of_str Demo.http_search ["a"; "b"]
                 "pexels" VideoAspect.portrait Demo.world0 _ _) as Hthm.
  eexists _, _. split; [vm_compute; reflexivity|].
  apply (proj2 Hthm "all"). vm_compute. reflexivity.
Defined.

(** ** The requests of a download *)

Lemma shuffle_from_http_log {A} getrandbits i (x : list A) w x' w' :
  shuffle_from getrandbits i x w = (Ok x', w') -> http_log w' = http_log w.
Proof.
  revert x w. induction i as [|i IH]; intros x w; cbn [shuffle_from].
  - by intros [= _ <-].
  - unfold mbind, M_bind, randbelow. by intros ->%IH.
Qed.

Section Budget.

Variable config_app : gmap string cfg_value.
Variable md5 : string -> string.
Variable storage_dir : string -> string.
Variable task_dir : string -> string.
Variable urlencode : list (string * string) -> string.
Variable http_reply : nat -> request -> option response.
Variable video_probe : list byte -> option clip_info.
Variable PIL_Image : Type.
Variable image_open : list byte -> option PIL_Image.
Variable image_save : PIL_Image -> option (list byte).
Variable mkdir_size : N.
Variable getrandbits : nat -> nat.

Abbreviation save_material :=
  (save_material md5 storage_dir http_reply video_probe PIL_Image image_open
     image_save mkdir_size).
Abbreviation images_loop :=
  (images_loop md5 storage_dir http_reply video_probe PIL_Image image_open
     image_save mkdir_size).
Abbreviation download_images :=
  (download_images config_app md5 storage_dir task_dir urlencode http_reply
     video_probe PIL_Image image_open image_save mkdir_size getrandbits).
Abbreviation collect_images := (collect_images config_app urlencode http_reply).

Lemma save_material_requests url save_dir material_type w r1 w1 :
  save_material url save_dir material_type w = (r1, w1) ->
  (length (http_log w) <= length (http_log w1) <= S (length (http_log w)))%nat.
Proof.
  intros Hrun.
  assert (H : http_log w1 = http_log w \/
              http_log w1 = http_log w ++ [Request url [("User-Agent", user_agent)]]).
  { revert Hrun. destruct material_type; cbn [material.save_material].
    - intros Hrun%save_video_result. apply Hrun.
    - apply save_image_requests. }
  destruct H as [-> | ->]; rewrite ?length_app; cbn; lia.
Qed.

Lemma images_loop_requests items material_directory image_paths w image_paths' w' :
  images_loop items material_directory image_paths w = (Ok image_paths', w') ->
  (length (http_log w) <= length (http_log w')
   <= length (http_log w) + length items)%nat.
Proof.
  revert image_paths w. induction items as [|item rest IH]; intros image_paths w.
  { intros [= _ <-]. cbn. lia. }
  cbn [material.images_loop].
  lazymatch goal with
  | |- context [try_except ?c ?h ≫= _] =>
      assert (Htry : exists paths1 w2,
        try_except c h w = (Ok paths1, w2) /\
        (length (http_log w) <= length (http_log w2) <= S (length (http_log w)))%nat)
  end.
  { unfold try_except. rewrite (bind_Ok _ _ _ _ _ (logger_run _ _ _)).
    destruct (save_material (url item) material_directory (type item)
                (logged INFO "downloading image: " w)) as [[p|e] w1] eqn:Hsave;
      apply save_material_requests in Hsave as Hlen; cbn [logged http_log] in Hlen.
    - rewrite (bind_Ok _ _ _ _ _ Hsave).
      destruct (String.eqb p ""); cbn [negb]; [by eexists _, _|].
      rewrite (bind_Ok _ _ _ _ _ (logger_run _ _ _)). by eexists _, _.
    - rewrite (bind_Raise _ _ _ _ _ Hsave).
      rewrite (bind_Ok _ _ _ _ _ (logger_run _ _ _)). by eexists _, _. }
  destruct Htry as (paths1 & w2 & Htry & Hlen).
  rewrite (bind_Ok _ _ _ _ _ Htry). intros Hrest%IH. cbn [length]. lia.
Qed.

(** X24: a run of [download_images] that returns has made one request for
    every search term and, after them, at most [image_count] requests for
    images (none when [image_count] is zero or below): the images beyond the
    first [image_count] of the shuffled candidates are never asked for. *)
Theorem download_images_request_budget task_id search_terms source aspect image_count
    image_type w paths w' :
  download_images task_id search_terms source aspect image_count image_type w
  = (Ok paths, w') ->
  (length (http_log w) + length search_terms <= length (http_log w')
   <= length (http_log w) + length search_terms + Z.to_nat image_count)%nat.
Proof.
  unfold material.download_images.
  destruct (collect_images search_terms source aspect image_type w)
    as [[[[candidates urls] total]|e] w1] eqn:Hcollect;
    [|by rewrite (bind_Raise _ _ _ _ _ Hcollect)].
  rewrite (bind_Ok _ _ _ _ _ Hcollect), (bind_Ok _ _ _ _ _ (logger_run _ _ _)).
  apply collect_images_requests in Hcollect as [Hsearch _].
  destruct (resolve_material_directory_run config_app task_dir task_id
              (logged INFO "found total images: " w1)) as (rd & Hdir & _).
  destruct rd as [dir|e]; [|by rewrite (bind_Raise _ _ _ _ _ Hdir)].
  rewrite (bind_Ok _ _ _ _ _ Hdir).
  destruct (shuffle_from_returns getrandbits (length candidates - 1) candidates
              (logged INFO "found total images: " w1)) as (shuffled & w2 & Hshuffle).
  pose proof (shuffle_from_http_log _ _ _ _ _ _ Hshuffle) as Hlog.
  cbn [logged http_log] in Hlog.
  fold (shuffle getrandbits candidates) in Hshuffle.
  rewrite (bind_Ok _ _ _ _ _ Hshuffle).
  set (count := Z.to_nat (Z.min image_count (Z.of_nat (length shuffled)))).
  destruct (images_loop (take count shuffled) dir [] w2) as [[paths1|e] w3] eqn:Hloop;
    [|by rewrite (bind_Raise _ _ _ _ _ Hloop)].
  rewrite (bind_Ok _ _ _ _ _ Hloop), (bind_Ok _ _ _ _ _ (logger_run _ _ _)).
  intros [= _ <-]. cbn [logged http_log].
  apply images_loop_requests in Hloop. rewrite length_take, Hlog in Hloop.
  subst count. lia.
Qed.

End Budget.

Lemma download_images_request_budget_witness :
  exists paths w',
    download_images Demo.config_app Demo.md5 Demo.storage_dir Demo.task_dir
      Demo.urlencode Demo.http_all Demo.video_probe (list byte) Demo.image_open
      Demo.image_save 4096 Demo.getrandbits "task-1" ["cats"; "dogs"] "pexels"
      VideoAspect.portrait 1 "all" Demo.world0 = (Ok paths, w') /\
    (2 <= length (http_log w') <= 3)%nat.
Proof.
  eexists _, _. split; [vm_compute; reflexivity|].
  eapply (download_images_request_budget Demo.config_app Demo.md5 Demo.storage_dir
           Demo.task_dir Demo.urlencode Demo.http_all Demo.video_probe (list byte)
           Demo.image_open Demo.image_save 4096 Demo.getrandbits "task-1"
           ["cats"; "dogs"] "pexels" VideoAspect.portrait 1 "all" Demo.world0).
  vm_compute. reflexivity.
Defined.

(** ** The number of clips of a download *)

Section Count.

Variable config_app : gmap string cfg_value.
Variable md5 : string -> string.
Variable storage_dir : string -> string.
Variable task_dir : string -> string.
Variable to_resolution : VideoAspect.t -> Z * Z.
Variable urlencode : list (string * string) -> string.
Variable int_of_str : string -> option Z.
Variable http_reply : nat -> request -> option response.
Variable video_probe : list byte -> option clip_info.
Variable PIL_Image : Type.
Variable image_open : list byte -> option PIL_Image.
Variable image_save : PIL_Image -> option (list byte).
Variable mkdir_size : N.
Variable getrandbits : nat -> nat.

Abbreviation save_material :=
  (save_material md5 storage_dir http_reply video_probe PIL_Image image_open
     image_save mkdir_size).
Abbreviation videos_loop :=
  (videos_loop md5 storage_dir http_reply video_probe PIL_Image image_open
     image_save mkdir_size).
Abbreviation download_videos :=
  (download_videos config_app md5 storage_dir task_dir to_resolution urlencode
     int_of_str http_reply video_probe PIL_Image image_open image_save mkdir_size
     getrandbits).
Abbreviation collect_videos :=
  (collect_videos config_app to_resolution urlencode int_of_str http_reply).
Abbreviation search_videos_pexels :=
  (search_videos_pexels config_app to_resolution urlencode int_of_str http_reply).
Abbreviation search_videos_pixabay :=
  (search_videos_pixabay config_app to_resolution urlencode int_of_str http_reply).

(** The candidates of a video search last the minimum or more. *)
Lemma search_videos_pexels_long search_term minimum_duration aspect w items w' :
  search_videos_pexels search_term minimum_duration aspect w = (Ok items, w') ->
  Forall (fun item => (inject_Z minimum_duration <= duration item)%Q) items.
Proof.
  intros (req & -> & _)%search_videos_pexels_items.
  destruct (adapter_outcome _ _ _) as [items'|] eqn:Houtcome; cbn; [|constructor].
  apply (adapter_outcome_listed "videos"
           (fun videos => material.pexels_videos int_of_str videos minimum_duration
                            (to_resolution aspect).1 (to_resolution aspect).2 []))
    in Houtcome as (videos & _ & Hloop).
  apply pexels_videos_spec in Hloop as (new & -> & Hnew).
  eapply Forall_impl; [exact Hnew|]. intros item (v & _ & Hc).
  by destruct Hc as (? & ? & ? & ? & ? & ? & _ & _ & Hlong & _).
Qed.

Lemma search_videos_pixabay_long search_term minimum_duration aspect w items w' :
  search_videos_pixabay search_term minimum_duration aspect w = (Ok items, w') ->
  Forall (fun item => (inject_Z minimum_duration <= duration item)%Q) items.
Proof.
  intros (req & -> & _)%search_videos_pixabay_items.
  destruct (adapter_outcome _ _ _) as [items'|] eqn:Houtcome; cbn; [|constructor].
  apply (adapter_outcome_listed "hits"
           (fun videos => material.pixabay_videos int_of_str videos minimum_duration
                            (to_resolution aspect).1 []))
    in Houtcome as (videos & _ & Hloop).
  apply pixabay_videos_spec in Hloop as (new & -> & Hnew).
  eapply Forall_impl; [exact Hnew|]. intros item (v & _ & Hc).
  by destruct Hc as (? & ? & ? & ? & ? & ? & _ & _ & Hlong & _).
Qed.

(** A candidate that lasts [max_clip_duration] or more counts for
    [max_clip_duration] seconds. *)
Lemma seconds_capped cap item :
  (inject_Z cap <= duration item)%Q -> seconds cap item = inject_Z cap.
Proof.
  intros Hlong. unfold seconds, py_min.
  destruct (Qltb (duration item) (inject_Z cap)) eqn:Hlt; [|done].
  apply Qltb_lt in Hlt. destruct (Qlt_not_le _ _ Hlt Hlong).
Qed.

(** The loop over candidates that all last [max_clip_duration] or more: the
    running duration is [max_clip_duration] times the number of paths. *)
Lemma videos_loop_count material_directory audio cap items st w :
  (0 <= inject_Z cap)%Q ->
  Forall (fun item => (inject_Z cap <= duration item)%Q) items ->
  stopped st = false -> (total_duration st <= audio)%Q ->
  (total_duration st == inject_Z (Z.of_nat (length (video_paths st))) * inject_Z cap)%Q ->
  exists st' w',
    videos_loop material_directory audio cap items st w = (Ok st', w') /\
    (inject_Z (Z.of_nat (length (video_paths st'))) * inject_Z cap
     <= audio + inject_Z cap)%Q.
Proof.
  intros Hcap. revert st w.
  induction items as [|item rest IH]; intros st w Hall Hgo Hwithin Hinv.
  { exists st, w. split; [done|]. rewrite <- Hinv. lra. }
  apply Forall_cons in Hall as [Hlong Hrest].
  destruct (save_material (url item) material_directory (type item)
              (logged INFO "downloading video: " w)) as [r w1] eqn:Hsave.
  destruct (videos_loop_turn md5 storage_dir http_reply video_probe PIL_Image
              image_open image_save mkdir_size material_directory audio cap
              item rest st w r w1 Hsave) as (st1 & w2 & _ & Hloop & Hturn).
  rewrite Hloop. destruct r as [p|e]; [destruct (String.eqb p "")|].
  - subst st1. rewrite Hgo. by apply IH.
  - destruct Hturn as (Hpaths & Htotal & Hstop).
    rewrite (seconds_capped _ _ Hlong) in Htotal.
    assert (Hinv1 : (total_duration st1
                     == inject_Z (Z.of_nat (length (video_paths st1))) * inject_Z cap)%Q).
    { rewrite Htotal, Hpaths, length_app. cbn [length].
      rewrite Nat.add_1_r, Nat2Z.inj_succ. unfold Z.succ.
      rewrite inject_Z_plus, Hinv. ring. }
    destruct (stopped st1) eqn:Hst1.
    + exists st1, w2. split; [done|]. rewrite <- Hinv1, Htotal. lra.
    + apply IH; try done. apply Qnot_lt_le. intros Hlt%Hstop. done.
  - subst st1. rewrite Hgo. by apply IH.
Qed.

(** X25: the clips of a download are no more than the audio needs, and one:
    every candidate the search retains lasts [max_clip_duration] or more, so
    each saved clip counts for [max_clip_duration] seconds and the loop
    stops at the first clip that takes the sum above [audio_duration]. The
    paths [download_videos] returns, times [max_clip_duration], are within
    [audio_duration + max_clip_duration]; with an audio shorter than one
    clip, as with the default [audio_duration] of zero, one path at most
    is returned. *)
Theorem download_videos_count task_id search_terms source aspect video_contact_mode
    audio_duration max_clip_duration w paths w' :
  (0 <= audio_duration)%Q -> (0 <= max_clip_duration)%Z ->
  download_videos task_id search_terms source aspect video_contact_mode
    audio_duration max_clip_duration w = (Ok paths, w') ->
  (inject_Z (Z.of_nat (length paths)) * inject_Z max_clip_duration
   <= audio_duration + inject_Z max_clip_duration)%Q /\
  ((audio_duration < inject_Z max_clip_duration)%Q -> (length paths <= 1)%nat).
Proof.
  intros Haudio Hcap Hrun. rewrite Zle_Qle in Hcap.
  assert (Hcount : (inject_Z (Z.of_nat (length paths)) * inject_Z max_clip_duration
                    <= audio_duration + inject_Z max_clip_duration)%Q).
  { unfold material.download_videos in Hrun.
    destruct (collect_videos search_terms source aspect max_clip_duration w)
      as [[[[candidates urls] total]|e] w1] eqn:Hcollect;
      [|by rewrite (bind_Raise _ _ _ _ _ Hcollect) in Hrun].
    rewrite (bind_Ok _ _ _ _ _ Hcollect), (bind_Ok _ _ _ _ _ (logger_run _ _ _)) in Hrun.
    assert (Hlong : Forall (fun item => (inject_Z max_clip_duration <= duration item)%Q)
                      candidates).
    { unfold material.collect_videos in Hcollect.
      eapply (search_all_Forall _ _ _ _ ([], [], 0%Q) _ (candidates, urls, total))
        in Hcollect; [exact Hcollect| |constructor].
      intros search_term w0 items0 w2.
      destruct (String.eqb source "pixabay");
        [apply search_videos_pixabay_long|apply search_videos_pexels_long]. }
    destruct (resolve_material_directory_run config_app task_dir task_id
                (logged INFO "found total videos, required duration, found duration" w1))
      as (rd & Hdir & _).
    destruct rd as [dir|e]; [|by rewrite (bind_Raise _ _ _ _ _ Hdir) in Hrun].
    rewrite (bind_Ok _ _ _ _ _ Hdir) in Hrun.
    destruct video_contact_mode.
    - destruct (shuffle_from_returns getrandbits (length candidates - 1) candidates
                  (logged INFO "found total videos, required duration, found duration" w1))
        as (shuffled & w2 & Hshuffle).
      pose proof (shuffle_from_Permutation _ _ _ _ _ _ Hshuffle) as Hperm.
      fold (shuffle getrandbits candidates) in Hshuffle.
      rewrite (bind_Ok _ _ _ _ _ Hshuffle) in Hrun.
      rewrite <- Hperm in Hlong.
      destruct (videos_loop_count dir audio_duration max_clip_duration shuffled
                  (LoopState [] 0 false) w2 Hcap Hlong eq_refl Haudio)
        as (st' & w3 & Hloop & Hbound); [cbn; ring|].
      rewrite (bind_Ok _ _ _ _ _ Hloop), (bind_Ok _ _ _ _ _ (logger_run _ _ _)) in Hrun.
      by injection Hrun as <- <-.
    - unfold mbind at 1, M_bind at 1 in Hrun. unfold mret at 1, M_ret at 1 in Hrun.
      destruct (videos_loop_count dir audio_duration max_clip_duration candidates
                  (LoopState [] 0 false)
                  (logged INFO "found total videos, required duration, found duration" w1)
                  Hcap Hlong eq_refl Haudio)
        as (st' & w3 & Hloop & Hbound); [cbn; ring|].
      rewrite (bind_Ok _ _ _ _ _ Hloop), (bind_Ok _ _ _ _ _ (logger_run _ _ _)) in Hrun.
      by injection Hrun as <- <-. }
  split; [done|]. intros Hshort.
  destruct (Nat.le_gt_cases (length paths) 1) as [Hle | Hgt]; [done|].
  assert (Htwo : (inject_Z 2 <= inject_Z (Z.of_nat (length paths)))%Q)
    by (rewrite <- Zle_Qle; lia).
  pose proof (Qmult_le_compat_r _ _ _ Htwo Hcap) as Hmul.
  change (inject_Z 2) with 2%Q in Hmul. lra.
Qed.

End Count.

Lemma download_videos_count_witness :
  exists paths w',
    download_videos Demo.config_app Demo.md5 Demo.storage_dir Demo.task_dir
      Demo.to_resolution Demo.urlencode Demo.int_of_str Demo.http_all
      Demo.video_probe (list byte) Demo.image_open Demo.image_save 4096
      Demo.getrandbits "task-1" ["cats"; "dogs"] "pexels" VideoAspect.portrait
      VideoConcatMode.random 0 5 Demo.world0 = (Ok paths, w') /\
    (length paths <= 1)%nat.
Proof.
  eexists _, _. split; [vm_compute; reflexivity|].
  eapply (download_videos_count Demo.config_app Demo.md5 Demo.storage_dir
            Demo.task_dir Demo.to_resolution Demo.urlencode Demo.int_of_str
            Demo.http_all Demo.video_probe (list byte) Demo.image_open
            Demo.image_save 4096 Demo.getrandbits "task-1" ["cats"; "dogs"]
            "pexels" VideoAspect.portrait VideoConcatMode.random 0 5 Demo.world0).
  - done.
  - done.
  - vm_compute. reflexivity.
  - reflexivity.
Defined.

(** ** The choice of the provider *)

(** The requests of a search phase, one for every term, in their order *)
Lemma search_all_log (P : string -> request -> Prop) search kind search_terms acc w
    acc' w' :
  (forall search_term w0 items w1,
     search search_term w0 = (Ok items, w1) ->
     exists req, P search_term req /\ http_log w1 = http_log w0 ++ [req]) ->
  search_all search kind search_terms acc w = (Ok acc', w') ->
  exists searches,
    http_log w' = http_log w ++ searches /\ Forall2 P search_terms searches.
Proof.
  intros Hsearch. revert acc w.
  induction search_terms as [|search_term rest IH]; intros acc w; cbn [search_all].
  { intros [= _ <-]. exists []. by rewrite app_nil_r. }
  destruct (search search_term w) as [[items|e] w1] eqn:Hrun.
  - rewrite (bind_Ok _ _ _ _ _ Hrun), (bind_Ok _ _ _ _ _ (logger_run _ _ _)).
    intros (searches & Hlog & Hall)%IH. cbn [logged http_log] in Hlog.
    destruct (Hsearch _ _ _ _ Hrun) as (req & Hreq & Hlog1).
    exists (req :: searches). split; [|by constructor].
    by rewrite Hlog, Hlog1, <- (assoc_L (++)).
  - by rewrite (bind_Raise _ _ _ _ _ Hrun).
Qed.

(** A search phase whose adapter always returns, returns. *)
Lemma search_all_returns search kind search_terms acc w :
  (forall search_term w0, exists items w1, search search_term w0 = (Ok items, w1)) ->
  exists acc' w', search_all search kind search_terms acc w = (Ok acc', w').
Proof.
  intros Hsearch. revert acc w.
  induction search_terms as [|search_term rest IH]; intros acc w; cbn [search_all].
  { by eexists _, _. }
  destruct (Hsearch search_term w) as (items & w1 & Hrun).
  rewrite (bind_Ok _ _ _ _ _ Hrun), (bind_Ok _ _ _ _ _ (logger_run _ _ _)).
  apply IH.
Qed.

Section Source.

Variable config_app : gmap string cfg_value.
Variable md5 : string -> string.
Variable storage_dir : string -> string.
Variable task_dir : string -> string.
Variable to_resolution : VideoAspect.t -> Z * Z.
Variable urlencode : list (string * string) -> string.
Variable int_of_str : string -> option Z.
Variable http_reply : nat -> request -> option response.
Variable video_probe : list byte -> option clip_info.
Variable PIL_Image : Type.
Variable image_open : list byte -> option PIL_Image.
Variable image_save : PIL_Image -> option (list byte).
Variable mkdir_size : N.
Variable getrandbits : nat -> nat.

Abbreviation get_api_key := (get_api_key config_app).
Abbreviation save_material :=
  (save_material md5 storage_dir http_reply video_probe PIL_Image image_open
     image_save mkdir_size).
Abbreviation videos_body :=
  (videos_body md5 storage_dir http_reply video_probe PIL_Image image_open
     image_save mkdir_size).
Abbreviation videos_loop :=
  (videos_loop md5 storage_dir http_reply video_probe PIL_Image image_open
     image_save mkdir_size).
Abbreviation images_loop :=
  (images_loop md5 storage_dir http_reply video_probe PIL_Image image_open
     image_save mkdir_size).
Abbreviation download_videos :=
  (download_videos config_app md5 storage_dir task_dir to_resolution urlencode
     int_of_str http_reply video_probe PIL_Image image_open image_save mkdir_size
     getrandbits).
Abbreviation download_images :=
  (download_images config_app md5 storage_dir task_dir urlencode http_reply
     video_probe PIL_Image image_open image_save mkdir_size getrandbits).
Abbreviation search_videos_pexels :=
  (search_videos_pexels config_app to_resolution urlencode int_of_str http_reply).
Abbreviation search_images_pexels := (search_images_pexels config_app urlencode http_reply).

Lemma get_api_key_configured cfg_key w :
  configured config_app cfg_key -> exists k w1, get_api_key cfg_key w = (Ok k, w1).
Proof.
  intros (v & Hcfg & Htruthy). destruct v as [s|l].
  - unfold material.get_api_key. rewrite Hcfg, Htruthy. by eexists _, _.
  - destruct (get_api_key_list config_app cfg_key l w Hcfg) as (k & _ & Hrun).
    { by intros ->. }
    by eexists _, _.
Qed.

Lemma get_api_key_not_configured cfg_key w :
  ~ configured config_app cfg_key -> get_api_key cfg_key w = (Raise ValueError, w).
Proof.
  intros Hnot. unfold material.get_api_key.
  destruct (config_app !! cfg_key) as [v|] eqn:Hcfg; [|done].
  destruct (cfg_truthy v) eqn:Htruthy; [|done].
  destruct Hnot. by exists v.
Qed.

(** The request of a Pexels video search that returns *)
Lemma search_videos_pexels_request search_term minimum_duration aspect w items w' :
  search_videos_pexels search_term minimum_duration aspect w = (Ok items, w') ->
  exists req,
    pexels_video_search config_app urlencode aspect search_term req /\
    http_log w' = http_log w ++ [req].
Proof.
  unfold material.search_videos_pexels.
  destruct (to_resolution aspect) as [video_width video_height].
  destruct (get_api_key "pexels_api_keys" w) as [[api_key|e] w1] eqn:Hkey;
    [|by rewrite (bind_Raise _ _ _ _ _ Hkey)].
  rewrite (bind_Ok _ _ _ _ _ Hkey), (bind_Ok _ _ _ _ _ (logger_run _ _ _)).
  intros Hret.
  lazymatch type of Hret with
  | ?run = _ =>
      eassert (Hrun : run = _)
        by exact (search_try_run http_reply "videos" _ _ _ _
                    (logged INFO "searching videos: " w1))
  end.
  rewrite Hrun in Hret. injection Hret as _ <-.
  eexists. split.
  2: { unfold answered. destruct (adapter_outcome _ _ _); cbn [http_log logged];
       by rewrite (get_api_key_http_log _ _ _ _ _ Hkey). }
  by exists api_key, w, w1.
Qed.

(** The request of a Pexels image search that returns *)
Lemma search_images_pexels_request search_term aspect image_type w items w' :
  search_images_pexels search_term aspect image_type 40%Z w = (Ok items, w') ->
  exists req,
    pexels_image_search config_app urlencode aspect search_term req /\
    http_log w' = http_log w ++ [req].
Proof.
  unfold material.search_images_pexels.
  destruct (get_api_key "pexels_api_keys" w) as [[api_key|e] w1] eqn:Hkey;
    [|by rewrite (bind_Raise _ _ _ _ _ Hkey)].
  rewrite (bind_Ok _ _ _ _ _ Hkey), (bind_Ok _ _ _ _ _ (logger_run _ _ _)).
  intros Hret.
  lazymatch type of Hret with
  | ?run = _ =>
      eassert (Hrun : run = _)
        by exact (search_try_run http_reply "photos" _ _ _ _
                    (logged INFO "searching images: " w1))
  end.
  rewrite Hrun in Hret. injection Hret as _ <-.
  eexists. split.
  2: { unfold answered. destruct (adapter_outcome _ _ _); cbn [http_log logged];
       by rewrite (get_api_key_http_log _ _ _ _ _ Hkey). }
  by exists api_key, w, w1.
Qed.

Lemma search_videos_pexels_returns search_term minimum_duration aspect w :
  configured config_app "pexels_api_keys" ->
  exists items w', search_videos_pexels search_term minimum_duration aspect w
                   = (Ok items, w').
Proof.
  intros Hset. destruct (get_api_key_configured _ w Hset) as (api_key & w1 & Hkey).
  destruct (search_videos_pexels_run config_app to_resolution urlencode int_of_str
              http_reply search_term minimum_duration aspect _ _ _ Hkey) as [req Hrun].
  by eexists _, _.
Qed.

Lemma search_images_pexels_returns search_term aspect image_type per_page w :
  configured config_app "pexels_api_keys" ->
  exists items w', search_images_pexels search_term aspect image_type per_page w
                   = (Ok items, w').
Proof.
  intros Hset. destruct (get_api_key_configured _ w Hset) as (api_key & w1 & Hkey).
  destruct (search_images_pexels_run config_app urlencode http_reply search_term
              aspect image_type per_page _ _ _ Hkey) as [req Hrun].
  by eexists _, _.
Qed.

(** The requests on record stay on record. *)
Lemma save_material_log url save_dir material_type w r1 w1 :
  save_material url save_dir material_type w = (r1, w1) ->
  exists downloads, http_log w1 = http_log w ++ downloads.
Proof.
  intros Hrun.
  assert (H : http_log w1 = http_log w \/
              http_log w1 = http_log w ++ [Request url [("User-Agent", user_agent)]]).
  { revert Hrun. destruct material_type; cbn [material.save_material].
    - intros Hrun%save_video_result. apply Hrun.
    - apply save_image_requests. }
  destruct H as [-> | ->]; [exists []; by rewrite app_nil_r|by eexists].
Qed.

Lemma videos_body_log material_directory audio cap item st w r w' :
  videos_body material_directory audio cap item st w = (r, w') ->
  exists downloads, http_log w' = http_log w ++ downloads.
Proof.
  unfold material.videos_body, try_except.
  rewrite (bind_Ok _ _ _ _ _ (logger_run _ _ _)).
  destruct (save_material (url item) material_directory (type item)
              (logged INFO "downloading video: " w)) as [[p|e] w1] eqn:Hsave;
    apply save_material_log in Hsave as Hlog; cbn [logged http_log] in Hlog.
  - rewrite (bind_Ok _ _ _ _ _ Hsave).
    destruct (String.eqb p ""); cbn [negb]; [by intros [= _ <-]|].
    rewrite (bind_Ok _ _ _ _ _ (logger_run _ _ _)). cbn zeta.
    destruct (Qltb _ _); [rewrite (bind_Ok _ _ _ _ _ (logger_run _ _ _))|];
      by intros [= _ <-].
  - rewrite (bind_Raise _ _ _ _ _ Hsave).
    rewrite (bind_Ok _ _ _ _ _ (logger_run _ _ _)). by intros [= _ <-].
Qed.

Lemma videos_loop_log material_directory audio cap items st w r w' :
  videos_loop material_directory audio cap items st w = (r, w') ->
  exists downloads, http_log w' = http_log w ++ downloads.
Proof.
  revert st w. induction items as [|item rest IH]; intros st w;
    cbn [material.videos_loop].
  { intros [= _ <-]. exists []. by rewrite app_nil_r. }
  destruct (videos_body material_directory audio cap item st w)
    as [[st1|e] w1] eqn:Hbody; apply videos_body_log in Hbody as Hlog;
    destruct Hlog as [first Hlog].
  - rewrite (bind_Ok _ _ _ _ _ Hbody). destruct (stopped st1).
    + intros [= _ <-]. by exists first.
    + intros [more Hmore]%IH. exists (first ++ more).
      by rewrite Hmore, Hlog, <- (assoc_L (++)).
  - rewrite (bind_Raise _ _ _ _ _ Hbody). intros [= _ <-]. by exists first.
Qed.

Lemma images_loop_log items material_directory image_paths w r w' :
  images_loop items material_directory image_paths w = (r, w') ->
  exists downloads, http_log w' = http_log w ++ downloads.
Proof.
  revert image_paths w. induction items as [|item rest IH]; intros image_paths w.
  { intros [= _ <-]. exists []. by rewrite app_nil_r. }
  cbn [material.images_loop].
  lazymatch goal with
  | |- context [try_except ?c ?h ≫= _] =>
      assert (Htry : exists paths1 w2 first,
        try_except c h w = (Ok paths1, w2) /\ http_log w2 = http_log w ++ first)
  end.
  { unfold try_except. rewrite (bind_Ok _ _ _ _ _ (logger_run _ _ _)).
    destruct (save_material (url item) material_directory (type item)
                (logged INFO "downloading image: " w)) as [[p|e] w1] eqn:Hsave;
      apply save_material_log in Hsave as Hlog; cbn [logged http_log] in Hlog;
      destruct Hlog as [first Hlog].
    - rewrite (bind_Ok _ _ _ _ _ Hsave).
      destruct (String.eqb p ""); cbn [negb]; [by eexists _, _, first|].
      rewrite (bind_Ok _ _ _ _ _ (logger_run _ _ _)). by eexists _, _, first.
    - rewrite (bind_Raise _ _ _ _ _ Hsave).
      rewrite (bind_Ok _ _ _ _ _ (logger_run _ _ _)). by eexists _, _, first. }
  destruct Htry as (paths1 & w2 & first & Htry & Hlog).
  rewrite (bind_Ok _ _ _ _ _ Htry). intros [more Hmore]%IH.
  exists (first ++ more). by rewrite Hmore, Hlog, <- (assoc_L (++)).
Qed.

(** The directory is resolved unless it is configured as a list. *)
Lemma resolve_material_directory_returns task_id w :
  (forall l, config_app !! "material_directory" ≠ Some (CfgList l)) ->
  exists dir,
    material.resolve_material_directory config_app task_dir task_id w = (Ok dir, w).
Proof.
  intros Hdir.
  destruct (resolve_material_directory_run config_app task_dir task_id w)
    as (rd & Hrun & Hcases).
  destruct rd as [dir|e]; [by exists dir|]. exfalso. revert Hcases.
  destruct (config_app !! "material_directory") as [[s|l]|] eqn:Hcfg; [| |done].
  - destruct (String.eqb (strip s) "task"); [done|]. by destruct (is_dir _ _).
  - by destruct (Hdir l).
Qed.

(** C10: for every [source] other than the string ["pixabay"] (["pexels"],
    the empty string, any other string), [download_videos] and
    [download_images] search with the Pexels adapters, and the source raises
    no error. The run is the run for ["pexels"]. A run that returns has
    first made one request for every search term, in their order, each to
    the Pexels search with a key of ["pexels_api_keys"] in its
    [Authorization] header, and only then the requests of the downloads.
    The key asked for is the one of Pexels: when it is configured the run
    returns, whatever there is for Pixabay (a material directory configured
    as a list apart), and when it is not, a run with a term to search
    raises [ValueError] at once. *)
Theorem source_defaults_to_pexels source task_id search_terms aspect w :
  source ≠ "pixabay" ->
  (forall video_contact_mode audio_duration max_clip_duration,
     download_videos task_id search_terms source aspect video_contact_mode
       audio_duration max_clip_duration
     = download_videos task_id search_terms "pexels" aspect video_contact_mode
         audio_duration max_clip_duration) /\
  (forall image_count image_type,
     download_images task_id search_terms source aspect image_count image_type
     = download_images task_id search_terms "pexels" aspect image_count image_type) /\
  (forall video_contact_mode audio_duration max_clip_duration paths w',
     download_videos task_id search_terms source aspect video_contact_mode
       audio_duration max_clip_duration w = (Ok paths, w') ->
     exists searches downloads,
       http_log w' = http_log w ++ searches ++ downloads /\
       Forall2 (pexels_video_search config_app urlencode aspect)
         search_terms searches) /\
  (forall image_count image_type paths w',
     download_images task_id search_terms source aspect image_count image_type w
     = (Ok paths, w') ->
     exists searches downloads,
       http_log w' = http_log w ++ searches ++ downloads /\
       Forall2 (pexels_image_search config_app urlencode aspect)
         search_terms searches) /\
  (configured config_app "pexels_api_keys" ->
   (forall l, config_app !! "material_directory" ≠ Some (CfgList l)) ->
   (forall video_contact_mode audio_duration max_clip_duration,
      exists paths w',
        download_videos task_id search_terms source aspect video_contact_mode
          audio_duration max_clip_duration w = (Ok paths, w')) /\
   (forall image_count image_type,
      exists paths w',
        download_images task_id search_terms source aspect image_count image_type w
        = (Ok paths, w'))) /\
  (~ configured config_app "pexels_api_keys" -> search_terms ≠ [] ->
   (forall video_contact_mode audio_duration max_clip_duration,
      download_videos task_id search_terms source aspect video_contact_mode
        audio_duration max_clip_duration w = (Raise ValueError, w)) /\
   (forall image_count image_type,
      download_images task_id search_terms source aspect image_count image_type w
      = (Raise ValueError, w))).
Proof.
  intros Hsource%String.eqb_neq.
  split; [|split; [|split; [|split; [|split]]]].
  - intros video_contact_mode audio_duration max_clip_duration.
    unfold material.download_videos, material.collect_videos. by rewrite Hsource.
  - intros image_count image_type.
    unfold material.download_images, material.collect_images. by rewrite Hsource.
  - intros video_contact_mode audio_duration max_clip_duration paths w'.
    unfold material.download_videos, material.collect_videos. rewrite Hsource.
    destruct (search_all
                (fun search_term =>
                   search_videos_pexels search_term max_clip_duration aspect)
                "videos" search_terms ([], [], 0%Q) w)
      as [[[[candidates urls] total]|e] w1] eqn:Hcollect;
      [|by rewrite (bind_Raise _ _ _ _ _ Hcollect)].
    rewrite (bind_Ok _ _ _ _ _ Hcollect), (bind_Ok _ _ _ _ _ (logger_run _ _ _)).
    apply (search_all_log (pexels_video_search config_app urlencode aspect))
      in Hcollect as (searches & Hlog1 & Hall);
      [|intros search_term w0 items w2; apply search_videos_pexels_request].
    destruct (resolve_material_directory_run config_app task_dir task_id
                (logged INFO "found total videos, required duration, found duration" w1))
      as (rd & Hdir & _).
    destruct rd as [dir|e]; [|by rewrite (bind_Raise _ _ _ _ _ Hdir)].
    rewrite (bind_Ok _ _ _ _ _ Hdir).
    destruct video_contact_mode.
    + destruct (shuffle_from_returns getrandbits (length candidates - 1) candidates
                  (logged INFO "found total videos, required duration, found duration" w1))
        as (shuffled & w2 & Hshuffle).
      pose proof (shuffle_from_http_log _ _ _ _ _ _ Hshuffle) as Hlog2.
      cbn [logged http_log] in Hlog2.
      fold (shuffle getrandbits candidates) in Hshuffle.
      rewrite (bind_Ok _ _ _ _ _ Hshuffle).
      destruct (videos_loop dir audio_duration max_clip_duration shuffled
                  (LoopState [] 0 false) w2) as [[st|e] w3] eqn:Hloop;
        [|by rewrite (bind_Raise _ _ _ _ _ Hloop)].
      rewrite (bind_Ok _ _ _ _ _ Hloop), (bind_Ok _ _ _ _ _ (logger_run _ _ _)).
      intros [= _ <-]. apply videos_loop_log in Hloop as [downloads Hlog3].
      exists searches, downloads. split; [|done].
      cbn [logged http_log]. by rewrite Hlog3, Hlog2, Hlog1, <- (assoc_L (++)).
    + unfold mbind at 1, M_bind at 1. unfold mret at 1, M_ret at 1.
      destruct (videos_loop dir audio_duration max_clip_duration candidates
                  (LoopState [] 0 false)
                  (logged INFO "found total videos, required duration, found duration" w1))
        as [[st|e] w3] eqn:Hloop; [|by rewrite (bind_Raise _ _ _ _ _ Hloop)].
      rewrite (bind_Ok _ _ _ _ _ Hloop), (bind_Ok _ _ _ _ _ (logger_run _ _ _)).
      intros [= _ <-]. apply videos_loop_log in Hloop as [downloads Hlog3].
      cbn [logged http_log] in Hlog3.
      exists searches, downloads. split; [|done].
      cbn [logged http_log]. by rewrite Hlog3, Hlog1, <- (assoc_L (++)).
  - intros image_count image_type paths w'.
    unfold material.download_images, material.collect_images. rewrite Hsource.
    destruct (search_all
                (fun search_term =>
                   search_images_pexels search_term aspect image_type 40%Z)
                "images" search_terms ([], [], 0%Q) w)
      as [[[[candidates urls] total]|e] w1] eqn:Hcollect;
      [|by rewrite (bind_Raise _ _ _ _ _ Hcollect)].
    rewrite (bind_Ok _ _ _ _ _ Hcollect), (bind_Ok _ _ _ _ _ (logger_run _ _ _)).
    apply (search_all_log (pexels_image_search config_app urlencode aspect))
      in Hcollect as (searches & Hlog1 & Hall);
      [|intros search_term w0 items w2; apply search_images_pexels_request].
    destruct (resolve_material_directory_run config_app task_dir task_id
                (logged INFO "found total images: " w1)) as (rd & Hdir & _).
    destruct rd as [dir|e]; [|by rewrite (bind_Raise _ _ _ _ _ Hdir)].
    rewrite (bind_Ok _ _ _ _ _ Hdir).
    destruct (shuffle_from_returns getrandbits (length candidates - 1) candidates
                (logged INFO "found total images: " w1)) as (shuffled & w2 & Hshuffle).
    pose proof (shuffle_from_http_log _ _ _ _ _ _ Hshuffle) as Hlog2.
    cbn [logged http_log] in Hlog2.
    fold (shuffle getrandbits candidates) in Hshuffle.
    rewrite (bind_Ok _ _ _ _ _ Hshuffle).
    set (count := Z.to_nat (Z.min image_count (Z.of_nat (length shuffled)))).
    destruct (images_loop (take count shuffled) dir [] w2) as [[paths1|e] w3] eqn:Hloop;
      [|by rewrite (bind_Raise _ _ _ _ _ Hloop)].
    rewrite (bind_Ok _ _ _ _ _ Hloop), (bind_Ok _ _ _ _ _ (logger_run _ _ _)).
    intros [= _ <-]. apply images_loop_log in Hloop as [downloads Hlog3].
    exists searches, downloads. split; [|done].
    cbn [logged http_log]. by rewrite Hlog3, Hlog2, Hlog1, <- (assoc_L (++)).
  - intros Hset Hdirok. split.
    + intros video_contact_mode audio_duration max_clip_duration.
      unfold material.download_videos, material.collect_videos. rewrite Hsource.
      destruct (search_all_returns
                  (fun search_term =>
                     search_videos_pexels search_term max_clip_duration aspect)
                  "videos" search_terms ([], [], 0%Q) w)
        as ([[candidates urls] total] & w1 & Hcollect).
      { intros search_term w0. by apply search_videos_pexels_returns. }
      rewrite (bind_Ok _ _ _ _ _ Hcollect), (bind_Ok _ _ _ _ _ (logger_run _ _ _)).
      destruct (resolve_material_directory_returns task_id
                  (logged INFO "found total videos, required duration, found duration" w1)
                  Hdirok) as [dir Hdir].
      rewrite (bind_Ok _ _ _ _ _ Hdir).
      destruct video_contact_mode.
      * destruct (shuffle_from_returns getrandbits (length candidates - 1) candidates
                    (logged INFO "found total videos, required duration, found duration"
                       w1)) as (shuffled & w2 & Hshuffle).
        fold (shuffle getrandbits candidates) in Hshuffle.
        rewrite (bind_Ok _ _ _ _ _ Hshuffle).
        destruct (videos_loop_kept md5 storage_dir http_reply video_probe PIL_Image
                    image_open image_save mkdir_size dir audio_duration
                    max_clip_duration shuffled (LoopState [] 0 false) w2)
          as (st' & w3 & kept & Hloop & _).
        rewrite (bind_Ok _ _ _ _ _ Hloop), (bind_Ok _ _ _ _ _ (logger_run _ _ _)).
        by eexists _, _.
      * unfold mbind at 1, M_bind at 1. unfold mret at 1, M_ret at 1.
        destruct (videos_loop_kept md5 storage_dir http_reply video_probe PIL_Image
                    image_open image_save mkdir_size dir audio_duration
                    max_clip_duration candidates (LoopState [] 0 false)
                    (logged INFO "found total videos, required duration, found duration"
                       w1)) as (st' & w3 & kept & Hloop & _).
        rewrite (bind_Ok _ _ _ _ _ Hloop), (bind_Ok _ _ _ _ _ (logger_run _ _ _)).
        by eexists _, _.
    + intros image_count image_type.
      unfold material.download_images, material.collect_images. rewrite Hsource.
      destruct (search_all_returns
                  (fun search_term =>
                     search_images_pexels search_term aspect image_type 40%Z)
                  "images" search_terms ([], [], 0%Q) w)
        as ([[candidates urls] total] & w1 & Hcollect).
      { intros search_term w0. by apply search_images_pexels_returns. }
      rewrite (bind_Ok _ _ _ _ _ Hcollect), (bind_Ok _ _ _ _ _ (logger_run _ _ _)).
      destruct (resolve_material_directory_returns task_id
                  (logged INFO "found total images: " w1) Hdirok) as [dir Hdir].
      rewrite (bind_Ok _ _ _ _ _ Hdir).
      destruct (shuffle_from_returns getrandbits (length candidates - 1) candidates
                  (logged INFO "found total images: " w1)) as (shuffled & w2 & Hshuffle).
      fold (shuffle getrandbits candidates) in Hshuffle.
      rewrite (bind_Ok _ _ _ _ _ Hshuffle).
      set (count := Z.to_nat (Z.min image_count (Z.of_nat (length shuffled)))).
      destruct (images_loop_kept md5 storage_dir http_reply video_probe PIL_Image
                  image_open image_save mkdir_size dir (take count shuffled) [] w2)
        as (paths1 & w3 & kept & Hloop & _).
      rewrite (bind_Ok _ _ _ _ _ Hloop), (bind_Ok _ _ _ _ _ (logger_run _ _ _)).
      by eexists _, _.
  - intros Hunset Hterms.
    destruct search_terms as [|search_term rest]; [done|].
    pose proof (get_api_key_not_configured "pexels_api_keys" w Hunset) as Hkey.
    split.
    + intros video_contact_mode audio_duration max_clip_duration.
      unfold material.download_videos, material.collect_videos. rewrite Hsource.
      apply bind_Raise. cbn [search_all]. apply bind_Raise.
      unfold material.search_videos_pexels. destruct (to_resolution aspect).
      by apply bind_Raise.
    + intros image_count image_type.
      unfold material.download_images, material.collect_images. rewrite Hsource.
      apply bind_Raise. cbn [search_all]. apply bind_Raise.
      unfold material.search_images_pexels. by apply bind_Raise.
Qed.

End Source.

Lemma source_defaults_to_pexels_witness :
  (exists paths w' searches downloads,
     download_videos Demo.config_directory Demo.md5 Demo.storage_dir Demo.task_dir
       Demo.to_resolution Demo.urlencode Demo.int_of_str Demo.http_all
       Demo.video_probe (list byte) Demo.image_open Demo.image_save 4096
       Demo.getrandbits "task-1" ["cats"; "dogs"] "youtube" VideoAspect.portrait
       VideoConcatMode.random 7 5 Demo.world_directory = (Ok paths, w') /\
     http_log w' = searches ++ downloads /\
     Forall2 (pexels_video_search Demo.config_directory Demo.urlencode
                VideoAspect.portrait) ["cats"; "dogs"] searches) /\
  download_images Demo.config_directory Demo.md5 Demo.storage_dir Demo.task_dir
    Demo.urlencode Demo.http_all Demo.video_probe (list byte) Demo.image_open
    Demo.image_save 4096 Demo.getrandbits "task-1" ["cats"] "" VideoAspect.portrait
    20 "all"
  = download_images Demo.config_directory Demo.md5 Demo.storage_dir Demo.task_dir
      Demo.urlencode Demo.http_all Demo.video_probe (list byte) Demo.image_open
      Demo.image_save 4096 Demo.getrandbits "task-1" ["cats"] "pexels"
      VideoAspect.portrait 20 "all".
Proof.
  split.
  - destruct (source_defaults_to_pexels Demo.config_directory Demo.md5
                Demo.storage_dir Demo.task_dir Demo.to_resolution Demo.urlencode
                Demo.int_of_str Demo.http_all Demo.video_probe (list byte)
                Demo.image_open Demo.image_save 4096 Demo.getrandbits "youtube"
                "task-1" ["cats"; "dogs"] VideoAspect.portrait Demo.world_directory)
      as (_ & _ & Hrequests & _ & Hreturns & _); [discriminate|].
    destruct Hreturns as [Hvideos _].
    { exists (CfgStr "key-a"). split; reflexivity. }
    { intros l. vm_compute. discriminate. }
    destruct (Hvideos VideoConcatMode.random 7%Q 5%Z) as (paths & w' & Hrun).
    destruct (Hrequests _ _ _ _ _ Hrun) as (searches & downloads & Hlog & Hall).
    exists paths, w', searches, downloads.
    split; [exact Hrun|]. split; [exact Hlog|exact Hall].
  - apply (source_defaults_to_pexels Demo.config_directory Demo.md5 Demo.storage_dir
             Demo.task_dir Demo.to_resolution Demo.urlencode Demo.int_of_str
             Demo.http_all Demo.video_probe (list byte) Demo.image_open
             Demo.image_save 4096 Demo.getrandbits "" "task-1" ["cats"]
             VideoAspect.portrait Demo.world_directory).
    discriminate.
Defined.
